(** * CSI acquisition core of [src/api/route.py]

    A shallow embedding of the session controller ([start_collection]),
    the packet collector ([CSICollector]), the video recorder
    ([VideoRecorder]) and the serial handler ([ESP32SerialHandler]) of the
    WiFiVision counting tools, together with the properties of the
    accompanying prose specification.

    Conventions.
    - Python objects that the module keeps in globals are fields of one
      [World] record; every method is a function in a state-and-exception
      monad over that record.
    - What the operating system and the hardware decide (which serial ports
      exist, whether a file can be opened, whether the camera delivers a
      frame, what the clock reads) is part of the [World] as well, so every
      method can be run on a concrete world.
    - Threads are not interleaved: spawning one is recorded in the event
      trace, and the body of a reader thread is a function that can be fed
      lines. *)

From Stdlib Require Import String Ascii List ZArith NArith QArith Lia HexadecimalString.
From stdpp Require Import base option gmap strings list.

Open Scope string_scope.

(** * The model *)

(** ** Python built-ins on strings

    A string of the model stands for the Python string whose UTF-8 encoding
    it is; a byte that belongs to no UTF-8 sequence stands for the character
    of that code. [startswith], [split], [contains] and [lower] are only
    ever used with ASCII prefixes, separators and needles, for which working
    byte by byte gives what Python gives; [len] and [float] go through the
    characters. *)

Module Py.

(** [s.startswith(p)] *)
Definition startswith (s p : string) : bool := String.prefix p s.

(** [s[n:]] for a non-negative [n], on a string whose first [n] characters
    are ASCII *)
Fixpoint slice_from (n : nat) (s : string) : string :=
  match n, s with
  | O, _ => s
  | S _, EmptyString => EmptyString
  | S n', String _ s' => slice_from n' s'
  end.

(** [s.split(c)] for a one-character separator: never empty, one more
    field than there are separators. *)
Fixpoint split (c : ascii) (s : string) : list string :=
  match s with
  | EmptyString => [EmptyString]
  | String a s' =>
      if Ascii.eqb a c then EmptyString :: split c s'
      else match split c s' with
           | f :: fs => String a f :: fs
           | [] => [String a EmptyString]
           end
  end.

(** [needle in hay] *)
Fixpoint contains (needle hay : string) : bool :=
  String.prefix needle hay
  || match hay with
     | EmptyString => false
     | String _ hay' => contains needle hay'
     end.

Definition lower_ascii (c : ascii) : ascii :=
  let n := nat_of_ascii c in
  if (65 <=? n)%nat && (n <=? 90)%nat then ascii_of_nat (n + 32) else c.

(** [s.lower()] *)
Fixpoint lower (s : string) : string :=
  match s with
  | EmptyString => EmptyString
  | String c s' => String (lower_ascii c) (lower s')
  end.

(** [f"{n:04x}"] *)
Definition hex04 (n : N) : string :=
  let h := HexadecimalString.NilZero.string_of_uint (N.to_hex_uint n) in
  String.concat "" (repeat "0" (4 - String.length h)) +:+ h.

(** [any(p(x) for x in l)] *)
Definition any {A} (p : A -> bool) (l : list A) : bool := existsb p l.

(** *** Code points *)

(** a byte of the form [10xxxxxx] *)
Definition continuation (b : N) : bool := ((128 <=? b) && (b <=? 191))%N.

(** The characters of a string: a well-formed UTF-8 sequence (shortest
    form, no surrogate, at most U+10FFFF) is one character, and any other
    byte is the character of that code. *)
Fixpoint decode (bs : list N) : list N :=
  match bs with
  | [] => []
  | b :: rest =>
      match rest with
      | c1 :: rest1 =>
          if ((194 <=? b) && (b <=? 223))%N && continuation c1 then
            ((b - 192) * 64 + (c1 - 128))%N :: decode rest1
          else
            match rest1 with
            | c2 :: rest2 =>
                let cp3 := ((b - 224) * 4096 + (c1 - 128) * 64 + (c2 - 128))%N in
                if ((224 <=? b) && (b <=? 239))%N
                   && continuation c1 && continuation c2
                   && (2048 <=? cp3)%N
                   && negb ((55296 <=? cp3) && (cp3 <=? 57343))%N then
                  cp3 :: decode rest2
                else
                  match rest2 with
                  | c3 :: rest3 =>
                      let cp4 := ((b - 240) * 262144 + (c1 - 128) * 4096
                                  + (c2 - 128) * 64 + (c3 - 128))%N in
                      if ((240 <=? b) && (b <=? 244))%N
                         && continuation c1 && continuation c2
                         && continuation c3
                         && ((65536 <=? cp4) && (cp4 <=? 1114111))%N then
                        cp4 :: decode rest3
                      else b :: decode rest
                  | [] => b :: decode rest
                  end
            | [] => b :: decode rest
            end
      | [] => [b]
      end
  end.

Definition code_points (s : string) : list N :=
  decode (map N_of_ascii (list_ascii_of_string s)).

(** [len(s)] *)
Definition len (s : string) : N := N.of_nat (length (code_points s)).

(** *** [float(s)]

    A finite value is kept as the exact rational that the literal denotes,
    which stands for the binary64 number nearest to it; a literal beyond
    the binary64 range reads as infinity, and [inf], [infinity] and [nan]
    are accepted, as in Python. *)

Inductive pyfloat : Type :=
| Finite (q : Q)
| Inf (negative : bool)
| NaN.

(** the white space outside ASCII ([str.isspace]) *)
Definition unicode_spaces : list N :=
  [0x85; 0xA0; 0x1680; 0x2000; 0x2001; 0x2002; 0x2003; 0x2004; 0x2005;
   0x2006; 0x2007; 0x2008; 0x2009; 0x200A; 0x2028; 0x2029; 0x202F; 0x205F;
   0x3000]%N.

(** the digits zero of the decimal digits of Unicode 14.0; the other nine
    of each script follow theirs *)
Definition decimal_zeros : list N :=
  [0x30; 0x660; 0x6F0; 0x7C0; 0x966; 0x9E6; 0xA66; 0xAE6; 0xB66; 0xBE6;
   0xC66; 0xCE6; 0xD66; 0xDE6; 0xE50; 0xED0; 0xF20; 0x1040; 0x1090; 0x17E0;
   0x1810; 0x1946; 0x19D0; 0x1A80; 0x1A90; 0x1B50; 0x1BB0; 0x1C40; 0x1C50;
   0xA620; 0xA8D0; 0xA900; 0xA9D0; 0xA9F0; 0xAA50; 0xABF0; 0xFF10; 0x104A0;
   0x10D30; 0x11066; 0x110F0; 0x11136; 0x111D0; 0x112F0; 0x11450; 0x114D0;
   0x11650; 0x116C0; 0x11730; 0x118E0; 0x11950; 0x11C50; 0x11D50; 0x11DA0;
   0x16A60; 0x16AC0; 0x16B50; 0x1D7CE; 0x1D7D8; 0x1D7E2; 0x1D7EC; 0x1D7F6;
   0x1E140; 0x1E2F0; 0x1E950; 0x1FBF0]%N.

(** [unicodedata.decimal(chr(c))] *)
Definition unicode_decimal (c : N) : option N :=
  match List.find (fun z => (z <=? c) && (c <? z + 10))%N decimal_zeros with
  | Some z => Some (c - z)%N
  | None => None
  end.

(** What [float] makes of a string that is not ASCII before it reads it:
    white space becomes a blank and a decimal digit its ASCII digit; at any
    other character outside ASCII the text ends in a question mark. *)
Fixpoint transform (cps : list N) : list ascii :=
  match cps with
  | [] => []
  | c :: rest =>
      if (c <? 127)%N then ascii_of_N c :: transform rest
      else if existsb (N.eqb c) unicode_spaces then " "%char :: transform rest
      else match unicode_decimal c with
           | Some d => ascii_of_N (48 + d) :: transform rest
           | None => ["?"%char]
           end
  end.

Definition to_ascii (s : string) : list ascii :=
  let cps := code_points s in
  if forallb (fun c => c <? 128)%N cps then list_ascii_of_string s
  else transform cps.

(** the white space that [float] strips: blank, and tab to carriage
    return *)
Definition is_space (c : ascii) : bool :=
  let n := nat_of_ascii c in
  (n =? 32)%nat || ((9 <=? n)%nat && (n <=? 13)%nat).

Fixpoint lstrip (s : list ascii) : list ascii :=
  match s with
  | c :: s' => if is_space c then lstrip s' else s
  | [] => []
  end.

Definition strip (s : list ascii) : list ascii :=
  rev (lstrip (rev (lstrip s))).

Definition digit_of (c : ascii) : option N :=
  let n := nat_of_ascii c in
  if (48 <=? n)%nat && (n <=? 57)%nat then Some (N.of_nat (n - 48)) else None.

(** the rest of a [digitpart] once its first digit has been read:
    [(["_"] digit)*], digits most significant first *)
Fixpoint digits_rest (s : list ascii) : list N * list ascii :=
  match s with
  | c :: s' =>
      match digit_of c with
      | Some d => let '(ds, r) := digits_rest s' in (d :: ds, r)
      | None =>
          if Ascii.eqb c "_"%char then
            match s' with
            | c2 :: s'' =>
                match digit_of c2 with
                | Some d => let '(ds, r) := digits_rest s'' in (d :: ds, r)
                | None => ([], s)
                end
            | [] => ([], s)
            end
          else ([], s)
      end
  | [] => ([], [])
  end.

(** [digitpart ::= digit (["_"] digit)*]; no digits when the input does
    not start with one *)
Definition digitpart (s : list ascii) : list N * list ascii :=
  match s with
  | c :: s' =>
      match digit_of c with
      | Some d => let '(ds, r) := digits_rest s' in (d :: ds, r)
      | None => ([], s)
      end
  | [] => ([], [])
  end.

Definition number_of_digits (ds : list N) : N :=
  fold_left (fun acc d => (10 * acc + d)%N) ds 0%N.

Definition read_sign (s : list ascii) : bool * list ascii :=
  match s with
  | c :: s' =>
      if Ascii.eqb c "-"%char then (true, s')
      else if Ascii.eqb c "+"%char then (false, s')
      else (false, s)
  | [] => (false, [])
  end.

(** [exponent ::= ("e" | "E") [sign] digitpart], to the end of the input;
    an absent exponent is 0 *)
Definition read_exponent (s : list ascii) : option Z :=
  match s with
  | [] => Some 0%Z
  | c :: s' =>
      if Ascii.eqb (lower_ascii c) "e"%char then
        let '(neg, s1) := read_sign s' in
        match digitpart s1 with
        | (d :: ds, []) =>
            let e := Z.of_N (number_of_digits (d :: ds)) in
            Some (if neg then (- e)%Z else e)
        | _ => None
        end
      else None
  end.

(** [floatnumber ::= ([digitpart] "." digitpart | digitpart ["."]) [exponent]] *)
Definition read_floatnumber (s : list ascii) : option Q :=
  let '(ip, s1) := digitpart s in
  let '(fp, s2) :=
    match s1 with
    | c :: s1' => if Ascii.eqb c "."%char then digitpart s1' else ([], s1)
    | [] => ([], [])
    end in
  match (ip ++ fp)%list with
  | [] => None
  | ds =>
      match read_exponent s2 with
      | Some e =>
          let m := Z.of_N (number_of_digits ds) in
          Some (Qred (Qmult (inject_Z m)
                            (Qpower (10 # 1) (e - Z.of_nat (length fp)))))
      | None => None
      end
  end.

(** from here on a number reads as infinity: [2^1024 - 2^970], half-way
    between the largest binary64 number and [2^1024] *)
Definition overflow_threshold : Q :=
  inject_Z (2 ^ 1024 - 2 ^ 970).

Definition float_of_chars (s : list ascii) : option pyfloat :=
  let '(neg, body) := read_sign (strip s) in
  let word := lower (string_of_list_ascii body) in
  if String.eqb word "inf" || String.eqb word "infinity" then Some (Inf neg)
  else if String.eqb word "nan" then Some NaN
  else match read_floatnumber body with
       | Some q =>
           if Qle_bool overflow_threshold q then Some (Inf neg)
           else Some (Finite (if neg then Qred (Qopp q) else q))
       | None => None
       end.

(** [float(s)]: [None] stands for [ValueError] *)
Definition float (s : string) : option pyfloat := float_of_chars (to_ascii s).

End Py.

(** ** Exceptions and the state-and-exception monad *)

Inductive exn : Type :=
| OSError (msg : string)
| SerialException (msg : string)
| ValueError (msg : string)
| TypeError (msg : string)
| AttributeError (msg : string)
| HTTPException (msg : string).

(** [str(e)] *)
Definition exn_str (e : exn) : string :=
  match e with
  | OSError m | SerialException m | ValueError m | TypeError m
  | AttributeError m | HTTPException m => m
  end.

(** A call either returns a value or raises; the state it leaves behind is
    kept in both cases. *)
Inductive result (S A : Type) : Type :=
| Ret (a : A) (s : S)
| Raise (e : exn) (s : S).
Arguments Ret {S A} a s.
Arguments Raise {S A} e s.

Definition M (S A : Type) : Type := S -> result S A.

Definition ret {S A} (a : A) : M S A := fun s => Ret a s.

Definition bind {S A B} (m : M S A) (k : A -> M S B) : M S B :=
  fun s => match m s with
           | Ret a s' => k a s'
           | Raise e s' => Raise e s'
           end.

Definition raise {S A} (e : exn) : M S A := fun s => Raise e s.

(** [try: m except Exception as e: h(e)] *)
Definition try_except {S A} (m : M S A) (h : exn -> M S A) : M S A :=
  fun s => match m s with
           | Ret a s' => Ret a s'
           | Raise e s' => h e s'
           end.

Definition gets {S A} (f : S -> A) : M S A := fun s => Ret (f s) s.

Definition modify {S} (f : S -> S) : M S unit := fun s => Ret tt (f s).

Definition state_of {S A} (r : result S A) : S :=
  match r with
  | Ret _ s | Raise _ s => s
  end.

Declare Scope py_scope.
Delimit Scope py_scope with py.
Notation "x <- m ;; k" := (bind m (fun x => k))
  (at level 100, m at next level, k at level 200, right associativity)
  : py_scope.
Notation "m ;; k" := (bind m (fun _ => k))
  (at level 100, k at level 200, right associativity) : py_scope.
Open Scope py_scope.

(** [for x in l: body(x)] *)
Fixpoint for_each {S A} (l : list A) (body : A -> M S unit) : M S unit :=
  match l with
  | [] => ret tt
  | x :: l' => body x ;; for_each l' body
  end.

(** ** Paths *)

(** The data directories, relative to the directory two levels above
    [route.py] (the absolute prefix that [os.path.abspath(__file__)]
    contributes is the same for all of them and is left out). *)
Definition path_join (dir name : string) : string := dir +:+ "/" +:+ name.

Definition DATA_DIR : string := "data".
Definition CSI_DIR : string := path_join DATA_DIR "csi".
Definition CHART_DIR : string := path_join DATA_DIR "chart".
Definition VIDEO_DIR : string := path_join DATA_DIR "video".
Definition IMAGE_DIR : string := path_join DATA_DIR "images".

(** ** The data model *)

(** An open [serial.Serial]: whether writes and reads on it succeed, and
    the decoded, stripped lines the device has ready for [readline]. *)
Record Serial : Type := {
  writable : bool;
  readable : bool;
  inbox : list string
}.

(** One entry of [serial.tools.list_ports.comports()], with what
    [serial.Serial(port=device, ...)] does on it. *)
Record PortInfo : Type := {
  device : string;
  description : string;
  vid : option N;
  pid : option N;
  openable : bool;
  line : Serial
}.

Inductive thread : Type :=
| SerialListener (port : string)
| RecordVideo
| AutoStop (duration : Z).

(** What the code does to the outside world, most recent first. *)
Inductive event : Type :=
| Discover
| SerialWrite (port : string) (data : string).

(** [serial_connections] is iterated in insertion order, so it is an
    association list; the other two dictionaries are only set and looked
    up by key. A thread is named by its position in the world's list of
    started threads. *)
Record ESP32SerialHandler : Type := {
  serial_available : bool;
  serial_connections : list (string * Serial);
  serial_threads : gmap string nat;
  serial_listening : gmap string bool
}.

(** [cap] and [out] hold handles of the world's resource table. The
    recorder's [start_time] is [video_start_time] here, as the collector has
    a field of the same name. *)
Record VideoRecorder : Type := {
  ip_camera_url : string;
  cap : option nat;
  out : option nat;
  recording : bool;
  frame_count : nat;
  video_start_time : option Z;
  video_thread : option nat;
  output_path : option string;
  video_available : bool
}.

(** [csv_handle] is a handle of the resource table and [csv_writer] the
    handle its [csv.writer] writes to. *)
Record CSICollector : Type := {
  active : bool;
  csv_file : option string;
  csv_writer : option nat;
  csv_handle : option nat;
  packet_count : nat;
  start_time : option Z;
  latest_rssi : option Py.pyfloat
}.

Inductive resource : Type :=
| RFile (path : string)
| RCapture (url : string)
| RVideoWriter (path : string).

(** What the clock reads now: [time.time()],
    [datetime.now().isoformat()] and
    [datetime.now().strftime("%Y%m%d_%H%M%S")]. The environment moves it
    between calls. *)
Record Clock : Type := {
  time_time : Z;
  isoformat : string;
  strftime : string
}.

(** A CSV file is the list of rows handed to [csv.writer.writerow]. *)
Abbreviation row := (list string).

Record World : Type := {
  (* the module's globals *)
  collection_active : bool;
  csi_collector : CSICollector;
  video_recorder : VideoRecorder;
  esp32_serial_handler : option ESP32SerialHandler;
  (* the operating system, the hardware and the collaborators *)
  files : gmap string (list row);
  unwritable : gset string;
  handles : gmap nat resource;
  next_handle : nat;
  ports : list PortInfo;
  camera : option (nat * nat);
  clock : Clock;
  chart : option string;
  threads : list thread;
  trace : list event
}.

(** *** Field updates *)

Definition set_collection_active (v : bool) (w : World) : World :=
  {| collection_active := v; csi_collector := csi_collector w;
     video_recorder := video_recorder w;
     esp32_serial_handler := esp32_serial_handler w; files := files w;
     unwritable := unwritable w; handles := handles w;
     next_handle := next_handle w; ports := ports w; camera := camera w;
     clock := clock w; chart := chart w; threads := threads w;
     trace := trace w |}.

Definition set_csi_collector (v : CSICollector) (w : World) : World :=
  {| collection_active := collection_active w; csi_collector := v;
     video_recorder := video_recorder w;
     esp32_serial_handler := esp32_serial_handler w; files := files w;
     unwritable := unwritable w; handles := handles w;
     next_handle := next_handle w; ports := ports w; camera := camera w;
     clock := clock w; chart := chart w; threads := threads w;
     trace := trace w |}.

Definition set_video_recorder (v : VideoRecorder) (w : World) : World :=
  {| collection_active := collection_active w;
     csi_collector := csi_collector w; video_recorder := v;
     esp32_serial_handler := esp32_serial_handler w; files := files w;
     unwritable := unwritable w; handles := handles w;
     next_handle := next_handle w; ports := ports w; camera := camera w;
     clock := clock w; chart := chart w; threads := threads w;
     trace := trace w |}.

Definition set_link (h : ESP32SerialHandler) (t : list event) (w : World)
  : World :=
  {| collection_active := collection_active w;
     csi_collector := csi_collector w; video_recorder := video_recorder w;
     esp32_serial_handler := Some h; files := files w;
     unwritable := unwritable w; handles := handles w;
     next_handle := next_handle w; ports := ports w; camera := camera w;
     clock := clock w; chart := chart w; threads := threads w;
     trace := t |}.

Definition set_files (v : gmap string (list row)) (w : World) : World :=
  {| collection_active := collection_active w;
     csi_collector := csi_collector w; video_recorder := video_recorder w;
     esp32_serial_handler := esp32_serial_handler w; files := v;
     unwritable := unwritable w; handles := handles w;
     next_handle := next_handle w; ports := ports w; camera := camera w;
     clock := clock w; chart := chart w; threads := threads w;
     trace := trace w |}.

Definition set_handles (v : gmap nat resource) (n : nat) (w : World) : World :=
  {| collection_active := collection_active w;
     csi_collector := csi_collector w; video_recorder := video_recorder w;
     esp32_serial_handler := esp32_serial_handler w; files := files w;
     unwritable := unwritable w; handles := v;
     next_handle := n; ports := ports w; camera := camera w;
     clock := clock w; chart := chart w; threads := threads w;
     trace := trace w |}.

Definition set_threads (v : list thread) (w : World) : World :=
  {| collection_active := collection_active w;
     csi_collector := csi_collector w; video_recorder := video_recorder w;
     esp32_serial_handler := esp32_serial_handler w; files := files w;
     unwritable := unwritable w; handles := handles w;
     next_handle := next_handle w; ports := ports w; camera := camera w;
     clock := clock w; chart := chart w; threads := v;
     trace := trace w |}.

Definition set_clock (v : Clock) (w : World) : World :=
  {| collection_active := collection_active w;
     csi_collector := csi_collector w; video_recorder := video_recorder w;
     esp32_serial_handler := esp32_serial_handler w; files := files w;
     unwritable := unwritable w; handles := handles w;
     next_handle := next_handle w; ports := ports w; camera := camera w;
     clock := v; chart := chart w; threads := threads w;
     trace := trace w |}.

(** ** The operating system *)

Module OS.

Definition NL : string := String (ascii_of_nat 10) EmptyString.

(** [time.time()] *)
Definition time : M World Z := gets (fun w => time_time (clock w)).

(** [time.sleep(_)]: the clock belongs to the environment *)
Definition sleep {S} : M S unit := ret tt.

(** [os.makedirs(path, exist_ok=True)] *)
Definition makedirs (path : string) : M World unit :=
  fun w =>
    if bool_decide (path ∈ unwritable w)
    then Raise (OSError ("[Errno 13] Permission denied: " +:+ path)) w
    else Ret tt w.

(** [os.path.exists(path)] *)
Definition exists_ (path : string) : M World bool :=
  gets (fun w => bool_decide (is_Some (files w !! path))).

Definition alloc (r : resource) : M World nat :=
  fun w =>
    let h := next_handle w in
    Ret h (set_handles (<[h := r]> (handles w)) (S h) w).

(** [.release()] of a capture or a video writer *)
Definition release (h : nat) : M World unit :=
  modify (fun w => set_handles (delete h (handles w)) (next_handle w) w).

(** [open(path, 'w', newline='', encoding='utf-8')]: the file is created
    or truncated *)
Definition open_w (path : string) : M World nat :=
  fun w =>
    if bool_decide (path ∈ unwritable w)
    then Raise (OSError ("[Errno 13] Permission denied: " +:+ path)) w
    else alloc (RFile path) (set_files (<[path := []]> (files w)) w).

(** [csv.writer(handle).writerow(r)] *)
Definition writerow (h : nat) (r : row) : M World unit :=
  fun w =>
    match handles w !! h with
    | Some (RFile path) =>
        Ret tt (set_files
                  (<[path := (default [] (files w !! path) ++ [r])%list]> (files w))
                  w)
    | _ => Raise (ValueError "I/O operation on closed file.") w
    end.

(** [handle.flush()]: rows are in the file as soon as they are written *)
Definition flush (h : nat) : M World unit :=
  fun w =>
    match handles w !! h with
    | Some (RFile _) => Ret tt w
    | _ => Raise (ValueError "I/O operation on closed file.") w
    end.

(** [handle.close()] *)
Definition close (h : nat) : M World unit := release h.

(** [threading.Thread(target=..., daemon=True)] followed by [.start()] *)
Definition spawn (t : thread) : M World nat :=
  fun w => Ret (length (threads w)) (set_threads (threads w ++ [t])%list w).

End OS.

(** ** [ESP32SerialHandler] *)

(** The methods that touch nothing but the handler and the serial lines run
    on the handler and the event trace alone. *)
Definition Link : Type := ESP32SerialHandler * list event.

(** A call on the global [esp32_serial_handler]. *)
Definition on_handler {A} (m : M Link A) : M World A :=
  fun w =>
    match esp32_serial_handler w with
    | None => Raise (AttributeError "'NoneType' object has no attribute") w
    | Some h =>
        match m (h, trace w) with
        | Ret a (h', t') => Ret a (set_link h' t' w)
        | Raise e (h', t') => Raise e (set_link h' t' w)
        end
    end.

Definition set_serial_connections (v : list (string * Serial))
  (h : ESP32SerialHandler) : ESP32SerialHandler :=
  {| serial_available := serial_available h; serial_connections := v;
     serial_threads := serial_threads h;
     serial_listening := serial_listening h |}.

Definition set_serial_threads (v : gmap string nat)
  (h : ESP32SerialHandler) : ESP32SerialHandler :=
  {| serial_available := serial_available h;
     serial_connections := serial_connections h;
     serial_threads := v; serial_listening := serial_listening h |}.

Definition set_serial_listening (v : gmap string bool)
  (h : ESP32SerialHandler) : ESP32SerialHandler :=
  {| serial_available := serial_available h;
     serial_connections := serial_connections h;
     serial_threads := serial_threads h; serial_listening := v |}.

(** [d[k] = v] on an insertion-ordered dictionary *)
Fixpoint dict_set {V} (k : string) (v : V) (d : list (string * V))
  : list (string * V) :=
  match d with
  | [] => [(k, v)]
  | (k', v') :: d' =>
      if String.eqb k' k then (k, v) :: d' else (k', v') :: dict_set k v d'
  end.

Module ESP32SerialHandler.

Definition emit (e : event) : M Link unit :=
  modify (fun '(h, t) => (h, e :: t)).

Definition update (f : ESP32SerialHandler -> ESP32SerialHandler)
  : M Link unit :=
  modify (fun '(h, t) => (f h, t)).

Definition esp32_indicators : list string :=
  ["esp32"; "cp210"; "ch340"; "cp2102"; "ft232"; "silicon labs";
   "1a86:7523"; "10c4:ea60"; "0403:6001"].

(** [f"{port.vid:04x}:{port.pid:04x}" if port.vid and port.pid else ""] *)
Definition vid_pid (p : PortInfo) : string :=
  match vid p, pid p with
  | Some v, Some q =>
      if (v =? 0)%N || (q =? 0)%N then ""
      else Py.hex04 v +:+ ":" +:+ Py.hex04 q
  | _, _ => ""
  end.

Definition is_esp32 (p : PortInfo) : bool :=
  let desc := Py.lower (description p) in
  Py.any (fun indicator =>
            Py.contains indicator desc || Py.contains indicator (vid_pid p))
         esp32_indicators.

(** the body of the loop over [esp32_ports]: a port that cannot be opened,
    or whose wake-up newline cannot be written, is skipped *)
Definition connect (p : PortInfo) : M Link unit :=
  if openable p && writable (line p) then
    emit (SerialWrite (device p) OS.NL) ;;
    update (fun h => set_serial_connections
                       (dict_set (device p) (line p) (serial_connections h))
                       h)
  else ret tt.

Definition auto_connect (host : list PortInfo) : M Link unit :=
  emit Discover ;;
  for_each (List.filter is_esp32 host) connect.

(** the body of the loop over the connections: [success_count] grows by one
    for each line that takes the write *)
Fixpoint send_all (command : string) (conns : list (string * Serial))
  : M Link nat :=
  match conns with
  | [] => ret 0
  | (port_name, ser) :: conns' =>
      (if writable ser
       then emit (SerialWrite port_name (command +:+ OS.NL))
       else ret tt) ;;
      n <- send_all command conns' ;;
      ret (if writable ser then S n else n)
  end.

Definition send_command (command : string) : M Link bool :=
  h <- gets fst ;;
  if negb (serial_available h)
     || bool_decide (serial_connections h = [])
  then ret false
  else
    success_count <- send_all command (serial_connections h) ;;
    ret (0 <? success_count)%nat.

Definition is_connected : M Link bool :=
  gets (fun '(h, _) =>
          serial_available h && (0 <? length (serial_connections h))%nat).

Definition stop_listening : M Link unit :=
  update (fun h => set_serial_listening
                     ((fun _ => false) <$> serial_listening h) h).

Definition get_connected_devices : M Link (list string) :=
  gets (fun '(h, _) => map fst (serial_connections h)).

(** [ser.in_waiting > 0] *)
Definition in_waiting (port_name : string) : M Link bool :=
  h <- gets fst ;;
  match List.find (fun '(k, _) => String.eqb k port_name) (serial_connections h) with
  | Some (_, ser) =>
      if readable ser then ret (0 <? length (inbox ser))%nat
      else raise (SerialException ("could not read from " +:+ port_name))
  | None => ret false
  end.

(** [ser.readline().decode('utf-8', errors='ignore').strip()] *)
Definition readline (port_name : string) : M Link string :=
  h <- gets fst ;;
  match List.find (fun '(k, _) => String.eqb k port_name) (serial_connections h) with
  | Some (_, ser) =>
      match inbox ser with
      | l :: rest =>
          update (set_serial_connections
                    (dict_set port_name
                       {| writable := writable ser; readable := readable ser;
                          inbox := rest |}
                       (serial_connections h))) ;;
          ret l
      | [] => ret ""
      end
  | None => ret ""
  end.

End ESP32SerialHandler.

(** ** [VideoRecorder] *)

Record VideoResult : Type := {
  video_path : option string;
  video_frames : nat;
  video_duration : Z;
  image_dir : string
}.

Definition set_cap (v : option nat) (r : VideoRecorder) : VideoRecorder :=
  {| ip_camera_url := ip_camera_url r; cap := v; out := out r;
     recording := recording r; frame_count := frame_count r;
     video_start_time := video_start_time r; video_thread := video_thread r;
     output_path := output_path r; video_available := video_available r |}.

Definition set_out (v : option nat) (r : VideoRecorder) : VideoRecorder :=
  {| ip_camera_url := ip_camera_url r; cap := cap r; out := v;
     recording := recording r; frame_count := frame_count r;
     video_start_time := video_start_time r; video_thread := video_thread r;
     output_path := output_path r; video_available := video_available r |}.

Definition set_recording (v : bool) (r : VideoRecorder) : VideoRecorder :=
  {| ip_camera_url := ip_camera_url r; cap := cap r; out := out r;
     recording := v; frame_count := frame_count r;
     video_start_time := video_start_time r; video_thread := video_thread r;
     output_path := output_path r; video_available := video_available r |}.

Definition set_frame_count (v : nat) (r : VideoRecorder) : VideoRecorder :=
  {| ip_camera_url := ip_camera_url r; cap := cap r; out := out r;
     recording := recording r; frame_count := v;
     video_start_time := video_start_time r; video_thread := video_thread r;
     output_path := output_path r; video_available := video_available r |}.

Definition set_video_start_time (v : option Z) (r : VideoRecorder)
  : VideoRecorder :=
  {| ip_camera_url := ip_camera_url r; cap := cap r; out := out r;
     recording := recording r; frame_count := frame_count r;
     video_start_time := v; video_thread := video_thread r;
     output_path := output_path r; video_available := video_available r |}.

Definition set_video_thread (v : option nat) (r : VideoRecorder)
  : VideoRecorder :=
  {| ip_camera_url := ip_camera_url r; cap := cap r; out := out r;
     recording := recording r; frame_count := frame_count r;
     video_start_time := video_start_time r; video_thread := v;
     output_path := output_path r; video_available := video_available r |}.

Definition set_output_path (v : option string) (r : VideoRecorder)
  : VideoRecorder :=
  {| ip_camera_url := ip_camera_url r; cap := cap r; out := out r;
     recording := recording r; frame_count := frame_count r;
     video_start_time := video_start_time r; video_thread := video_thread r;
     output_path := v; video_available := video_available r |}.

(** [time.time() - start if start else 0]: a start time of 0 is falsy *)
Definition elapsed_since (now : Z) (start : option Z) : Z :=
  match start with
  | Some t0 => if (t0 =? 0)%Z then 0%Z else (now - t0)%Z
  | None => 0%Z
  end.

Module VideoRecorder.

(** [VideoRecorder(ip_camera_url)] *)
Definition init (url : string) (cv2_available : bool) : VideoRecorder :=
  {| ip_camera_url := url; cap := None; out := None; recording := false;
     frame_count := 0; video_start_time := None; video_thread := None;
     output_path := None; video_available := cv2_available |}.

Definition update (f : VideoRecorder -> VideoRecorder) : M World unit :=
  modify (fun w => set_video_recorder (f (video_recorder w)) w).

(** The join of the capture thread changes nothing here: threads are not
    interleaved. *)
Definition stop_recording : M World (option VideoResult) :=
  self <- gets video_recorder ;;
  if negb (recording self) then ret None
  else
    update (set_recording false) ;;
    match cap self with
    | Some c => OS.release c ;; update (set_cap None)
    | None => ret tt
    end ;;
    match out self with
    | Some o => OS.release o ;; update (set_out None)
    | None => ret tt
    end ;;
    now <- OS.time ;;
    ret (Some {| video_path := output_path self;
                 video_frames := frame_count self;
                 video_duration := elapsed_since now (video_start_time self);
                 image_dir := IMAGE_DIR |}).

(** [camera w] is the frame that [cap.read()] delivers, by its height and
    width, or [None] when no image arrives. *)
Definition start_recording (distance : string) : M World bool :=
  self <- gets video_recorder ;;
  if negb (video_available self) then ret false
  else if recording self then ret false
  else
    try_except
      (OS.makedirs VIDEO_DIR ;;
       OS.makedirs IMAGE_DIR ;;
       c <- OS.alloc (RCapture (ip_camera_url self)) ;;
       update (set_cap (Some c)) ;;
       frame <- gets camera ;;
       match frame with
       | None =>
           self' <- gets video_recorder ;;
           match cap self' with
           | Some c' => OS.release c'
           | None => ret tt
           end ;;
           ret false
       | Some (height, width) =>
           timestamp <- gets (fun w => strftime (clock w)) ;;
           let path :=
             path_join VIDEO_DIR
               ("video_" +:+ distance +:+ "m_" +:+ timestamp +:+ ".mp4") in
           update (set_output_path (Some path)) ;;
           o <- OS.alloc (RVideoWriter path) ;;
           update (set_out (Some o)) ;;
           update (set_recording true) ;;
           update (set_frame_count 0) ;;
           now <- OS.time ;;
           update (set_video_start_time (Some now)) ;;
           tid <- OS.spawn RecordVideo ;;
           update (set_video_thread (Some tid)) ;;
           ret true
       end)
      (fun _ => stop_recording ;; ret false).

End VideoRecorder.

(** ** [CSICollector] *)

Record StopResult : Type := {
  res_packets : nat;
  res_duration : Z;
  res_csv_file : option string;
  res_chart_file : option string
}.

Definition set_active (v : bool) (c : CSICollector) : CSICollector :=
  {| active := v; csv_file := csv_file c; csv_writer := csv_writer c;
     csv_handle := csv_handle c; packet_count := packet_count c;
     start_time := start_time c; latest_rssi := latest_rssi c |}.

Definition set_csv_file (v : option string) (c : CSICollector)
  : CSICollector :=
  {| active := active c; csv_file := v; csv_writer := csv_writer c;
     csv_handle := csv_handle c; packet_count := packet_count c;
     start_time := start_time c; latest_rssi := latest_rssi c |}.

Definition set_csv_writer (v : option nat) (c : CSICollector)
  : CSICollector :=
  {| active := active c; csv_file := csv_file c; csv_writer := v;
     csv_handle := csv_handle c; packet_count := packet_count c;
     start_time := start_time c; latest_rssi := latest_rssi c |}.

Definition set_csv_handle (v : option nat) (c : CSICollector)
  : CSICollector :=
  {| active := active c; csv_file := csv_file c; csv_writer := csv_writer c;
     csv_handle := v; packet_count := packet_count c;
     start_time := start_time c; latest_rssi := latest_rssi c |}.

Definition set_packet_count (v : nat) (c : CSICollector) : CSICollector :=
  {| active := active c; csv_file := csv_file c; csv_writer := csv_writer c;
     csv_handle := csv_handle c; packet_count := v;
     start_time := start_time c; latest_rssi := latest_rssi c |}.

Definition set_start_time (v : option Z) (c : CSICollector) : CSICollector :=
  {| active := active c; csv_file := csv_file c; csv_writer := csv_writer c;
     csv_handle := csv_handle c; packet_count := packet_count c;
     start_time := v; latest_rssi := latest_rssi c |}.

Definition set_latest_rssi (v : option Py.pyfloat) (c : CSICollector)
  : CSICollector :=
  {| active := active c; csv_file := csv_file c; csv_writer := csv_writer c;
     csv_handle := csv_handle c; packet_count := packet_count c;
     start_time := start_time c; latest_rssi := v |}.

Definition headers : row :=
  ["timestamp"; "id"; "mac"; "rssi"; "rate"; "sig_mode"; "mcs";
   "bandwidth"; "smoothing"; "not_sounding"; "aggregation";
   "stbc"; "fec_coding"; "sgi"; "noise_floor"; "ampdu_cnt";
   "channel"; "secondary_channel"; "local_timestamp"; "ant";
   "sig_len"; "rx_state"; "len"; "first_word"; "data"].

Definition marker : string := "CSI_DATA,".

Module CSICollector.

(** [CSICollector()] *)
Definition init : CSICollector :=
  {| active := false; csv_file := None; csv_writer := None;
     csv_handle := None; packet_count := 0; start_time := None;
     latest_rssi := None |}.

Definition update (f : CSICollector -> CSICollector) : M World unit :=
  modify (fun w => set_csi_collector (f (csi_collector w)) w).

(** [send_command] with the [try]/[except] around it *)
Definition try_send (command : string) : M World unit :=
  try_except
    (on_handler (ESP32SerialHandler.send_command command) ;; ret tt)
    (fun _ => ret tt).

(** the block of [start] that tells the radios to listen, reconnecting
    once when none is connected *)
Definition send_start_listen : M World unit :=
  handler <- gets esp32_serial_handler ;;
  match handler with
  | Some _ =>
      connected <- on_handler ESP32SerialHandler.is_connected ;;
      if connected then try_send "start_listen"
      else
        host <- gets ports ;;
        on_handler (ESP32SerialHandler.auto_connect host) ;;
        reconnected <- on_handler ESP32SerialHandler.is_connected ;;
        if reconnected then try_send "start_listen" else ret tt
  | None => ret tt
  end.

(** CPython closes a file object when the last reference to it goes. The
    collector holds a file in [csv_handle] and, through the writer made on
    it, in [csv_writer]. [finalized handle writer old hs] is the handle
    table [hs] once an attribute that held [old] has been rebound, the
    attributes now being [handle] and [writer]: the file behind [old] is
    closed unless one of them still holds it. *)
Definition finalized (handle writer old : option nat)
  (hs : gmap nat resource) : gmap nat resource :=
  match old with
  | Some h =>
      if bool_decide (handle = Some h) || bool_decide (writer = Some h)
      then hs
      else match hs !! h with
           | Some (RFile _) => delete h hs
           | _ => hs
           end
  | None => hs
  end.

Definition finalize (old : option nat) : M World unit :=
  modify (fun w =>
            let self := csi_collector w in
            set_handles
              (finalized (csv_handle self) (csv_writer self) old (handles w))
              (next_handle w) w).

Definition start (csv_path : string) (duration : option Z) : M World bool :=
  update (set_csv_file (Some csv_path)) ;;
  update (set_active true) ;;
  update (set_packet_count 0) ;;
  now <- OS.time ;;
  update (set_start_time (Some now)) ;;
  modify (set_collection_active true) ;;
  send_start_listen ;;
  h <- OS.open_w csv_path ;;
  old_handle <- gets (fun w => csv_handle (csi_collector w)) ;;
  update (set_csv_handle (Some h)) ;;
  finalize old_handle ;;
  old_writer <- gets (fun w => csv_writer (csi_collector w)) ;;
  update (set_csv_writer (Some h)) ;;
  finalize old_writer ;;
  OS.writerow h headers ;;
  OS.flush h ;;
  match duration with
  | Some d => if (0 <? d)%Z then OS.spawn (AutoStop d) ;; ret tt else ret tt
  | None => ret tt
  end ;;
  ret true.

(** the inner [try]: [float] raising [ValueError] is passed over *)
Definition track_rssi (r : row) : M World unit :=
  match (if (3 <? length r)%nat then r !! 3%nat else None) with
  | Some rssi_field =>
      if negb (String.eqb rssi_field "") then
        match Py.float rssi_field with
        | Some v => update (set_latest_rssi (Some v))
        | None => ret tt
        end
      else ret tt
  | None => ret tt
  end.

Definition add_data (csi_data : string) : M World bool :=
  self <- gets csi_collector ;;
  match active self, csv_writer self with
  | true, Some writer =>
      try_except
        (timestamp <- gets (fun w => isoformat (clock w)) ;;
         if Py.startswith csi_data marker then
           let csv_data := Py.slice_from 9 csi_data in
           let r := timestamp :: Py.split "," csv_data in
           track_rssi r ;;
           OS.writerow writer r ;;
           match csv_handle self with
           | Some h => OS.flush h
           | None =>
               raise (AttributeError
                        "'NoneType' object has no attribute 'flush'")
           end ;;
           update (fun c => set_packet_count (packet_count c + 1) c) ;;
           (if (((packet_count self + 1) mod 50) =? 0)%nat then
              match start_time self with
              | Some _ => ret tt
              | None =>
                  raise (TypeError
                           "unsupported operand type(s) for -: 'float' and 'NoneType'")
              end
            else ret tt) ;;
           ret true
         else ret false)
        (fun _ => ret false)
  | _, _ => ret false
  end.

(** The chart is drawn by the reporting layer
    ([load_csi_data_for_chart], [create_chart_from_dataframe]); [chart w]
    is the file it produces, if any. *)
Definition generate_chart_automatically : M World (option string) :=
  self <- gets csi_collector ;;
  match csv_file self with
  | Some path =>
      present <- OS.exists_ path ;;
      if negb (String.eqb path "") && present then gets chart else ret None
  | None => ret None
  end.

Definition stop : M World (option StopResult) :=
  self <- gets csi_collector ;;
  if active self then
    update (set_active false) ;;
    modify (set_collection_active false) ;;
    handler <- gets esp32_serial_handler ;;
    match handler with
    | Some _ =>
        connected <- on_handler ESP32SerialHandler.is_connected ;;
        if connected then try_send "stop_listen" else ret tt
    | None => ret tt
    end ;;
    match csv_handle self with
    | Some h =>
        OS.close h ;;
        update (set_csv_handle None) ;;
        update (set_csv_writer None)
    | None => ret tt
    end ;;
    now <- OS.time ;;
    let elapsed := elapsed_since now (start_time self) in
    present <- match csv_file self with
               | Some path =>
                   if String.eqb path "" then ret false else OS.exists_ path
               | None => ret false
               end ;;
    chart_file <- (if present && (0 <? packet_count self)%nat
                   then try_except generate_chart_automatically
                          (fun _ => ret None)
                   else ret None) ;;
    ret (Some {| res_packets := packet_count self;
                 res_duration := elapsed;
                 res_csv_file := csv_file self;
                 res_chart_file := chart_file |})
  else ret None.

End CSICollector.

(** ** The session controller *)

(** The bodies of the two collection endpoints, as JSON-free values. *)
Inductive response : Type :=
| Error (code : nat) (message : string)
| Started (collection_id csv_path distance : string)
    (esp32_devices : list string) (video_recording : bool)
    (video_file : option string)
| Stopped (result : StopResult) (video : option VideoResult)
| StoppedNothing.

(** [os.path.join(CSI_DIR, f"csi_{distance}m.csv")] *)
Definition csv_name (distance : string) : string :=
  path_join CSI_DIR ("csi_" +:+ distance +:+ "m.csv").

Definition create_directories : M World unit :=
  OS.makedirs CSI_DIR ;;
  OS.makedirs CHART_DIR ;;
  OS.makedirs VIDEO_DIR ;;
  OS.makedirs IMAGE_DIR.

(** The body of a request, as [request.get_json()] gives it:
    - [JSONObject]: a JSON object; [distance_field] is its ["distance"]
      entry, if it has one, as the f-strings of the endpoints render it;
    - [NotAnObject]: a value that is no [dict] ([None], a list, a string, a
      number or a boolean), with the name of its Python type and what
      [bool] makes of it;
    - [Unreadable]: [get_json] raises, the body not being the JSON that the
      request announces; [message] is the [str] of what it raises. *)
Inductive request_body : Type :=
| JSONObject (distance_field : option string)
| NotAnObject (type_name : string) (truthy : bool)
| Unreadable (message : string).

Module Controller.

Import ESP32SerialHandler.

(** [data = request.get_json()] followed by
    [distance = data.get('distance', '0')] *)
Definition get_distance (body : request_body) : M World string :=
  match body with
  | JSONObject distance_field => ret (default "0" distance_field)
  | NotAnObject type_name _ =>
      raise (AttributeError
               ("'" +:+ type_name +:+ "' object has no attribute 'get'"))
  | Unreadable message => raise (HTTPException message)
  end.

(** the loop over [serial_connections.items()] that looks for the
    acknowledgement; [true] when it left by [break] *)
Fixpoint read_responses (port_names : list string) : M Link bool :=
  match port_names with
  | [] => ret false
  | port_name :: rest =>
      waiting <- in_waiting port_name ;;
      if waiting then
        response <- readline port_name ;;
        if Py.contains "Serial Data output: ON" response then ret true
        else read_responses rest
      else read_responses rest
  end.

(** [any(ser.in_waiting > 0 for ser in serial_connections.values())] *)
Fixpoint any_in_waiting (port_names : list string) : M Link bool :=
  match port_names with
  | [] => ret false
  | port_name :: rest =>
      waiting <- in_waiting port_name ;;
      if waiting then ret true else any_in_waiting rest
  end.

(** [for check in range(n)] *)
Fixpoint check_loop (n : nat) : M Link bool :=
  match n with
  | O => ret false
  | S n' =>
      port_names <- get_connected_devices ;;
      some <- any_in_waiting port_names ;;
      serial_mode_success <-
        (if some then read_responses port_names else ret false) ;;
      if serial_mode_success then ret true
      else OS.sleep ;; check_loop n'
  end.

(** [for attempt in range(n)] *)
Fixpoint attempt_loop (n : nat) : M Link bool :=
  match n with
  | O => ret false
  | S n' =>
      esp32_success <- send_command "6" ;;
      serial_mode_success <-
        (if esp32_success then OS.sleep ;; check_loop 10 else ret false) ;;
      if serial_mode_success then ret true
      else OS.sleep ;; attempt_loop n'
  end.

(** [ESP32SerialHandler.start_serial_listening]: it starts threads, so it
    runs on the whole world *)
Definition start_serial_listening : M World bool :=
  self <- on_handler (gets fst) ;;
  for_each (serial_connections self)
    (fun '(port_name, _) =>
       on_handler
         (update (fun h => set_serial_listening
                             (<[port_name := true]> (serial_listening h)) h)) ;;
       tid <- OS.spawn (SerialListener port_name) ;;
       on_handler
         (update (fun h => set_serial_threads
                             (<[port_name := tid]> (serial_threads h)) h))) ;;
  ret (0 <? length (serial_connections self))%nat.

(** [POST /api/collection/start] *)
Definition start_collection (body : request_body) : M World response :=
  try_except
    (distance <- get_distance body ;;
     busy <- gets collection_active ;;
     if busy then ret (Error 400 "Collection already active")
     else
       handler <- gets esp32_serial_handler ;;
       no_device <- match handler with
                    | None => ret true
                    | Some _ =>
                        devices <- on_handler get_connected_devices ;;
                        ret (length devices =? 0)%nat
                    end ;;
       if no_device then
         ret (Error 400
                "No ESP32 devices connected. Please connect ESP32 and restart server.")
       else
         create_directories ;;
         timestamp <- gets (fun w => strftime (clock w)) ;;
         let csv_file := csv_name distance in
         success <- CSICollector.start csv_file None ;;
         if negb success then ret (Error 500 "Failed to start collection")
         else
           on_handler (attempt_loop 3) ;;
           on_handler (send_command "1") ;;
           OS.sleep ;;
           video_started <- VideoRecorder.start_recording distance ;;
           listening_started <- start_serial_listening ;;
           if negb listening_started then
             CSICollector.stop ;;
             (if video_started
              then VideoRecorder.stop_recording ;; ret tt
              else ret tt) ;;
             ret (Error 500 "Failed to start ESP32 serial listening")
           else
             devices <- on_handler get_connected_devices ;;
             recorder <- gets video_recorder ;;
             ret (Started timestamp csv_file distance devices video_started
                    (if video_started then output_path recorder else None)))
    (fun e =>
       modify (set_collection_active false) ;;
       ret (Error 500 (exn_str e))).

(** [POST /api/collection/stop] *)
Definition stop_collection : M World response :=
  try_except
    (busy <- gets collection_active ;;
     if negb busy then ret (Error 400 "No active collection")
     else
       handler <- gets esp32_serial_handler ;;
       match handler with
       | Some _ => on_handler stop_listening
       | None => ret tt
       end ;;
       result <- CSICollector.stop ;;
       video_result <- VideoRecorder.stop_recording ;;
       match result with
       | Some r => ret (Stopped r video_result)
       | None => ret StoppedNothing
       end)
    (fun e =>
       modify (set_collection_active false) ;;
       ret (Error 500 (exn_str e))).

(** What a reader thread does with the lines it reads: those that begin
    with the marker go to the collector. *)
Definition forward (line : string) : M World unit :=
  if Py.startswith line marker
  then CSICollector.add_data line ;; ret tt
  else ret tt.

End Controller.

(** ** Start-up and runs *)

Definition default_camera_url : string := "http://172.20.10.11:8080/video".

(** [ESP32SerialHandler()]: discovery runs once when serial support is
    there. *)
Definition new_handler (serial : bool) (host : list PortInfo)
  : ESP32SerialHandler * list event :=
  let h0 := {| serial_available := serial; serial_connections := [];
               serial_threads := ∅; serial_listening := ∅ |} in
  if serial then state_of (ESP32SerialHandler.auto_connect host (h0, []))
  else (h0, []).

(** The world once the module is imported, on a machine with the given
    serial ports, camera, clock and read-only paths. *)
Definition boot (serial cv2 : bool) (host : list PortInfo)
  (cam : option (nat * nat)) (now : Clock) (locked : gset string) : World :=
  {| collection_active := false;
     csi_collector := CSICollector.init;
     video_recorder := VideoRecorder.init default_camera_url cv2;
     esp32_serial_handler :=
       if serial then Some (fst (new_handler serial host)) else None;
     files := ∅; unwritable := locked; handles := ∅; next_handle := 0;
     ports := host; camera := cam; clock := now; chart := None;
     threads := [];
     trace := snd (new_handler serial host) |}.

(** The collector is fed one line per clock reading; the answers of
    [add_data] are collected in order. *)
Fixpoint feed (inputs : list (Clock * string)) : M World (list bool) :=
  match inputs with
  | [] => ret []
  | (now, csi_data) :: rest =>
      modify (set_clock now) ;;
      accepted <- CSICollector.add_data csi_data ;;
      answers <- feed rest ;;
      ret (accepted :: answers)
  end.

(** the number of discoveries in a trace *)
Definition discoveries (t : list event) : nat :=
  length (List.filter (fun e => match e with Discover => true | _ => false end) t).

(** the number of accepted calls among the answers of [add_data] *)
Definition accepted (answers : list bool) : nat :=
  length (List.filter (fun b => b) answers).

(** what [start] does once the radios have been told to listen: from
    [open] on *)
Definition start_tail (csv_path : string) (duration : option Z)
  : M World bool :=
  h <- OS.open_w csv_path ;;
  old_handle <- gets (fun w => csv_handle (csi_collector w)) ;;
  CSICollector.update (set_csv_handle (Some h)) ;;
  CSICollector.finalize old_handle ;;
  old_writer <- gets (fun w => csv_writer (csi_collector w)) ;;
  CSICollector.update (set_csv_writer (Some h)) ;;
  CSICollector.finalize old_writer ;;
  OS.writerow h headers ;;
  OS.flush h ;;
  match duration with
  | Some d => if (0 <? d)%Z then OS.spawn (AutoStop d) ;; ret tt else ret tt
  | None => ret tt
  end ;;
  ret true.

(** the handle table once [start] has opened its file on handle [n] and
    rebound [csv_handle] and [csv_writer], which held [handle] and
    [writer] *)
Definition handles_after_start (n : nat) (path : string)
  (handle writer : option nat) (hs : gmap nat resource)
  : gmap nat resource :=
  CSICollector.finalized (Some n) (Some n) writer
    (CSICollector.finalized (Some n) writer handle (<[n := RFile path]> hs)).

(** The collector is in the state that a successful [start] leaves: active,
    writing through the open handle [h] to the file at [path], with its
    start time taken. *)
Definition collecting (w : World) (h : nat) (path : string) : bool :=
  let c := csi_collector w in
  active c
  && match csv_writer c with Some h' => Nat.eqb h' h | None => false end
  && match csv_handle c with Some h' => Nat.eqb h' h | None => false end
  && match handles w !! h with
     | Some (RFile p) => String.eqb p path
     | _ => false
     end
  && match start_time c with Some _ => true | None => false end.

(** The file at [path] with one more row. *)
Definition appended (path : string) (r : row) (fs : gmap string (list row))
  : gmap string (list row) :=
  <[path := (default [] (fs !! path) ++ [r])%list]> fs.

(** The row that [add_data] builds from a line: the timestamp, then the
    fields of the line behind its nine-character marker. *)
Definition packet_row (now : Clock) (csi_data : string) : row :=
  isoformat now :: Py.split "," (Py.slice_from 9 csi_data).

(** The latest signal strength once a row has been looked at: the value of
    its fourth column when there is one, it is not empty and [float] reads
    it; the old value otherwise. *)
Definition rssi_after (r : row) (old : option Py.pyfloat)
  : option Py.pyfloat :=
  match r !! 3%nat with
  | Some rssi_field =>
      if String.eqb rssi_field "" then old
      else match Py.float rssi_field with
           | Some v => Some v
           | None => old
           end
  | None => old
  end.

(** The world after [add_data] has accepted a line. *)
Definition accepted_world (path : string) (csi_data : string) (w : World)
  : World :=
  let r := packet_row (clock w) csi_data in
  let c := csi_collector w in
  set_csi_collector
    (set_packet_count (packet_count c + 1)
       (set_latest_rssi (rssi_after r (latest_rssi c)) c))
    (set_files (appended path r (files w)) w).

(** A call on the serial link that returns and runs no discovery. *)
Definition quiet {A} (m : M Link A) : Prop :=
  forall h t, exists a h' t',
    m (h, t) = Ret a (h', t') /\ discoveries t' = discoveries t.

(** [w'] is [w] except for the serial handler and the event trace. *)
Definition same_but_link (w w' : World) : Prop :=
  collection_active w' = collection_active w
  /\ csi_collector w' = csi_collector w
  /\ video_recorder w' = video_recorder w
  /\ files w' = files w
  /\ unwritable w' = unwritable w
  /\ handles w' = handles w
  /\ next_handle w' = next_handle w
  /\ ports w' = ports w
  /\ camera w' = camera w
  /\ clock w' = clock w
  /\ chart w' = chart w
  /\ threads w' = threads w.

(** whether a handler has a radio connected, as [is_connected] answers *)
Definition connected (h : ESP32SerialHandler) : bool :=
  serial_available h && (0 <? length (serial_connections h))%nat.

(** The call [m] leaves the part [f] of the world as it found it, whether
    it returns or raises. *)
Definition keeps {A B} (f : World -> B) (m : M World A) : Prop :=
  forall w, f (state_of (m w)) = f w.

(** No radio is connected: there is no handler, or it has no connection
    (the test of [start_collection]). *)
Definition no_device (w : World) : bool :=
  match esp32_serial_handler w with
  | Some h => (length (map fst (serial_connections h)) =? 0)%nat
  | None => true
  end.

(** What a reconnect would find: the handler after one more
    [auto_connect] on the ports of the machine. *)
Definition after_reconnect (w : World) : option ESP32SerialHandler :=
  match esp32_serial_handler w with
  | Some h =>
      Some (fst (state_of (ESP32SerialHandler.auto_connect (ports w)
                             (h, trace w))))
  | None => None
  end.

(** whether the machine lets [path] be created or written *)
Definition can_write (w : World) (path : string) : bool :=
  negb (bool_decide (path ∈ unwritable w)).

(** ** Sample machines *)

(** a well-formed packet line, and one whose signal strength is garbled *)
Definition full_line : string :=
  "CSI_DATA,37,c0:5d:89:de:0d:85,-74,11,1,4,0,1,1,1,0,0,0,-97,1,1,2,30198,0,89,0,128,0,[89 16 5 0]".

Definition garbled_line : string :=
  "CSI_DATA,38,c0:5d:89:de:0d:85,1-74,11,1,4,0,1,1,1,0,0,0,-97,1,1,2,30198,0,89,0,128,0,[89 16 5 0]".

(** the two lines of the specification's scenario, up to where it leaves
    them open *)
Definition first_line : string := "CSI_DATA,1,aa:bb:cc:dd:ee:ff,-65,11,1,4".
Definition second_line : string := "CSI_DATA,2,aa:bb:cc:dd:ee:ff,-70,11,1,4".


Definition esp : PortInfo :=
  {| device := "/dev/ttyUSB0";
     description := "CP2102 USB to UART Bridge Controller";
     vid := Some 0x10c4%N; pid := Some 0xea60%N; openable := true;
     line := {| writable := true; readable := true;
                inbox := ["Serial Data output: ON"] |} |}.

Definition noon : Clock :=
  {| time_time := 1700000000; isoformat := "2023-11-14T12:00:00.000000";
     strftime := "20231114_120000" |}.

Definition later : Clock :=
  {| time_time := 1700000600; isoformat := "2023-11-14T12:10:00.000000";
     strftime := "20231114_121000" |}.

(** one radio attached, a camera that delivers 640x480 frames *)
Definition w_idle : World :=
  boot true true [esp] (Some (480, 640)) noon ∅.

(** the same machine with a session for distance 5 running *)
Definition w_session : World :=
  state_of (Controller.start_collection (JSONObject (Some "5")) w_idle).

(** the same machine when [csi_5m.csv] cannot be opened for writing, as
    when another program holds it *)
Definition w_locked : World :=
  boot true true [esp] (Some (480, 640)) noon {[ csv_name "5" ]}.

(** a radio that takes commands but whose line fails on reading *)
Definition w_deaf : World :=
  boot true true
    [{| device := device esp; description := description esp;
        vid := vid esp; pid := pid esp; openable := true;
        line := {| writable := true; readable := false; inbox := [] |} |}]
    (Some (480, 640)) noon ∅.

(** a server started with no radio attached, to which one has been plugged
    in since *)
Definition w_plugged_late : World :=
  let w := boot true true [] (Some (480, 640)) noon ∅ in
  {| collection_active := collection_active w;
     csi_collector := csi_collector w; video_recorder := video_recorder w;
     esp32_serial_handler := esp32_serial_handler w; files := files w;
     unwritable := unwritable w; handles := handles w;
     next_handle := next_handle w; ports := [esp]; camera := camera w;
     clock := clock w; chart := chart w; threads := threads w;
     trace := trace w |}.

(** the machine after a session for distance 5 that collected one packet
    and was stopped, ten minutes later *)
Definition w_after_session : World :=
  set_clock later
    (state_of (Controller.stop_collection
                 (state_of (feed [(noon, full_line)] w_session)))).

(** ** More of the code: what the properties below are stated with *)

(** The writes that [send_command] makes on a list of connections, most
    recent first: the command and a newline on every line that takes
    writes, in the order of the connections. *)
Definition command_writes (command : string)
  (conns : list (string * Serial)) : list event :=
  rev (map (fun '(port_name, _) => SerialWrite port_name (command +:+ OS.NL))
         (List.filter (fun '(_, ser) => writable ser) conns)).

(** the ports of a handler, in connection order *)
Definition connected_ports (h : ESP32SerialHandler) : list string :=
  map fst (serial_connections h).

(** a port of the machine that [auto_connect] connects *)
Definition connectable (p : PortInfo) : bool :=
  ESP32SerialHandler.is_esp32 p && openable p && writable (line p).

(** the block of [stop] that tells the radios to stop listening *)
Definition send_stop_listen : M World unit :=
  handler <- gets esp32_serial_handler ;;
  match handler with
  | Some _ =>
      connected <- on_handler ESP32SerialHandler.is_connected ;;
      if connected then CSICollector.try_send "stop_listen" else ret tt
  | None => ret tt
  end.

(** the collector that [stop] leaves behind *)
Definition stopped (c : CSICollector) : CSICollector :=
  match csv_handle c with
  | Some _ => set_csv_writer None (set_csv_handle None (set_active false c))
  | None => set_active false c
  end.

(** [os.path.join(VIDEO_DIR, f"video_{distance}m_{timestamp}.mp4")] *)
Definition video_name (distance : string) (now : Clock) : string :=
  path_join VIDEO_DIR
    ("video_" +:+ distance +:+ "m_" +:+ strftime now +:+ ".mp4").

(** the recorder is ready to start: OpenCV is there, nothing is being
    recorded, and the video and image directories can be made *)
Definition can_record (w : World) : bool :=
  video_available (video_recorder w)
  && negb (recording (video_recorder w))
  && can_write w VIDEO_DIR && can_write w IMAGE_DIR.

(** ** The other endpoints *)

(** The module constants [SERIAL_AVAILABLE] and [CV2_AVAILABLE] are
    arguments of the endpoints that read them. Where nothing in the body of
    an endpoint can raise, its [except] clause is left out. *)

(** The answers of the camera endpoints. *)
Inductive camera_response : Type :=
| CameraError (code : nat) (message : string)
| CameraStarted (video_file : option string) (distance camera_url : string)
| CameraStopped (result : VideoResult)
| CameraIdle (message : string).

(** [data = request.get_json() or {}] followed by
    [distance = data.get('distance', '0')] *)
Definition get_distance_or_default (body : request_body) : M World string :=
  match body with
  | JSONObject distance_field => ret (default "0" distance_field)
  | NotAnObject type_name truthy =>
      if truthy then
        raise (AttributeError
                 ("'" +:+ type_name +:+ "' object has no attribute 'get'"))
      else ret "0"
  | Unreadable message => raise (HTTPException message)
  end.

(** [POST /api/camera/start] *)
Definition start_camera_only (CV2_AVAILABLE : bool) (body : request_body)
  : M World camera_response :=
  try_except
    (distance <- get_distance_or_default body ;;
     if negb CV2_AVAILABLE then
       ret (CameraError 400 "OpenCV not available - cannot record video")
     else
       recorder <- gets video_recorder ;;
       if recording recorder then
         ret (CameraError 400 "Video recording already active")
       else
         success <- VideoRecorder.start_recording distance ;;
         if success then
           recorder <- gets video_recorder ;;
           ret (CameraStarted (output_path recorder) distance
                  (ip_camera_url recorder))
         else
           ret (CameraError 500
                  "Failed to start camera recording - check camera connection"))
    (fun e => ret (CameraError 500 (exn_str e))).

(** [POST /api/camera/stop] *)
Definition stop_camera_only : M World camera_response :=
  try_except
    (recorder <- gets video_recorder ;;
     if negb (recording recorder) then
       ret (CameraIdle "No active video recording to stop")
     else
       result <- VideoRecorder.stop_recording ;;
       match result with
       | Some r => ret (CameraStopped r)
       | None =>
           ret (CameraIdle
                  "Camera recording stopped (no active recording found)")
       end)
    (fun e => ret (CameraError 500 (exn_str e))).

(** The answers of [POST /api/esp32/reconnect]. *)
Inductive reconnect_response : Type :=
| ReconnectError (code : nat) (message : string)
| Reconnected (connections : list string) (is_connected : bool).

(** [POST /api/esp32/reconnect]: a handler is made when there is none
    ([ESP32SerialHandler()] runs discovery itself), and discovery is run
    again on the one that is there. *)
Definition esp32_reconnect (SERIAL_AVAILABLE : bool)
  : M World reconnect_response :=
  try_except
    (if negb SERIAL_AVAILABLE then
       ret (ReconnectError 400 "Serial library not available")
     else
       handler <- gets esp32_serial_handler ;;
       host <- gets ports ;;
       match handler with
       | None =>
           modify (fun w =>
                     set_link
                       {| serial_available := SERIAL_AVAILABLE;
                          serial_connections := [];
                          serial_threads := ∅; serial_listening := ∅ |}
                       (trace w) w) ;;
           on_handler (ESP32SerialHandler.auto_connect host)
       | Some _ => on_handler (ESP32SerialHandler.auto_connect host)
       end ;;
       connections <- on_handler ESP32SerialHandler.get_connected_devices ;;
       connected <- on_handler ESP32SerialHandler.is_connected ;;
       ret (Reconnected connections connected))
    (fun e => ret (ReconnectError 500 (exn_str e))).

(** The [data] of [GET /api/collection/status]. *)
Record CollectionStatus : Type := {
  status_active : bool;
  status_packet_count : nat;
  status_elapsed_time : Z;
  status_csv_file : option string
}.

(** [GET /api/collection/status] *)
Definition get_collection_status : M World CollectionStatus :=
  busy <- gets collection_active ;;
  collector <- gets csi_collector ;;
  if busy && active collector then
    now <- OS.time ;;
    ret {| status_active := true;
           status_packet_count := packet_count collector;
           status_elapsed_time := elapsed_since now (start_time collector);
           status_csv_file := csv_file collector |}
  else
    ret {| status_active := false; status_packet_count := 0;
           status_elapsed_time := 0; status_csv_file := None |}.

(** The fields of the [data] of [GET /api/status] that come from the
    session and the radios. The rate is packets per unit of the clock. *)
Record SystemStatus : Type := {
  sys_collection_active : bool;
  sys_current_rssi : option Py.pyfloat;
  sys_packet_count : nat;
  sys_current_rate : Q;
  sys_duration : Z;
  sys_esp32_connected : bool;
  sys_esp32_devices : list string;
  sys_csv_file : option string
}.

(** [GET /api/status] *)
Definition get_status : M World SystemStatus :=
  handler <- gets esp32_serial_handler ;;
  esp32_devices <- match handler with
                   | Some _ =>
                       on_handler ESP32SerialHandler.get_connected_devices
                   | None => ret []
                   end ;;
  busy <- gets collection_active ;;
  collector <- gets csi_collector ;;
  if busy && active collector then
    now <- OS.time ;;
    let elapsed := elapsed_since now (start_time collector) in
    let rate := if (0 <? elapsed)%Z
                then Qred (Z.of_nat (packet_count collector) # Z.to_pos elapsed)
                else 0%Q in
    ret {| sys_collection_active := busy;
           sys_current_rssi := latest_rssi collector;
           sys_packet_count := packet_count collector;
           sys_current_rate := rate;
           sys_duration := elapsed;
           sys_esp32_connected := (0 <? length esp32_devices)%nat;
           sys_esp32_devices := esp32_devices;
           sys_csv_file := csv_file collector |}
  else
    ret {| sys_collection_active := busy;
           sys_current_rssi := None;
           sys_packet_count := 0;
           sys_current_rate := 0%Q;
           sys_duration := 0;
           sys_esp32_connected := (0 <? length esp32_devices)%nat;
           sys_esp32_devices := esp32_devices;
           sys_csv_file := None |}.

(** ** The acknowledgement loop *)

(** every line of the handler can be read *)
Definition readable_lines (h : ESP32SerialHandler) : bool :=
  forallb (fun '(_, ser) => readable ser) (serial_connections h).

(** every line of the handler can be read and has nothing waiting *)
Definition silent (h : ESP32SerialHandler) : bool :=
  forallb (fun '(_, ser) => readable ser && (length (inbox ser) =? 0)%nat)
    (serial_connections h).

(** what [n] rounds of a command leave in the trace, most recent first *)
Fixpoint rounds (n : nat) (command : string) (conns : list (string * Serial))
  : list event :=
  match n with
  | O => []
  | S n' => (rounds n' command conns ++ command_writes command conns)%list
  end.

(** the ports of a handler, with whether each line takes writes and
    reads *)
Definition line_flags (h : ESP32SerialHandler)
  : list (string * bool * bool) :=
  map (fun '(port_name, ser) => (port_name, writable ser, readable ser))
    (serial_connections h).

(** a radio is connected, and every line can be read *)
Definition radio_ready (w : World) : bool :=
  match esp32_serial_handler w with
  | Some h => connected h && readable_lines h
  | None => false
  end.

(** the four data directories can be made *)
Definition dirs_writable (w : World) : bool :=
  can_write w CSI_DIR && can_write w CHART_DIR
  && can_write w VIDEO_DIR && can_write w IMAGE_DIR.

(** two radios with nothing to say, the second of which takes no writes *)
Definition h_silent : ESP32SerialHandler :=
  {| serial_available := true;
     serial_connections :=
       [("/dev/ttyUSB0",
         {| writable := true; readable := true; inbox := [] |});
        ("/dev/ttyUSB1",
         {| writable := false; readable := true; inbox := [] |})];
     serial_threads := ∅; serial_listening := ∅ |}.
(** ** The reader threads *)

(** the line that a port name stands for in a handler *)
Definition line_of (h : ESP32SerialHandler) (port : string) : option Serial :=
  match List.find (fun '(k, _) => String.eqb k port) (serial_connections h) with
  | Some (_, ser) => Some ser
  | None => None
  end.

(** The inner loop of [serial_listener], the target of a reader thread:
    [while serial_conn.in_waiting > 0], a line is read and, when it begins
    with the marker, handed to the collector. [fuel] bounds the number of
    lines read; the answer tells whether the loop came to its end. *)
Fixpoint drain (fuel : nat) (port : string) : M World bool :=
  waiting <- on_handler (ESP32SerialHandler.in_waiting port) ;;
  if waiting then
    match fuel with
    | O => ret false
    | S fuel' =>
        line <- on_handler (ESP32SerialHandler.readline port) ;;
        Controller.forward line ;;
        drain fuel' port
    end
  else ret true.

(** the lines among [lines] that begin with the marker *)
Definition packets (lines : list string) : list string :=
  List.filter (fun l => Py.startswith l marker) lines.

(** a session on [w_session] in which the radio has two packets and a log
    line waiting *)
Definition w_waiting : World :=
  set_link
    {| serial_available := true;
       serial_connections :=
         [("/dev/ttyUSB0",
           {| writable := true; readable := true;
              inbox := [full_line; "I (1234) wifi: state: run"; garbled_line] |})];
       serial_threads := ∅; serial_listening := {[ "/dev/ttyUSB0" := true ]} |}
    (trace w_session) w_session.
(** ** Reading a session file back *)

(** [float(row[3])] for a row of four columns or more whose fourth column
    reads as a number *)
Definition rssi_of_row (r : row) : option Py.pyfloat :=
  if (4 <=? length r)%nat then
    match r !! 3%nat with
    | Some rssi_field => Py.float rssi_field
    | None => None
    end
  else None.

(** [open(path, 'r')] reads with universal newlines: a carriage return,
    together with the line feed behind it when there is one, comes back as
    a line feed. *)
Fixpoint universal_newlines (s : string) : string :=
  match s with
  | EmptyString => EmptyString
  | String c s' =>
      if Ascii.eqb c (ascii_of_nat 13) then
        match s' with
        | String c' s'' =>
            if Ascii.eqb c' (ascii_of_nat 10)
            then String (ascii_of_nat 10) (universal_newlines s'')
            else String (ascii_of_nat 10) (universal_newlines s')
        | EmptyString => String (ascii_of_nat 10) EmptyString
        end
      else String c (universal_newlines s')
  end.

(** [csv.field_size_limit()] *)
Definition field_size_limit : N := 131072.

(** What [csv.reader] over [open(path, 'r')] gives back for a field that
    [csv.writer] wrote: the field with its line ends translated, or nothing
    when that is longer than the limit, where the reader raises
    [csv.Error]. *)
Definition read_field (field : string) : option string :=
  let text := universal_newlines field in
  if (field_size_limit <? Py.len text)%N then None else Some text.

(** the rows that the reader gives for the rows that were written, when it
    does not raise *)
Definition read_rows (written : list row) : option (list row) :=
  mapM (mapM read_field) written.

(** [load_csi_data_for_overview]. [open] raises on a missing file. The
    reader raises [StopIteration] at [next(reader)] on a file without a
    header row, and [csv.Error] on a field over the limit, outside the inner
    [try]. All of these end in the [except] clause, which answers [None]. *)
Definition load_csi_data_for_overview (file_path : string)
  : M World (option (list Py.pyfloat)) :=
  try_except
    (fs <- gets files ;;
     match fs !! file_path with
     | None =>
         raise (OSError ("[Errno 2] No such file or directory: "
                         +:+ file_path))
     | Some written =>
         match read_rows written with
         | Some (_ :: rows) =>
             let data_rows := omap rssi_of_row rows in
             ret (match data_rows with [] => None | _ => Some data_rows end)
         | Some [] => ret None
         | None => ret None
         end
     end)
    (fun _ => ret None).

(** a row that the reader gives back as it was written: no field holds a
    carriage return or more characters than the limit *)
Definition reads_back (r : row) : bool :=
  bool_decide (mapM read_field r = Some r).

(** the rows that a feed of [inputs] adds to the file of a session *)
Definition session_rows (inputs : list (Clock * string)) : list row :=
  map (fun '(now, csi_data) => packet_row now csi_data)
    (List.filter (fun '(_, csi_data) => Py.startswith csi_data marker) inputs).

(** ** Scanning for radios *)

(** One entry of the [esp32_devices] of a scan. *)
Record ScannedPort : Type := {
  scan_port : string;
  scan_description : string;
  scan_vid_pid : string
}.

(** The answers of [GET /api/esp32/scan]. *)
Inductive scan_response : Type :=
| ScanError (code : nat) (message : string)
| Scanned (esp32_devices : list ScannedPort) (total_found : nat).

(** [GET /api/esp32/scan]: the ports of the machine are listed and matched
    against the scan's own copy of the indicators; nothing is opened. (In
    the trace, [Discover] stands for a run of [auto_connect].) *)
Definition scan_esp32 (SERIAL_AVAILABLE : bool) : M World scan_response :=
  try_except
    (if negb SERIAL_AVAILABLE then ret (ScanError 400 "Serial not available")
     else
       host <- gets ports ;;
       let esp32_ports :=
         map (fun port =>
                {| scan_port := device port;
                   scan_description := description port;
                   scan_vid_pid := ESP32SerialHandler.vid_pid port |})
           (List.filter
              (fun port =>
                 let desc := Py.lower (description port) in
                 let vid_pid := ESP32SerialHandler.vid_pid port in
                 let esp32_indicators :=
                   ["esp32"; "cp210"; "ch340"; "cp2102"; "ft232";
                    "silicon labs"; "1a86:7523"; "10c4:ea60"; "0403:6001"] in
                 Py.any (fun indicator =>
                           Py.contains indicator desc
                           || Py.contains indicator vid_pid)
                   esp32_indicators)
              host) in
       ret (Scanned esp32_ports (length esp32_ports)))
    (fun e => ret (ScanError 500 (exn_str e))).

(** * Properties *)

(** ** The built-ins at work *)

Example split_fields : Py.split "," "1,aa,,-65" = ["1"; "aa"; ""; "-65"].
Proof. reflexivity. Qed.

Example split_empty : Py.split "," "" = [""].
Proof. reflexivity. Qed.

Example float_m70 : Py.float "-70" = Some (Py.Finite (-70 # 1)).
Proof. reflexivity. Qed.

Example float_dec : Py.float " 1_0.25e+1 " = Some (Py.Finite (205 # 2)).
Proof. vm_compute. reflexivity. Qed.

Example float_bad :
  map Py.float ["abc"; ""; "-"; "."; "1e"; "1__0"; "_1"; "1_"; "1 2"; "0x10"]
  = repeat None 10.
Proof. vm_compute. reflexivity. Qed.

Example float_words :
  map Py.float ["inf"; "-Infinity"; "NaN"; "1."; ".5"; "1.e2"]
  = [Some (Py.Inf false); Some (Py.Inf true); Some Py.NaN;
     Some (Py.Finite 1); Some (Py.Finite (1 # 2)); Some (Py.Finite 100)].
Proof. vm_compute. reflexivity. Qed.

(** [float] strips blank, tab, line feed, vertical tab, form feed and
    carriage return, not the separators 28 to 31; outside ASCII it takes
    white space and decimal digits as Python does; and it overflows to
    infinity. *)
Example float_separators :
  map Py.float
    [String (ascii_of_nat 28) "-70"; "-70" +:+ String (ascii_of_nat 31) "";
     String (ascii_of_nat 9) "-70" +:+ String (ascii_of_nat 13) ""]
  = [None; None; Some (Py.Finite (-70 # 1))].
Proof. vm_compute. reflexivity. Qed.

Example float_unicode :
  map Py.float [" -70"; "٧٠"; "-7٠"; "１.５"; "1é"; "²"]
  = [Some (Py.Finite (-70 # 1)); Some (Py.Finite 70);
     Some (Py.Finite (-70 # 1)); Some (Py.Finite (3 # 2)); None; None].
Proof. vm_compute. reflexivity. Qed.

Example float_overflow :
  map Py.float ["1e308"; "1.7976931348623159e308"; "-1e400"]
  = [Some (Py.Finite (inject_Z (10 ^ 308)));
     Some (Py.Inf false); Some (Py.Inf true)].
Proof. vm_compute. reflexivity. Qed.

Example len_characters :
  map Py.len ["abc"; "é"; "٧٠"; ""] = [3; 1; 2; 0]%N.
Proof. vm_compute. reflexivity. Qed.

Example hex_ids :
  (Py.hex04 0x1a86, Py.hex04 0x10, Py.hex04 0x12345)
  = ("1a86", "0010", "12345").
Proof. vm_compute. reflexivity. Qed.

(** ** Running the monad *)

Lemma bind_Ret {S A B} (m : M S A) (k : A -> M S B) s a s' :
  m s = Ret a s' -> bind m k s = k a s'.
Proof. intros E. unfold bind. rewrite E. reflexivity. Qed.

Lemma bind_Raise {S A B} (m : M S A) (k : A -> M S B) s e s' :
  m s = Raise e s' -> bind m k s = Raise e s'.
Proof. intros E. unfold bind. rewrite E. reflexivity. Qed.

(** A bind that returns went through both of its halves. *)
Lemma bind_inv {S A B} (m : M S A) (k : A -> M S B) s b s2 :
  bind m k s = Ret b s2 ->
  exists a s1, m s = Ret a s1 /\ k a s1 = Ret b s2.
Proof.
  unfold bind. destruct (m s) as [a s1 | e s1]; intros E.
  - exists a, s1. split; [reflexivity | exact E].
  - discriminate E.
Qed.

Ltac run := cbv [bind ret gets modify raise try_except OS.sleep].

(** reduce projections of field updates, and nothing else *)
Ltac fields :=
  cbn [collection_active csi_collector video_recorder esp32_serial_handler
       files unwritable handles next_handle ports camera clock chart threads
       trace set_collection_active set_csi_collector set_video_recorder
       set_link set_files set_handles set_threads set_clock
       active csv_file csv_writer csv_handle packet_count start_time
       latest_rssi set_active set_csv_file set_csv_writer set_csv_handle
       set_packet_count set_start_time set_latest_rssi
       ip_camera_url cap out recording frame_count video_start_time
       video_thread output_path video_available set_cap set_out
       set_recording set_frame_count set_video_start_time set_video_thread
       set_output_path
       serial_available serial_connections serial_threads serial_listening
       set_serial_connections set_serial_threads set_serial_listening
       fst snd state_of].

(** ** The session guard *)

(** With a JSON object as its body, a start request that arrives while a
    session is active is answered with the "already active" error (status
    400) and changes nothing: the collector, the files, the handles and the
    event trace are those of before. *)
Lemma start_collection_already_active (w : World) (d : option string) :
  collection_active w = true ->
  Controller.start_collection (JSONObject d) w
  = Ret (Error 400 "Collection already active") w.
Proof.
  intros Hbusy. unfold Controller.start_collection, Controller.get_distance.
  run. rewrite Hbusy. reflexivity.
Qed.

(** The body is read before the guard, inside the [try]: a request whose
    body is no JSON object is answered with status 500 and the text of the
    exception, and the [except] clause clears the global flag, whatever
    session is running. Nothing else changes. *)
Lemma start_collection_no_object (w : World) (body : request_body) :
  (forall d, body <> JSONObject d) ->
  exists message,
    Controller.start_collection body w
    = Ret (Error 500 message) (set_collection_active false w).
Proof.
  intros Hbody. destruct body as [d | type_name truthy | message].
  - now destruct (Hbody d).
  - eexists. reflexivity.
  - eexists. reflexivity.
Qed.

(** C7, on the code. A start request whose body is the JSON array [[]],
    sent while the session for distance 5 is active and has written one
    packet, is not answered "already active": it is answered with status
    500, and the global flag is cleared although the collector goes on
    collecting. The next start request for distance 5 is then accepted, and
    leaves of the first session's file the header alone. *)
Theorem malformed_start_unlocks_session :
  let w := state_of (feed [(noon, full_line)] w_session) in
  collection_active w = true
  /\ files w !! csv_name "5" = Some [headers; packet_row noon full_line]
  /\ exists w1,
      Controller.start_collection (NotAnObject "list" false) w
      = Ret (Error 500 "'list' object has no attribute 'get'") w1
      /\ collection_active w1 = false
      /\ active (csi_collector w1) = true
      /\ exists id csvp dist devs vr vf w2,
          Controller.start_collection (JSONObject (Some "5")) w1
          = Ret (Started id csvp dist devs vr vf) w2
          /\ files w2 !! csv_name "5" = Some [headers].
Proof.
  cbv zeta. split; [vm_compute; reflexivity |].
  split; [vm_compute; reflexivity |].
  eexists. split; [vm_compute; reflexivity |].
  split; [vm_compute; reflexivity |]. split; [vm_compute; reflexivity |].
  do 7 eexists. split; vm_compute; reflexivity.
Qed.

(** ** Stopping twice *)

Lemma stop_inactive (w : World) :
  active (csi_collector w) = false -> CSICollector.stop w = Ret None w.
Proof.
  intros Hoff. unfold CSICollector.stop. run. rewrite Hoff. reflexivity.
Qed.

Lemma stop_recording_idle (w : World) :
  recording (video_recorder w) = false ->
  VideoRecorder.stop_recording w = Ret None w.
Proof.
  intros Hoff. unfold VideoRecorder.stop_recording. run.
  rewrite Hoff. reflexivity.
Qed.

(** [stop_recording] always returns, and leaves the recorder not
    recording. *)
Lemma stop_recording_returns (w : World) :
  exists r w1, VideoRecorder.stop_recording w = Ret r w1
               /\ recording (video_recorder w1) = false.
Proof.
  unfold VideoRecorder.stop_recording, VideoRecorder.update, OS.release,
    OS.time.
  run.
  destruct (recording (video_recorder w)) eqn:Hrec; cbn [negb].
  - destruct (cap (video_recorder w)), (out (video_recorder w));
      eexists; eexists; (split; [reflexivity | reflexivity]).
  - eexists; eexists; split; [reflexivity | exact Hrec].
Qed.

(** C8. Stopping is idempotent. [CSICollector.stop] on an inactive collector
    and [VideoRecorder.stop_recording] on a recorder that is not recording
    return nothing and leave the whole world as it was; and since
    [stop_recording] always leaves the recorder not recording, a second call
    in a row is such a no-op. *)
Theorem stop_is_idempotent (w : World) :
  (active (csi_collector w) = false -> CSICollector.stop w = Ret None w)
  /\ (recording (video_recorder w) = false ->
      VideoRecorder.stop_recording w = Ret None w)
  /\ (exists r w1, VideoRecorder.stop_recording w = Ret r w1
                   /\ VideoRecorder.stop_recording w1 = Ret None w1).
Proof.
  split; [apply stop_inactive |].
  split; [apply stop_recording_idle |].
  destruct (stop_recording_returns w) as (r & w1 & E & Hoff).
  exists r, w1. split; [exact E |].
  apply stop_recording_idle. exact Hoff.
Qed.

Lemma stop_is_idempotent_witness :
  CSICollector.stop w_idle = Ret None w_idle
  /\ VideoRecorder.stop_recording w_idle = Ret None w_idle.
Proof.
  destruct (stop_is_idempotent w_idle) as (Hstop & Hvideo & _).
  split; [apply Hstop | apply Hvideo]; reflexivity.
Defined.

(** ** Starting a recording twice *)

(** C10. [start_recording] on a recorder that is already recording returns
    [False] and leaves the world, hence every field of the recorder, as it
    was. *)
Theorem start_recording_while_recording (w : World) (distance : string) :
  recording (video_recorder w) = true ->
  VideoRecorder.start_recording distance w = Ret false w.
Proof.
  intros Hrec. unfold VideoRecorder.start_recording. run. rewrite Hrec.
  destruct (video_available (video_recorder w)); reflexivity.
Qed.

Lemma start_recording_while_recording_witness :
  recording (video_recorder w_session) = true
  /\ VideoRecorder.start_recording "5" w_session = Ret false w_session.
Proof.
  split; [vm_compute; reflexivity |].
  apply (start_recording_while_recording w_session "5").
  vm_compute; reflexivity.
Defined.

(** ** Lines without the marker *)

(** [add_data] never raises: its outer [try] catches everything. *)
Lemma add_data_returns (csi_data : string) (w : World) :
  exists b w', CSICollector.add_data csi_data w = Ret b w'.
Proof.
  unfold CSICollector.add_data. run.
  destruct (active (csi_collector w)); [| eauto].
  destruct (csv_writer (csi_collector w)); [| eauto].
  match goal with
  | |- context [match ?x with Ret _ _ => _ | Raise _ _ => _ end] =>
      destruct x; eauto
  end.
Qed.

(** The three ways in which [add_data] turns a line away before it does
    anything: the collector is inactive, it has no writer, or the line does
    not begin with the marker. *)
Lemma add_data_turned_away (w : World) (csi_data : string) :
  active (csi_collector w) = false
  \/ csv_writer (csi_collector w) = None
  \/ Py.startswith csi_data marker = false ->
  CSICollector.add_data csi_data w = Ret false w.
Proof.
  intros Hwhy. unfold CSICollector.add_data. run.
  destruct (active (csi_collector w)); [| reflexivity].
  destruct (csv_writer (csi_collector w)); [| reflexivity].
  destruct Hwhy as [Hoff | [Hnone | Hno]]; try discriminate.
  rewrite Hno. reflexivity.
Qed.

(** ** Accepted lines *)

Lemma collecting_spec (w : World) (h : nat) (path : string) :
  collecting w h path = true ->
  active (csi_collector w) = true
  /\ csv_writer (csi_collector w) = Some h
  /\ csv_handle (csi_collector w) = Some h
  /\ handles w !! h = Some (RFile path)
  /\ exists t0, start_time (csi_collector w) = Some t0.
Proof.
  unfold collecting. intros H.
  repeat (apply andb_prop in H; destruct H as [H ?]).
  destruct (csv_writer (csi_collector w)) as [h1 |]; [| discriminate].
  destruct (csv_handle (csi_collector w)) as [h2 |]; [| discriminate].
  destruct (handles w !! h) as [[p | u | p] |]; try discriminate.
  destruct (start_time (csi_collector w)) as [t0 |]; [| discriminate].
  repeat match goal with
         | E : Nat.eqb _ _ = true |- _ => apply Nat.eqb_eq in E; subst
         | E : String.eqb _ _ = true |- _ => apply String.eqb_eq in E; subst
         end.
  eauto 10.
Qed.

Lemma set_latest_rssi_same (c : CSICollector) :
  set_latest_rssi (latest_rssi c) c = c.
Proof. destruct c; reflexivity. Qed.

Lemma set_csi_collector_same (w : World) :
  set_csi_collector (csi_collector w) w = w.
Proof. destruct w; reflexivity. Qed.

(** the inner [try] of [add_data] only ever sets the latest signal
    strength *)
Lemma track_rssi_run (r : row) (w : World) :
  CSICollector.track_rssi r w
  = Ret tt (set_csi_collector
              (set_latest_rssi
                 (rssi_after r (latest_rssi (csi_collector w)))
                 (csi_collector w))
              w).
Proof.
  unfold CSICollector.track_rssi, rssi_after.
  destruct (3 <? length r)%nat eqn:Hlen.
  - destruct (r !! 3%nat) as [f |]; cbn.
    + destruct (String.eqb f ""); cbn.
      * run. now rewrite set_latest_rssi_same, set_csi_collector_same.
      * destruct (Py.float f); [reflexivity |].
        run. now rewrite set_latest_rssi_same, set_csi_collector_same.
    + run. now rewrite set_latest_rssi_same, set_csi_collector_same.
  - apply Nat.ltb_ge in Hlen.
    rewrite (proj2 (lookup_ge_None r 3)) by lia.
    run. now rewrite set_latest_rssi_same, set_csi_collector_same.
Qed.

(** A line with the marker, given to a collecting collector, is accepted,
    and the world afterwards is [accepted_world]. *)
Lemma add_data_accepted (w : World) (h : nat) (path csi_data : string) :
  collecting w h path = true ->
  Py.startswith csi_data marker = true ->
  CSICollector.add_data csi_data w = Ret true (accepted_world path csi_data w).
Proof.
  intros Hc Hm.
  destruct (collecting_spec w h path Hc) as (Ha & Hw & Hh & Hres & t0 & Ht).
  unfold CSICollector.add_data. run. rewrite Ha, Hw, Hm.
  rewrite track_rssi_run.
  unfold OS.writerow, OS.flush, CSICollector.update. run. fields.
  rewrite Hres, Hh. fields. rewrite Hres, Ht.
  destruct ((packet_count (csi_collector w) + 1) mod 50 =? 0)%nat;
    reflexivity.
Qed.

(** C1, as the code has it. A line that does not begin with the marker is
    rejected: [add_data] returns [False] and the world is unchanged, so no
    row is written and the packet count stays. The number of fields is not
    looked at: a line with the marker, given to a collecting collector, is
    accepted whatever it has behind the marker, and goes into the file
    whole. *)
Theorem add_data_rejects_unmarked (w : World) (csi_data : string) :
  (Py.startswith csi_data marker = false ->
   CSICollector.add_data csi_data w = Ret false w)
  /\ (forall h path,
        collecting w h path = true ->
        Py.startswith csi_data marker = true ->
        exists w',
          CSICollector.add_data csi_data w = Ret true w'
          /\ files w' !! path
             = Some (default [] (files w !! path)
                     ++ [isoformat (clock w)
                         :: Py.split "," (Py.slice_from 9 csi_data)])%list).
Proof.
  split.
  - intros Hno. apply add_data_turned_away. right; right. exact Hno.
  - intros h path Hc Hm. exists (accepted_world path csi_data w).
    split; [exact (add_data_accepted w h path csi_data Hc Hm) |].
    unfold accepted_world, appended, packet_row. fields.
    apply lookup_insert_eq.
Qed.

Lemma add_data_rejects_unmarked_witness :
  CSICollector.add_data "RSSI,1,aa:bb:cc:dd:ee:ff,-65" w_session
  = Ret false w_session
  /\ exists w',
      CSICollector.add_data "CSI_DATA,1,2" w_session = Ret true w'
      /\ files w' !! csv_name "5"
         = Some [headers; [isoformat noon; "1"; "2"]].
Proof.
  split.
  - apply (proj1 (add_data_rejects_unmarked
                    w_session "RSSI,1,aa:bb:cc:dd:ee:ff,-65")).
    reflexivity.
  - apply (proj2 (add_data_rejects_unmarked w_session "CSI_DATA,1,2")
             0 (csv_name "5")); vm_compute; reflexivity.
Defined.

(** C1, as stated, fails: a line with the marker and only two fields is
    accepted, and a row of three columns goes into a file whose header has
    twenty-five. *)
Lemma add_data_accepts_short_line :
  length (Py.split "," (Py.slice_from 9 "CSI_DATA,1,2")) = 2
  /\ exists w',
      CSICollector.add_data "CSI_DATA,1,2" w_session = Ret true w'
      /\ files w' !! csv_name "5"
         = Some [headers; [isoformat noon; "1"; "2"]]
      /\ packet_count (csi_collector w') = 1.
Proof.
  split; [reflexivity |].
  eexists. split; [vm_compute; reflexivity |].
  split; vm_compute; reflexivity.
Qed.

(** A reader thread hands on the lines that begin with the marker; as
    [add_data] looks for the marker itself, that is the same as handing on
    every line. *)
Lemma forward_is_add_data (line : string) (w : World) :
  Controller.forward line w
  = Ret tt (state_of (CSICollector.add_data line w)).
Proof.
  unfold Controller.forward.
  destruct (Py.startswith line marker) eqn:Hm.
  - destruct (add_data_returns line w) as (b & w' & E).
    rewrite (bind_Ret _ _ _ _ _ E), E. reflexivity.
  - rewrite (add_data_turned_away w line) by auto. reflexivity.
Qed.

(** C4. A line that begins with the marker and has 24 comma-separated fields
    behind it, given to a collecting collector, is accepted and adds exactly
    one row to the session file and none to any other: the timestamp read
    from the clock at that moment, followed by the fields of the line with
    its nine-character marker stripped. The row has as many columns as the
    header, 25. *)
Theorem add_data_writes_one_full_row
  (w : World) (h : nat) (path csi_data : string) :
  collecting w h path = true ->
  Py.startswith csi_data marker = true ->
  length (Py.split "," (Py.slice_from 9 csi_data)) = 24 ->
  let r := isoformat (clock w) :: Py.split "," (Py.slice_from 9 csi_data) in
  exists w',
    CSICollector.add_data csi_data w = Ret true w'
    /\ files w' !! path = Some (default [] (files w !! path) ++ [r])%list
    /\ (forall other, other <> path -> files w' !! other = files w !! other)
    /\ length r = length headers
    /\ length r = 25.
Proof.
  intros Hc Hm Hlen r.
  exists (accepted_world path csi_data w).
  split; [exact (add_data_accepted w h path csi_data Hc Hm) |].
  unfold accepted_world, appended, packet_row. fields.
  split; [apply lookup_insert_eq |].
  split; [intros other Hne; apply lookup_insert_ne; congruence |].
  subst r. cbn [length]. rewrite Hlen. split; reflexivity.
Qed.

Lemma add_data_writes_one_full_row_witness :
  exists w',
    CSICollector.add_data full_line w_session = Ret true w'
    /\ files w' !! csv_name "5"
       = Some [headers;
               isoformat noon :: Py.split "," (Py.slice_from 9 full_line)].
Proof.
  destruct (add_data_writes_one_full_row w_session 0 (csv_name "5") full_line)
    as (w' & Hrun & Hfile & _); [vm_compute; reflexivity ..|].
  exists w'. split; [exact Hrun |]. exact Hfile.
Defined.

(** C6. When the signal-strength column of an accepted line does not read as
    a number, the failure is passed over: [add_data] still returns [True],
    the latest signal strength is the one of before, and the whole row goes
    into the file. *)
Theorem add_data_keeps_rssi_when_unreadable
  (w : World) (h : nat) (path csi_data rssi_field : string) :
  collecting w h path = true ->
  Py.startswith csi_data marker = true ->
  Py.split "," (Py.slice_from 9 csi_data) !! 2%nat = Some rssi_field ->
  Py.float rssi_field = None ->
  exists w',
    CSICollector.add_data csi_data w = Ret true w'
    /\ latest_rssi (csi_collector w') = latest_rssi (csi_collector w)
    /\ files w' !! path
       = Some (default [] (files w !! path)
               ++ [isoformat (clock w)
                   :: Py.split "," (Py.slice_from 9 csi_data)])%list.
Proof.
  intros Hc Hm Hfield Hbad.
  exists (accepted_world path csi_data w).
  split; [exact (add_data_accepted w h path csi_data Hc Hm) |].
  unfold accepted_world, appended, packet_row, rssi_after. fields.
  split; [| apply lookup_insert_eq].
  change ((isoformat (clock w) :: Py.split "," (Py.slice_from 9 csi_data))
            !! 3%nat)
    with (Py.split "," (Py.slice_from 9 csi_data) !! 2%nat).
  rewrite Hfield, Hbad. destruct (String.eqb rssi_field ""); reflexivity.
Qed.

Lemma add_data_keeps_rssi_when_unreadable_witness :
  exists w0 w',
    CSICollector.add_data full_line w_session = Ret true w0
    /\ CSICollector.add_data garbled_line w0 = Ret true w'
    /\ latest_rssi (csi_collector w') = Some (Py.Finite (-74 # 1)).
Proof.
  pose (w0 := accepted_world (csv_name "5") full_line w_session).
  destruct (add_data_keeps_rssi_when_unreadable
              w0 0 (csv_name "5") garbled_line "1-74")
    as (w' & Hrun & Hrssi & _); [vm_compute; reflexivity ..|].
  exists w0, w'. split; [vm_compute; reflexivity |].
  split; [exact Hrun |]. rewrite Hrssi. vm_compute. reflexivity.
Defined.

(** ** Counting packets *)

(** Neither the clock nor an accepted line changes whether the collector is
    collecting: [collecting] looks at fields that [add_data] leaves alone. *)
Lemma collecting_accepted_world (w : World) (h : nat) (path line : string)
  (now : Clock) :
  collecting (accepted_world path line (set_clock now w)) h path
  = collecting w h path.
Proof. reflexivity. Qed.

(** feeding a line with the marker to a collecting collector *)
Lemma feed_accepted (w : World) (h : nat) (path : string) (now : Clock)
  (line : string) (rest : list (Clock * string)) :
  collecting w h path = true ->
  Py.startswith line marker = true ->
  feed ((now, line) :: rest) w
  = match feed rest (accepted_world path line (set_clock now w)) with
    | Ret answers w' => Ret (true :: answers) w'
    | Raise e w' => Raise e w'
    end.
Proof.
  intros Hc Hm. cbn [feed].
  rewrite (bind_Ret _ _ w tt (set_clock now w)) by reflexivity.
  rewrite (bind_Ret _ _ _ _ _
             (add_data_accepted (set_clock now w) h path line Hc Hm)).
  reflexivity.
Qed.

(** Whatever is fed to a collecting collector, every call returns, and the
    packet count grows by the number of accepted calls. *)
Lemma feed_counts (inputs : list (Clock * string)) :
  forall (w : World) (h : nat) (path : string),
    collecting w h path = true ->
    exists answers w',
      feed inputs w = Ret answers w'
      /\ length answers = length inputs
      /\ packet_count (csi_collector w')
         = packet_count (csi_collector w) + accepted answers
      /\ collecting w' h path = true.
Proof.
  induction inputs as [| [now line] rest IH]; intros w h path Hc.
  - exists [], w. cbn. unfold accepted. cbn. repeat split; [lia | exact Hc].
  - cbn [feed].
    rewrite (bind_Ret _ _ w tt (set_clock now w)) by reflexivity.
    destruct (Py.startswith line marker) eqn:Hm.
    + rewrite (bind_Ret _ _ _ _ _
                 (add_data_accepted (set_clock now w) h path line Hc Hm)).
      destruct (IH (accepted_world path line (set_clock now w)) h path Hc)
        as (answers & w' & Hrun & Hlen & Hcount & Hc').
      exists (true :: answers), w'.
      rewrite (bind_Ret _ _ _ _ _ Hrun).
      split; [reflexivity |]. split; [cbn; lia |].
      split; [| exact Hc'].
      rewrite Hcount. unfold accepted_world, accepted. fields. cbn. lia.
    + rewrite (bind_Ret _ _ _ _ _
                 (add_data_turned_away (set_clock now w) line
                    (or_intror (or_intror Hm)))).
      destruct (IH (set_clock now w) h path Hc)
        as (answers & w' & Hrun & Hlen & Hcount & Hc').
      exists (false :: answers), w'.
      rewrite (bind_Ret _ _ _ _ _ Hrun).
      split; [reflexivity |]. split; [cbn; lia |].
      split; [| exact Hc'].
      rewrite Hcount. reflexivity.
Qed.

(** ** The serial link *)

Lemma quiet_ret {A} (a : A) : quiet (ret a).
Proof. intros h t. exists a, h, t. split; reflexivity. Qed.

Lemma quiet_bind {A B} (m : M Link A) (k : A -> M Link B) :
  quiet m -> (forall a, quiet (k a)) -> quiet (bind m k).
Proof.
  intros Hm Hk h t.
  destruct (Hm h t) as (a & h1 & t1 & E1 & D1).
  destruct (Hk a h1 t1) as (b & h2 & t2 & E2 & D2).
  exists b, h2, t2. rewrite (bind_Ret _ _ _ _ _ E1).
  split; [exact E2 | congruence].
Qed.

Lemma quiet_write (port data : string) :
  quiet (ESP32SerialHandler.emit (SerialWrite port data)).
Proof. intros h t. exists tt, h, (SerialWrite port data :: t). split; reflexivity. Qed.

Lemma quiet_update (f : ESP32SerialHandler -> ESP32SerialHandler) :
  quiet (ESP32SerialHandler.update f).
Proof. intros h t. exists tt, (f h), t. split; reflexivity. Qed.

Lemma quiet_gets {A} (f : Link -> A) : quiet (gets f).
Proof. intros h t. exists (f (h, t)), h, t. split; reflexivity. Qed.

Lemma quiet_for_each {A} (l : list A) (body : A -> M Link unit) :
  (forall x, quiet (body x)) -> quiet (for_each l body).
Proof.
  intros Hbody. induction l as [| x l IH]; cbn [for_each].
  - apply quiet_ret.
  - apply quiet_bind; [apply Hbody | intros _; exact IH].
Qed.

Create HintDb quiet.
#[local] Hint Resolve quiet_ret quiet_write quiet_update quiet_gets : quiet.

Lemma quiet_send_all (command : string) (conns : list (string * Serial)) :
  quiet (ESP32SerialHandler.send_all command conns).
Proof.
  induction conns as [| [port ser] conns IH]; cbn [ESP32SerialHandler.send_all].
  - auto with quiet.
  - apply quiet_bind; [destruct (writable ser); auto with quiet |].
    intros _. apply quiet_bind; [exact IH | auto with quiet].
Qed.

Lemma quiet_send_command (command : string) :
  quiet (ESP32SerialHandler.send_command command).
Proof.
  unfold ESP32SerialHandler.send_command.
  apply quiet_bind; [auto with quiet |]. intros h.
  destruct (negb (serial_available h) || bool_decide (serial_connections h = []));
    [auto with quiet |].
  apply quiet_bind; [apply quiet_send_all | auto with quiet].
Qed.

Lemma quiet_connect (p : PortInfo) : quiet (ESP32SerialHandler.connect p).
Proof.
  unfold ESP32SerialHandler.connect.
  destruct (openable p && writable (line p)); [| auto with quiet].
  apply quiet_bind; auto with quiet.
Qed.

(** One call of [auto_connect] is one discovery. *)
Lemma auto_connect_discovers (host : list PortInfo) (h : ESP32SerialHandler)
  (t : list event) :
  exists h' t',
    ESP32SerialHandler.auto_connect host (h, t) = Ret tt (h', t')
    /\ discoveries t' = S (discoveries t).
Proof.
  unfold ESP32SerialHandler.auto_connect.
  destruct (quiet_for_each (List.filter ESP32SerialHandler.is_esp32 host)
              ESP32SerialHandler.connect quiet_connect h (Discover :: t))
    as ([] & h' & t' & E & D).
  exists h', t'. split; [| exact D].
  rewrite (bind_Ret _ _ (h, t) tt (h, Discover :: t)) by reflexivity.
  exact E.
Qed.

Lemma is_connected_run (h : ESP32SerialHandler) (t : list event) :
  ESP32SerialHandler.is_connected (h, t) = Ret (connected h) (h, t).
Proof. reflexivity. Qed.

(** ** Calls on the global handler *)

Lemma same_but_link_refl (w : World) : same_but_link w w.
Proof. unfold same_but_link. repeat split. Qed.

Lemma same_but_link_set (w : World) (h : ESP32SerialHandler) (t : list event) :
  same_but_link w (set_link h t w).
Proof. unfold same_but_link. repeat split. Qed.

Lemma same_but_link_trans (w1 w2 w3 : World) :
  same_but_link w1 w2 -> same_but_link w2 w3 -> same_but_link w1 w3.
Proof. unfold same_but_link. intuition congruence. Qed.

Lemma on_handler_Ret {A} (m : M Link A) (w : World) h a h' t' :
  esp32_serial_handler w = Some h ->
  m (h, trace w) = Ret a (h', t') ->
  on_handler m w = Ret a (set_link h' t' w).
Proof. intros Hh E. unfold on_handler. rewrite Hh, E. reflexivity. Qed.

(** A quiet call on a handler that is there returns, touches the link only
    and adds no discovery. *)
Lemma on_handler_quiet {A} (m : M Link A) (w : World) h :
  quiet m ->
  esp32_serial_handler w = Some h ->
  exists a h' w',
    on_handler m w = Ret a w'
    /\ esp32_serial_handler w' = Some h'
    /\ same_but_link w w'
    /\ discoveries (trace w') = discoveries (trace w).
Proof.
  intros Hq Hh. destruct (Hq h (trace w)) as (a & h' & t' & E & D).
  exists a, h', (set_link h' t' w).
  split; [exact (on_handler_Ret m w h a h' t' Hh E) |].
  split; [reflexivity |]. split; [apply same_but_link_set | exact D].
Qed.

Lemma try_send_run (command : string) (w : World) h :
  esp32_serial_handler w = Some h ->
  exists h' w',
    CSICollector.try_send command w = Ret tt w'
    /\ esp32_serial_handler w' = Some h'
    /\ same_but_link w w'
    /\ discoveries (trace w') = discoveries (trace w).
Proof.
  intros Hh.
  destruct (on_handler_quiet _ w h (quiet_send_command command) Hh)
    as (b & h' & w' & E & Hh' & Hs & D).
  exists h', w'. unfold CSICollector.try_send, try_except.
  rewrite (bind_Ret _ _ _ _ _ E). auto.
Qed.

(** ** Starting the collector *)

(** The reconnect of [start]: the block that tells the radios to listen
    returns, touches the link only, and runs discovery once exactly when a
    handler is there with nothing connected. *)
Lemma send_start_listen_run (w : World) :
  exists w',
    CSICollector.send_start_listen w = Ret tt w'
    /\ same_but_link w w'
    /\ discoveries (trace w')
       = discoveries (trace w)
         + match esp32_serial_handler w with
           | Some h => if connected h then 0 else 1
           | None => 0
           end.
Proof.
  unfold CSICollector.send_start_listen.
  rewrite (bind_Ret _ _ w (esp32_serial_handler w) w) by reflexivity.
  destruct (esp32_serial_handler w) as [h |] eqn:Hh.
  - rewrite (bind_Ret _ _ w (connected h) (set_link h (trace w) w))
      by (apply (on_handler_Ret _ w h); [exact Hh | apply is_connected_run]).
    set (w1 := set_link h (trace w) w).
    assert (Hs1 : same_but_link w w1) by apply same_but_link_set.
    destruct (connected h).
    + destruct (try_send_run "start_listen" w1 h eq_refl)
        as (h' & w' & E & _ & Hs & D).
      exists w'. split; [exact E |].
      split; [exact (same_but_link_trans _ _ _ Hs1 Hs) |].
      rewrite D. subst w1. fields. lia.
    + rewrite (bind_Ret _ _ w1 (ports w1) w1) by reflexivity.
      destruct (auto_connect_discovers (ports w1) h (trace w1))
        as (h2 & t2 & E2 & D2).
      rewrite (bind_Ret _ _ w1 tt (set_link h2 t2 w1))
        by (apply (on_handler_Ret _ w1 h); [reflexivity | exact E2]).
      set (w2 := set_link h2 t2 w1).
      rewrite (bind_Ret _ _ w2 (connected h2) (set_link h2 (trace w2) w2))
        by (apply (on_handler_Ret _ w2 h2);
            [reflexivity | apply is_connected_run]).
      set (w3 := set_link h2 (trace w2) w2).
      assert (Hs3 : same_but_link w w3) by (unfold same_but_link; repeat split).
      assert (D3 : discoveries (trace w3) = discoveries (trace w) + 1).
      { subst w3 w2 w1. fields. rewrite D2. fields. lia. }
      destruct (connected h2).
      * destruct (try_send_run "start_listen" w3 h2 eq_refl)
          as (h' & w' & E & _ & Hs & D).
        exists w'. split; [exact E |].
        split; [exact (same_but_link_trans _ _ _ Hs3 Hs) | congruence].
      * exists w3. split; [reflexivity |]. split; [exact Hs3 | exact D3].
  - exists w. split; [reflexivity |].
    split; [apply same_but_link_refl | lia].
Qed.

(** The world in which [start] opens the file: the collector is marked
    active, and so is the global flag. *)
Lemma start_prelude (csv : string) (d : option Z) (w : World) :
  exists w1,
    CSICollector.start csv d w = start_tail csv d w1
    /\ collection_active w1 = true
    /\ csi_collector w1
       = set_start_time (Some (time_time (clock w)))
           (set_packet_count 0
              (set_active true (set_csv_file (Some csv) (csi_collector w))))
    /\ files w1 = files w /\ unwritable w1 = unwritable w
    /\ handles w1 = handles w /\ next_handle w1 = next_handle w
    /\ discoveries (trace w1)
       = discoveries (trace w)
         + match esp32_serial_handler w with
           | Some h => if connected h then 0 else 1
           | None => 0
           end.
Proof.
  set (c1 := set_start_time (Some (time_time (clock w)))
               (set_packet_count 0
                  (set_active true (set_csv_file (Some csv) (csi_collector w))))).
  set (wa := set_collection_active true (set_csi_collector c1 w)).
  destruct (send_start_listen_run wa) as (w1 & E & Hs & D).
  exists w1.
  destruct Hs as (Hca & Hcc & _ & Hf & Hu & Hh & Hn & _).
  split.
  - transitivity
      (bind CSICollector.send_start_listen (fun _ => start_tail csv d) wa);
      [reflexivity |].
    rewrite (bind_Ret _ _ _ _ _ E). reflexivity.
  - rewrite Hca, Hcc, Hf, Hu, Hh, Hn, D. subst wa. fields. repeat split.
Qed.

(** a file that the collector holds is not closed behind its back *)
Lemma finalized_held (handle writer old : option nat)
  (hs : gmap nat resource) (k : nat) :
  handle = Some k \/ writer = Some k ->
  CSICollector.finalized handle writer old hs !! k = hs !! k.
Proof.
  intros Hheld. unfold CSICollector.finalized.
  destruct old as [h |]; [| reflexivity].
  destruct (decide (h = k)) as [-> | Hne].
  - destruct Hheld as [-> | ->];
      rewrite (bool_decide_eq_true_2 (Some k = Some k)) by reflexivity;
      rewrite ?orb_true_r; reflexivity.
  - destruct (_ || _); [reflexivity |].
    destruct (hs !! h) as [[p | u | p] |]; try reflexivity.
    now apply lookup_delete_ne.
Qed.

(** the file that [start] has just opened is open *)
Lemma handles_after_start_new (n : nat) (path : string)
  (handle writer : option nat) (hs : gmap nat resource) :
  handles_after_start n path handle writer hs !! n = Some (RFile path).
Proof.
  unfold handles_after_start.
  rewrite !finalized_held by auto. apply lookup_insert_eq.
Qed.

(** From [open] on: when the file can be opened, [start] returns [True]
    with the collector writing to the new file, which holds the header and
    nothing else, through a new handle; the files behind the old handle and
    the old writer are closed unless they are the new one. *)
Lemma start_tail_run (csv : string) (d : option Z) (w1 : World) :
  csv ∉ unwritable w1 ->
  exists w0,
    start_tail csv d w1 = Ret true w0
    /\ csi_collector w0
       = set_csv_writer (Some (next_handle w1))
           (set_csv_handle (Some (next_handle w1)) (csi_collector w1))
    /\ handles w0
       = handles_after_start (next_handle w1) csv
           (csv_handle (csi_collector w1)) (csv_writer (csi_collector w1))
           (handles w1)
    /\ next_handle w0 = S (next_handle w1)
    /\ files w0 = <[csv := [headers]]> (files w1)
    /\ collection_active w0 = collection_active w1
    /\ trace w0 = trace w1.
Proof.
  intros Hfree.
  pose proof (handles_after_start_new (next_handle w1) csv
                (csv_handle (csi_collector w1)) (csv_writer (csi_collector w1))
                (handles w1)) as Hnew.
  unfold handles_after_start in *.
  unfold start_tail, OS.open_w, OS.alloc, CSICollector.update,
    CSICollector.finalize, OS.writerow, OS.flush, OS.spawn.
  run. rewrite (bool_decide_eq_false_2 _ Hfree). fields.
  rewrite Hnew. fields. rewrite Hnew, lookup_insert_eq.
  destruct d as [d' |]; [destruct (0 <? d')%Z |];
    (eexists; split; [reflexivity |]); fields;
    rewrite ?insert_insert_eq; repeat split.
Qed.

(** When the file can be opened, [start] succeeds: the collector is
    collecting into it through a fresh handle, the count is back at 0, and
    the file holds the header and nothing else, whatever it held before. *)
Lemma start_opens (csv : string) (d : option Z) (w : World) :
  csv ∉ unwritable w ->
  exists w0,
    CSICollector.start csv d w = Ret true w0
    /\ collecting w0 (next_handle w) csv = true
    /\ packet_count (csi_collector w0) = 0
    /\ latest_rssi (csi_collector w0) = latest_rssi (csi_collector w)
    /\ files w0 = <[csv := [headers]]> (files w)
    /\ collection_active w0 = true
    /\ discoveries (trace w0)
       = discoveries (trace w)
         + match esp32_serial_handler w with
           | Some h => if connected h then 0 else 1
           | None => 0
           end
    /\ next_handle w0 = S (next_handle w).
Proof.
  intros Hfree.
  destruct (start_prelude csv d w)
    as (w1 & -> & Hca & Hcc & Hf & Hu & Hh & Hn & D).
  destruct (start_tail_run csv d w1)
    as (w0 & E & Hc0 & Hh0 & Hn0 & Hf0 & Ha0 & Ht0);
    [now rewrite Hu |].
  exists w0. split; [exact E |].
  split.
  { unfold collecting.
    rewrite Hc0, Hh0, Hn, handles_after_start_new, Hcc. fields.
    now rewrite Nat.eqb_refl, String.eqb_refl. }
  rewrite Hc0, Hcc, Hf0, Hf, Ha0, Hca, Ht0, D, Hn0, Hn. fields.
  repeat split.
Qed.

(** When the file cannot be opened, [start] raises, and by then both the
    collector and the global flag say "active"; no file and no handle has
    changed. *)
Lemma start_locked (csv : string) (d : option Z) (w : World) :
  csv ∈ unwritable w ->
  exists e w0,
    CSICollector.start csv d w = Raise e w0
    /\ active (csi_collector w0) = true
    /\ collection_active w0 = true
    /\ csv_writer (csi_collector w0) = csv_writer (csi_collector w)
    /\ files w0 = files w
    /\ handles w0 = handles w
    /\ discoveries (trace w0)
       = discoveries (trace w)
         + match esp32_serial_handler w with
           | Some h => if connected h then 0 else 1
           | None => 0
           end.
Proof.
  intros Hlocked.
  destruct (start_prelude csv d w)
    as (w1 & -> & Hca & Hcc & Hf & Hu & Hh & Hn & D).
  unfold start_tail, OS.open_w. run. rewrite Hu.
  rewrite (bool_decide_eq_true_2 _ Hlocked).
  eexists; eexists; split; [reflexivity |].
  rewrite Hcc, Hca, Hf, Hh, D. fields. repeat split.
Qed.

(** [start] returns only [True], and only when the file could be opened. *)
Lemma start_inv (csv : string) (d : option Z) (w : World) b w0 :
  CSICollector.start csv d w = Ret b w0 ->
  b = true /\ csv ∉ unwritable w.
Proof.
  intros E. destruct (decide (csv ∈ unwritable w)) as [Hin | Hout].
  - destruct (start_locked csv d w Hin) as (e & w' & E' & _). congruence.
  - destruct (start_opens csv d w Hout) as (w' & E' & _).
    split; [congruence | exact Hout].
Qed.

(** C5. In a session, the packet count is the number of accepted calls:
    after [start] has returned, whatever lines are fed to [add_data] and
    whatever the clock reads meanwhile, every call returns and the count
    equals the number of calls that returned [True]. In particular the two
    lines of the scenario, however they go on, are both accepted and leave
    a count of 2 and a latest signal strength of -70. *)
Theorem packet_count_is_accepted_calls
  (w : World) (csv : string) (d : option Z) (w0 : World) :
  CSICollector.start csv d w = Ret true w0 ->
  (forall inputs, exists answers w',
      feed inputs w0 = Ret answers w'
      /\ length answers = length inputs
      /\ packet_count (csi_collector w') = accepted answers)
  /\ (forall c1 c2 tail1 tail2, exists w',
         feed [(c1, first_line +:+ tail1); (c2, second_line +:+ tail2)] w0
         = Ret [true; true] w'
         /\ packet_count (csi_collector w') = 2
         /\ latest_rssi (csi_collector w') = Some (Py.Finite (-70 # 1))).
Proof.
  intros Hstart.
  destruct (start_inv csv d w true w0 Hstart) as [_ Hfree].
  destruct (start_opens csv d w Hfree)
    as (w0' & Hstart' & Hc & Hzero & _).
  assert (w0' = w0) by congruence. subst w0'.
  split.
  - intros inputs.
    destruct (feed_counts inputs w0 (next_handle w) csv Hc)
      as (answers & w' & Hrun & Hlen & Hcount & _).
    exists answers, w'. split; [exact Hrun |]. split; [exact Hlen |].
    rewrite Hcount, Hzero. reflexivity.
  - intros c1 c2 tail1 tail2.
    set (l1 := first_line +:+ tail1). set (l2 := second_line +:+ tail2).
    set (wa := accepted_world csv l1 (set_clock c1 w0)).
    exists (accepted_world csv l2 (set_clock c2 wa)).
    split.
    + rewrite (feed_accepted w0 (next_handle w) csv c1 l1 _ Hc eq_refl).
      fold wa.
      rewrite (feed_accepted wa (next_handle w) csv c2 l2 _ Hc eq_refl).
      reflexivity.
    + subst wa. unfold accepted_world. fields. rewrite Hzero.
      split; reflexivity.
Qed.

Lemma packet_count_is_accepted_calls_witness :
  exists w',
    feed [(noon, first_line +:+ ",0,1"); (later, second_line +:+ "")]
      (state_of (CSICollector.start (csv_name "5") None w_idle))
    = Ret [true; true] w'
    /\ packet_count (csi_collector w') = 2
    /\ latest_rssi (csi_collector w') = Some (Py.Finite (-70 # 1)).
Proof.
  destruct (packet_count_is_accepted_calls
              w_idle (csv_name "5") None
              (state_of (CSICollector.start (csv_name "5") None w_idle)))
    as [_ Hscenario]; [vm_compute; reflexivity |].
  exact (Hscenario noon later ",0,1" "").
Defined.

(** ** What a call leaves alone *)

Section Frame.

Context {B : Type} (f : World -> B).

Lemma keeps_Ret {A} (m : M World A) w a w' :
  keeps f m -> m w = Ret a w' -> f w' = f w.
Proof. intros Hk E. specialize (Hk w). rewrite E in Hk. exact Hk. Qed.

Lemma keeps_ret {A} (a : A) : keeps f (ret a).
Proof. intros w. reflexivity. Qed.

Lemma keeps_raise {A} (e : exn) : keeps f (@raise World A e).
Proof. intros w. reflexivity. Qed.

Lemma keeps_gets {A} (g : World -> A) : keeps f (gets g).
Proof. intros w. reflexivity. Qed.

Lemma keeps_bind {A C} (m : M World A) (k : A -> M World C) :
  keeps f m -> (forall a, keeps f (k a)) -> keeps f (bind m k).
Proof.
  intros Hm Hk w. unfold bind. specialize (Hm w).
  destruct (m w) as [a w1 | e w1]; cbn [state_of] in *.
  - rewrite (Hk a w1). exact Hm.
  - exact Hm.
Qed.

Lemma keeps_try_except {A} (m : M World A) (h : exn -> M World A) :
  keeps f m -> (forall e, keeps f (h e)) -> keeps f (try_except m h).
Proof.
  intros Hm Hh w. unfold try_except. specialize (Hm w).
  destruct (m w) as [a w1 | e w1]; cbn [state_of] in *.
  - exact Hm.
  - rewrite (Hh e w1). exact Hm.
Qed.

Lemma keeps_modify (g : World -> World) :
  (forall w, f (g w) = f w) -> keeps f (modify g).
Proof. intros Hg w. apply Hg. Qed.

Lemma keeps_for_each {A} (l : list A) (body : A -> M World unit) :
  (forall x, keeps f (body x)) -> keeps f (for_each l body).
Proof.
  intros Hbody. induction l as [| x l IH]; cbn [for_each].
  - apply keeps_ret.
  - apply keeps_bind; [apply Hbody | intros _; exact IH].
Qed.

Lemma keeps_makedirs (path : string) : keeps f (OS.makedirs path).
Proof.
  intros w. unfold OS.makedirs.
  destruct (bool_decide (path ∈ unwritable w)); reflexivity.
Qed.

Lemma keeps_create_directories : keeps f create_directories.
Proof.
  unfold create_directories.
  repeat (apply keeps_bind; [apply keeps_makedirs | intros _]).
  apply keeps_makedirs.
Qed.

(** [f] does not look at the serial handler or the trace *)
Hypothesis f_link : forall h t w, f (set_link h t w) = f w.

Lemma keeps_on_handler {A} (m : M Link A) : keeps f (on_handler m).
Proof.
  intros w. unfold on_handler.
  destruct (esp32_serial_handler w) as [h |]; [| reflexivity].
  destruct (m (h, trace w)) as [a [h' t'] | e [h' t']]; apply f_link.
Qed.

Lemma keeps_try_send (command : string) :
  keeps f (CSICollector.try_send command).
Proof.
  unfold CSICollector.try_send. apply keeps_try_except.
  - apply keeps_bind; [apply keeps_on_handler | intros _; apply keeps_ret].
  - intros _. apply keeps_ret.
Qed.

(** nor at the recorder, the handles or the threads *)
Hypothesis f_recorder : forall v w, f (set_video_recorder v w) = f w.
Hypothesis f_handles : forall hs n w, f (set_handles hs n w) = f w.
Hypothesis f_threads : forall ts w, f (set_threads ts w) = f w.

Lemma keeps_recorder_update (g : VideoRecorder -> VideoRecorder) :
  keeps f (VideoRecorder.update g).
Proof. apply keeps_modify. intros w. apply f_recorder. Qed.

Lemma keeps_release (h : nat) : keeps f (OS.release h).
Proof. apply keeps_modify. intros w. apply f_handles. Qed.

Lemma keeps_alloc (r : resource) : keeps f (OS.alloc r).
Proof. intros w. apply f_handles. Qed.

Lemma keeps_spawn (t : thread) : keeps f (OS.spawn t).
Proof. intros w. apply f_threads. Qed.

Lemma keeps_stop_recording : keeps f VideoRecorder.stop_recording.
Proof.
  unfold VideoRecorder.stop_recording.
  apply keeps_bind; [apply keeps_gets | intros self].
  destruct (negb (recording self)); [apply keeps_ret |].
  apply keeps_bind; [apply keeps_recorder_update | intros _].
  apply keeps_bind.
  { destruct (cap self); [| apply keeps_ret].
    apply keeps_bind; [apply keeps_release | intros _].
    apply keeps_recorder_update. }
  intros _. apply keeps_bind.
  { destruct (out self); [| apply keeps_ret].
    apply keeps_bind; [apply keeps_release | intros _].
    apply keeps_recorder_update. }
  intros _. apply keeps_bind; [apply keeps_gets | intros now].
  apply keeps_ret.
Qed.

Lemma keeps_start_recording (distance : string) :
  keeps f (VideoRecorder.start_recording distance).
Proof.
  unfold VideoRecorder.start_recording.
  apply keeps_bind; [apply keeps_gets | intros self].
  destruct (negb (video_available self)); [apply keeps_ret |].
  destruct (recording self); [apply keeps_ret |].
  apply keeps_try_except.
  - apply keeps_bind; [apply keeps_makedirs | intros _].
    apply keeps_bind; [apply keeps_makedirs | intros _].
    apply keeps_bind; [apply keeps_alloc | intros c].
    apply keeps_bind; [apply keeps_recorder_update | intros _].
    apply keeps_bind; [apply keeps_gets | intros frame].
    destruct frame as [[height width] |].
    + apply keeps_bind; [apply keeps_gets | intros timestamp].
      apply keeps_bind; [apply keeps_recorder_update | intros _].
      apply keeps_bind; [apply keeps_alloc | intros o].
      repeat (apply keeps_bind; [apply keeps_recorder_update | intros _]).
      apply keeps_bind; [apply keeps_gets | intros now].
      apply keeps_bind; [apply keeps_recorder_update | intros _].
      apply keeps_bind; [apply keeps_spawn | intros tid].
      apply keeps_bind; [apply keeps_recorder_update | intros _].
      apply keeps_ret.
    + apply keeps_bind; [apply keeps_gets | intros self'].
      apply keeps_bind; [| intros _; apply keeps_ret].
      destruct (cap self'); [apply keeps_release | apply keeps_ret].
  - intros _.
    apply keeps_bind; [apply keeps_stop_recording | intros _].
    apply keeps_ret.
Qed.

Lemma keeps_start_serial_listening :
  keeps f Controller.start_serial_listening.
Proof.
  unfold Controller.start_serial_listening.
  apply keeps_bind; [apply keeps_on_handler | intros self].
  apply keeps_bind; [| intros _; apply keeps_ret].
  apply keeps_for_each. intros [port_name ser].
  apply keeps_bind; [apply keeps_on_handler | intros _].
  apply keeps_bind; [apply keeps_spawn | intros tid].
  apply keeps_on_handler.
Qed.

End Frame.

(** ** The start request *)

Ltac step H a w E := apply bind_inv in H as (a & w & E & H).

(** [f] is out of reach of the handler, the recorder and the threads *)
Ltac kept f lem := apply (lem _ f); reflexivity.

(** Starting the recorder leaves the handles that are already there
    alone. *)
Lemma start_recording_spares_handle (distance : string) (w : World)
  (h : nat) (r : resource) :
  handles w !! h = Some r ->
  h < next_handle w ->
  handles (state_of (VideoRecorder.start_recording distance w)) !! h = Some r.
Proof.
  intros Hh Hlt.
  unfold VideoRecorder.start_recording, VideoRecorder.stop_recording,
    VideoRecorder.update, OS.makedirs, OS.alloc, OS.release, OS.spawn, OS.time.
  run.
  destruct (video_available (video_recorder w)); cbn [negb]; [| exact Hh].
  destruct (recording (video_recorder w)) eqn:Hrec; [exact Hh |].
  destruct (bool_decide (VIDEO_DIR ∈ unwritable w)).
  { rewrite Hrec. exact Hh. }
  destruct (bool_decide (IMAGE_DIR ∈ unwritable w)).
  { rewrite Hrec. exact Hh. }
  fields.
  destruct (camera w) as [[height width] |]; fields.
  - rewrite !lookup_insert_ne by lia. exact Hh.
  - rewrite lookup_delete_ne, lookup_insert_ne by lia. exact Hh.
Qed.

(** A start request that is answered with "started" found no session
    active, named the file after the distance alone, and went through a
    successful [start] on that file; since then no file has changed, the
    collector is as [start] left it, and the handles that were open then
    still are. *)
Lemma start_collection_started (d : option string) (w : World)
  id csvp dist devs vr vf w' :
  Controller.start_collection (JSONObject d) w
  = Ret (Started id csvp dist devs vr vf) w' ->
  collection_active w = false
  /\ csvp = csv_name (default "0" d)
  /\ exists w1 w2,
      files w1 = files w
      /\ CSICollector.start csvp None w1 = Ret true w2
      /\ files w' = files w2
      /\ csi_collector w' = csi_collector w2
      /\ (forall h r, handles w2 !! h = Some r -> h < next_handle w2 ->
                      handles w' !! h = Some r).
Proof.
  intros H. unfold Controller.start_collection, try_except in H.
  match type of H with
  | match ?body w with _ => _ end = _ =>
      destruct (body w) as [r s | e s] eqn:Hbody
  end.
  2:{ cbv [bind modify ret] in H. discriminate H. }
  injection H as -> ->.
  step Hbody distance w0 E. injection E as <- <-.
  step Hbody busy w0 E. injection E as <- <-.
  destruct (collection_active w) eqn:Hbusy; [discriminate Hbody |].
  step Hbody handler w0 E. injection E as <- <-.
  step Hbody nodev wa Ea.
  assert (Fa : files wa = files w).
  { refine (keeps_Ret files _ _ _ _ _ Ea).
    destruct (esp32_serial_handler w); [| apply keeps_ret].
    apply keeps_bind; [kept files @keeps_on_handler | intros; apply keeps_ret]. }
  destruct nodev; [discriminate Hbody |].
  step Hbody u1 wb Eb.
  assert (Fb : files wb = files wa)
    by exact (keeps_Ret files _ _ _ _ (keeps_create_directories files) Eb).
  step Hbody timestamp w0 E. injection E as <- <-.
  step Hbody success wc Ec.
  destruct (start_inv _ _ _ _ _ Ec) as [-> _]. cbn [negb] in Hbody.
  step Hbody armed wd Ed.
  assert (Kd : forall B (f : World -> B),
             (forall h t w, f (set_link h t w) = f w) -> f wd = f wc)
    by (intros B f Hf; exact (keeps_Ret f _ _ _ _ (keeps_on_handler f Hf _) Ed)).
  step Hbody sent we Ee.
  assert (Ke : forall B (f : World -> B),
             (forall h t w, f (set_link h t w) = f w) -> f we = f wd)
    by (intros B f Hf; exact (keeps_Ret f _ _ _ _ (keeps_on_handler f Hf _) Ee)).
  step Hbody u2 w0 E. injection E as <- <-.
  step Hbody video_started wf Ef.
  assert (Ff : files wf = files we)
    by (refine (keeps_Ret files _ _ _ _ _ Ef);
        kept files @keeps_start_recording).
  assert (Cf : csi_collector wf = csi_collector we)
    by (refine (keeps_Ret csi_collector _ _ _ _ _ Ef);
        kept csi_collector @keeps_start_recording).
  step Hbody listening_started wg Eg.
  assert (Kg : forall B (f : World -> B),
             (forall h t w, f (set_link h t w) = f w) ->
             (forall ts w, f (set_threads ts w) = f w) -> f wg = f wf).
  { intros B f Hl Ht.
    exact (keeps_Ret f _ _ _ _ (keeps_start_serial_listening f Hl Ht) Eg). }
  destruct listening_started; cbn [negb] in Hbody.
  2:{ step Hbody r0 w0 E. step Hbody r1 w1 E1. discriminate Hbody. }
  step Hbody devices wh Eh.
  assert (Kh : forall B (f : World -> B),
             (forall h t w, f (set_link h t w) = f w) -> f wh = f wg)
    by (intros B f Hf; exact (keeps_Ret f _ _ _ _ (keeps_on_handler f Hf _) Eh)).
  step Hbody recorder w0 E. injection E as <- <-.
  injection Hbody as <- <- <- <- <- <- <-.
  split; [reflexivity |]. split; [reflexivity |].
  exists wb, wc. split; [congruence |]. split; [exact Ec |].
  split.
  { rewrite (Kh _ files), (Kg _ files), Ff, (Ke _ files), (Kd _ files);
      reflexivity. }
  split.
  { rewrite (Kh _ csi_collector), (Kg _ csi_collector), Cf,
      (Ke _ csi_collector), (Kd _ csi_collector); reflexivity. }
  intros h r Hh Hlt.
  rewrite (Kh _ handles), (Kg _ handles) by reflexivity.
  pose proof (start_recording_spares_handle (default "0" d) we h r) as Hsp.
  rewrite Ef in Hsp. cbn [state_of] in Hsp. apply Hsp.
  - rewrite (Ke _ handles), (Kd _ handles) by reflexivity. exact Hh.
  - rewrite (Ke _ next_handle), (Kd _ next_handle) by reflexivity. exact Hlt.
Qed.

(** Every session that the controller starts is one in which the collector
    is collecting into the file named after the distance, from a count
    of 0. *)
Lemma started_session_collecting (d : option string) (w : World)
  id csvp dist devs vr vf w' :
  Controller.start_collection (JSONObject d) w
  = Ret (Started id csvp dist devs vr vf) w' ->
  exists h,
    collecting w' h (csv_name (default "0" d)) = true
    /\ packet_count (csi_collector w') = 0.
Proof.
  intros H.
  destruct (start_collection_started _ _ _ _ _ _ _ _ _ H)
    as (_ & -> & w1 & w2 & _ & E & _ & Hc & Hh).
  destruct (start_inv _ _ _ _ _ E) as [_ Hfree].
  destruct (start_opens _ None w1 Hfree)
    as (w2' & E' & Hcol & Hzero & _ & _ & _ & _ & Hn).
  assert (w2' = w2) by congruence. subst w2'.
  exists (next_handle w1). split; [| now rewrite Hc].
  destruct (collecting_spec _ _ _ Hcol) as (Ha & Hw & Hhd & Hres & t0 & Ht).
  unfold collecting.
  rewrite Hc, Ha, Hw, Hhd, Ht, (Hh _ _ Hres) by lia.
  now rewrite Nat.eqb_refl, String.eqb_refl.
Qed.

(** C9. [start] opens its file for writing, so that after it has returned
    the file holds the header and nothing of what it held before. The
    controller names the session file after the distance alone
    ([csi_<distance>m.csv], no timestamp): whenever a start request is
    answered with "started", the file of that name holds just the header,
    so that the rows of an earlier session with the same distance are
    gone. *)
Theorem same_distance_overwrites
  (w : World) (d : option string) id csvp dist devs vr vf (w' : World) :
  Controller.start_collection (JSONObject d) w
  = Ret (Started id csvp dist devs vr vf) w' ->
  csvp = csv_name (default "0" d)
  /\ files w' !! csv_name (default "0" d) = Some [headers]
  /\ (forall w1 csv dur w2,
        CSICollector.start csv dur w1 = Ret true w2 ->
        files w2 !! csv = Some [headers]).
Proof.
  intros H.
  assert (Htrunc : forall w1 csv dur w2,
             CSICollector.start csv dur w1 = Ret true w2 ->
             files w2 !! csv = Some [headers]).
  { intros w1 csv dur w2 E.
    destruct (start_inv _ _ _ _ _ E) as [_ Hfree].
    destruct (start_opens csv dur w1 Hfree) as (w2' & E' & _ & _ & _ & F & _).
    assert (w2' = w2) by congruence. subst w2'.
    rewrite F. apply lookup_insert_eq. }
  destruct (start_collection_started _ _ _ _ _ _ _ _ _ H)
    as (_ & -> & w1 & w2 & _ & E & F & _).
  split; [reflexivity |]. split; [| exact Htrunc].
  rewrite F. exact (Htrunc _ _ _ _ E).
Qed.

Lemma same_distance_overwrites_witness :
  length (default [] (files w_after_session !! csv_name "5")) = 2
  /\ files (state_of (Controller.start_collection (JSONObject (Some "5"))
                        w_after_session))
       !! csv_name "5" = Some [headers].
Proof.
  split; [vm_compute; reflexivity |].
  refine (proj1 (proj2 (same_distance_overwrites
                          w_after_session (Some "5")
                          "20231114_121000" (csv_name "5") "5"
                          ["/dev/ttyUSB0"] true
                          (Some "data/video/video_5m_20231114_121000.mp4")
                          _ _))).
  vm_compute. reflexivity.
Defined.

(** ** Start requests without a radio *)

Lemma set_link_same (w : World) (h : ESP32SerialHandler) :
  esp32_serial_handler w = Some h -> set_link h (trace w) w = w.
Proof. destruct w; cbn. intros ->. reflexivity. Qed.

Lemma start_collection_no_device (w : World) (d : option string) :
  collection_active w = false ->
  no_device w = true ->
  Controller.start_collection (JSONObject d) w
  = Ret (Error 400
           "No ESP32 devices connected. Please connect ESP32 and restart server.")
      w.
Proof.
  unfold no_device. intros Hidle Hnone.
  unfold Controller.start_collection, try_except.
  rewrite (bind_Ret _ _ w (default "0" d) w) by reflexivity.
  rewrite (bind_Ret _ _ w false w) by (run; now rewrite Hidle).
  cbv iota.
  rewrite (bind_Ret _ _ w (esp32_serial_handler w) w) by reflexivity.
  destruct (esp32_serial_handler w) as [h |] eqn:Hh; [| reflexivity].
  rewrite (bind_Ret _ _ w true w); [reflexivity |].
  rewrite (bind_Ret _ _ w (map fst (serial_connections h)) w).
  - run. now rewrite Hnone.
  - rewrite <- (set_link_same w h Hh) at 2.
    apply (on_handler_Ret _ w h); [exact Hh | reflexivity].
Qed.

(** clearing a flag that is not set changes nothing *)
Lemma set_collection_active_idle (w : World) :
  collection_active w = false -> set_collection_active false w = w.
Proof. destruct w; cbn. intros ->. reflexivity. Qed.

(** C3, as the code has it. A start request that finds no radio connected
    (and no session active) fails at once, and the world is unchanged, so
    that discovery has not been run again: with a JSON object as its body
    the request is answered with the "no device" error (status 400), and
    with any other body with status 500, since the body is read before the
    check. The one reconnect is in [CSICollector.start]: called when a
    handler is there with no radio connected, it runs discovery exactly
    once, and then opens the file and returns [True] if the file can be
    opened, whether or not a radio was found. *)
Theorem start_without_device (w : World) :
  (forall body,
      collection_active w = false ->
      no_device w = true ->
      exists code message,
        Controller.start_collection body w = Ret (Error code message) w
        /\ match body with
           | JSONObject _ =>
               code = 400
               /\ message
                  = "No ESP32 devices connected. Please connect ESP32 and restart server."
           | _ => code = 500
           end)
  /\ (forall csv dur h,
        esp32_serial_handler w = Some h ->
        connected h = false ->
        discoveries (trace (state_of (CSICollector.start csv dur w)))
        = S (discoveries (trace w))
        /\ (csv ∉ unwritable w ->
            exists w0, CSICollector.start csv dur w = Ret true w0)).
Proof.
  split.
  { intros body Hidle Hnone. destruct body as [d | type_name truthy | message].
    - exists 400. eexists. split; [| split; reflexivity].
      now apply start_collection_no_device.
    - exists 500. eexists. split; [| reflexivity].
      rewrite <- (set_collection_active_idle w Hidle) at 2. reflexivity.
    - exists 500. eexists. split; [| reflexivity].
      rewrite <- (set_collection_active_idle w Hidle) at 2. reflexivity. }
  intros csv dur h Hh Hoff. split.
  - destruct (decide (csv ∈ unwritable w)) as [Hin | Hout].
    + destruct (start_locked csv dur w Hin)
        as (e & w0 & -> & _ & _ & _ & _ & _ & D).
      cbn [state_of]. rewrite D, Hh, Hoff. lia.
    + destruct (start_opens csv dur w Hout)
        as (w0 & -> & _ & _ & _ & _ & _ & D & _).
      cbn [state_of]. rewrite D, Hh, Hoff. lia.
  - intros Hout. destruct (start_opens csv dur w Hout) as (w0 & E & _).
    exists w0. exact E.
Qed.

Lemma start_without_device_witness :
  Controller.start_collection (JSONObject (Some "5")) w_plugged_late
  = Ret (Error 400
           "No ESP32 devices connected. Please connect ESP32 and restart server.")
      w_plugged_late
  /\ (exists message,
        Controller.start_collection (NotAnObject "list" false) w_plugged_late
        = Ret (Error 500 message) w_plugged_late)
  /\ discoveries
       (trace (state_of (CSICollector.start (csv_name "5") None w_plugged_late)))
     = S (discoveries (trace w_plugged_late)).
Proof.
  destruct (start_without_device w_plugged_late) as [Hreject Hstart].
  split; [| split].
  - destruct (Hreject (JSONObject (Some "5")))
      as (code & message & E & -> & ->); [reflexivity | reflexivity |].
    exact E.
  - destruct (Hreject (NotAnObject "list" false))
      as (code & message & E & ->); [reflexivity | reflexivity |].
    exists message. exact E.
  - refine (proj1 (Hstart (csv_name "5") None _ eq_refl _)). reflexivity.
Defined.

(** C3, as stated, fails: on a server that was started with no radio and
    has had one plugged in since, a start request is rejected with the
    "no device" error without discovery having been run (the world, and with
    it the trace, is unchanged), although a reconnect would have found the
    radio. *)
Lemma start_collection_does_not_reconnect :
  no_device w_plugged_late = true
  /\ (exists w',
        Controller.start_collection (JSONObject (Some "5")) w_plugged_late
        = Ret (Error 400
                 "No ESP32 devices connected. Please connect ESP32 and restart server.")
            w'
        /\ discoveries (trace w') = discoveries (trace w_plugged_late))
  /\ (connected <$> after_reconnect w_plugged_late) = Some true.
Proof.
  split; [reflexivity |]. split; [| vm_compute; reflexivity].
  eexists. split; vm_compute; reflexivity.
Qed.

(** ** Failed starts *)

(** When the session file cannot be opened, the start request fails with
    status 500 and clears the global flag, but the collector stays marked
    active. *)
Lemma start_collection_open_fails (w : World) (d : option string) :
  collection_active w = false ->
  no_device w = false ->
  forallb (can_write w) [CSI_DIR; CHART_DIR; VIDEO_DIR; IMAGE_DIR] = true ->
  can_write w (csv_name (default "0" d)) = false ->
  exists msg w',
    Controller.start_collection (JSONObject d) w = Ret (Error 500 msg) w'
    /\ collection_active w' = false
    /\ active (csi_collector w') = true.
Proof.
  unfold no_device, can_write. intros Hidle Hdev Hdirs Hlocked.
  apply negb_false_iff, bool_decide_eq_true_1 in Hlocked.
  cbn [forallb] in Hdirs. rewrite !andb_true_iff, !negb_true_iff in Hdirs.
  destruct Hdirs as (D1 & D2 & D3 & D4 & _).
  unfold Controller.start_collection, try_except.
  rewrite (bind_Ret _ _ w (default "0" d) w) by reflexivity.
  rewrite (bind_Ret _ _ w false w) by (run; now rewrite Hidle).
  cbv iota.
  rewrite (bind_Ret _ _ w (esp32_serial_handler w) w) by reflexivity.
  destruct (esp32_serial_handler w) as [h |] eqn:Hh; [| discriminate Hdev].
  rewrite (bind_Ret _ _ w false w).
  2:{ rewrite (bind_Ret _ _ w (map fst (serial_connections h)) w).
      - run. now rewrite Hdev.
      - rewrite <- (set_link_same w h Hh) at 2.
        apply (on_handler_Ret _ w h); [exact Hh | reflexivity]. }
  cbv iota.
  rewrite (bind_Ret _ _ w tt w).
  2:{ unfold create_directories, OS.makedirs. run.
      rewrite D1, D2, D3, D4. reflexivity. }
  rewrite (bind_Ret _ _ w (strftime (clock w)) w) by reflexivity.
  destruct (start_locked _ None w Hlocked) as (e & w0 & E & Hact & _).
  rewrite (bind_Raise _ _ _ _ _ E).
  exists (exn_str e), (set_collection_active false w0).
  split; [reflexivity |]. split; [reflexivity | exact Hact].
Qed.

(** C2, on the code. Two start requests that fail after the session has
    been marked active. When [csi_5m.csv] cannot be opened, the request is
    answered with status 500 and the global flag is cleared, but the
    collector is left active. When the radio's line breaks during the
    acknowledgement probe, the same happens, and the session file is left
    open with its writer in place. *)
Theorem failed_start_leaves_collector_active :
  (exists msg w',
      Controller.start_collection (JSONObject (Some "5")) w_locked
      = Ret (Error 500 msg) w'
      /\ collection_active w' = false
      /\ active (csi_collector w') = true)
  /\ (exists msg w',
        Controller.start_collection (JSONObject (Some "5")) w_deaf
        = Ret (Error 500 msg) w'
        /\ collection_active w' = false
        /\ active (csi_collector w') = true
        /\ csv_writer (csi_collector w') = Some 0
        /\ handles w' !! 0 = Some (RFile (csv_name "5"))).
Proof.
  split.
  - destruct (start_collection_open_fails w_locked (Some "5"))
      as (msg & w' & H); [reflexivity .. | eauto].
  - eexists; eexists. split; [vm_compute; reflexivity |].
    repeat split; vm_compute; reflexivity.
Qed.

(** * More of the code *)

(** [fields], in a hypothesis *)
Tactic Notation "fields" "in" hyp(H) :=
  cbn [collection_active csi_collector video_recorder esp32_serial_handler
       files unwritable handles next_handle ports camera clock chart threads
       trace set_collection_active set_csi_collector set_video_recorder
       set_link set_files set_handles set_threads set_clock
       active csv_file csv_writer csv_handle packet_count start_time
       latest_rssi set_active set_csv_file set_csv_writer set_csv_handle
       set_packet_count set_start_time set_latest_rssi
       ip_camera_url cap out recording frame_count video_start_time
       video_thread output_path video_available set_cap set_out
       set_recording set_frame_count set_video_start_time set_video_thread
       set_output_path
       serial_available serial_connections serial_threads serial_listening
       set_serial_connections set_serial_threads set_serial_listening
       fst snd state_of] in H.

(** ** Commands *)

Lemma send_all_run (command : string) (conns : list (string * Serial))
  (h : ESP32SerialHandler) (t : list event) :
  ESP32SerialHandler.send_all command conns (h, t)
  = Ret (length (List.filter (fun '(_, ser) => writable ser) conns))
      (h, command_writes command conns ++ t)%list.
Proof.
  revert t. induction conns as [| [port ser] conns IH]; intros t.
  - reflexivity.
  - cbn [ESP32SerialHandler.send_all]. unfold command_writes.
    cbn [List.filter]. destruct (writable ser).
    + rewrite (bind_Ret _ _ (h, t) tt
                 (h, SerialWrite port (command +:+ OS.NL) :: t))
        by reflexivity.
      rewrite (bind_Ret _ _ _ _ _ (IH _)).
      cbn [map rev length]. unfold ret, command_writes.
      rewrite <- app_assoc. reflexivity.
    + rewrite (bind_Ret _ _ (h, t) tt (h, t)) by reflexivity.
      rewrite (bind_Ret _ _ _ _ _ (IH _)). reflexivity.
Qed.

Lemma send_command_run (command : string)
  (h : ESP32SerialHandler) (t : list event) :
  ESP32SerialHandler.send_command command (h, t)
  = Ret (serial_available h
         && existsb (fun '(_, ser) => writable ser) (serial_connections h))
      (h, if serial_available h
          then (command_writes command (serial_connections h) ++ t)%list
          else t).
Proof.
  unfold ESP32SerialHandler.send_command.
  rewrite (bind_Ret _ _ (h, t) h (h, t)) by reflexivity.
  destruct (serial_available h); cbn [negb orb andb]; [| reflexivity].
  destruct (serial_connections h) as [| c conns] eqn:Hc.
  - reflexivity.
  - rewrite bool_decide_eq_false_2 by discriminate.
    rewrite (bind_Ret _ _ _ _ _ (send_all_run command (c :: conns) h t)).
    unfold ret. f_equal.
    generalize (c :: conns). clear. intros l.
    induction l as [| [port ser] l IH]; [reflexivity |].
    cbn [List.filter existsb]. destruct (writable ser); [reflexivity |].
    exact IH.
Qed.

(** X1. [send_command] answers [True] exactly when serial support is there
    and at least one connection takes the write. It writes the command and
    a newline to every connection that takes writes, in connection order
    (one that fails does not stop the others), writes nothing else, and
    leaves the handler as it was. *)
Theorem send_command_writes_to_all (command : string)
  (h : ESP32SerialHandler) (t : list event) :
  ESP32SerialHandler.send_command command (h, t)
  = Ret (serial_available h
         && existsb (fun '(_, ser) => writable ser) (serial_connections h))
      (h, if serial_available h
          then (command_writes command (serial_connections h) ++ t)%list
          else t).
Proof. apply send_command_run. Qed.

(** ** Discovery *)

Lemma dict_set_keys {V} (k : string) (v : V) (d : list (string * V)) :
  exists extra,
    map fst (dict_set k v d) = (map fst d ++ extra)%list
    /\ (forall x, In x (map fst (dict_set k v d)) <-> x = k \/ In x (map fst d)).
Proof.
  induction d as [| [k' v'] d IH]; cbn [dict_set map fst].
  - exists [k]. split; [reflexivity |]. intros x. cbn. intuition.
  - destruct (String.eqb k' k) eqn:Hk; cbn [map fst].
    + apply String.eqb_eq in Hk. subst k'. exists [].
      split; [now rewrite app_nil_r |]. intros x. cbn. intuition.
    + destruct IH as (extra & Hkeys & Hin). exists extra.
      split; [cbn; now rewrite Hkeys |].
      intros x. cbn. rewrite Hin. intuition.
Qed.

(** what the loop of [auto_connect] does with a list of ports *)
Lemma connect_all (l : list PortInfo) :
  forall (h : ESP32SerialHandler) (t : list event),
  exists h' t',
    for_each l ESP32SerialHandler.connect (h, t) = Ret tt (h', t')
    /\ (exists extra, connected_ports h' = (connected_ports h ++ extra)%list)
    /\ (forall name,
          In name (connected_ports h')
          <-> In name (connected_ports h)
              \/ exists p, In p l /\ device p = name
                           /\ openable p && writable (line p) = true)
    /\ serial_available h' = serial_available h
    /\ serial_threads h' = serial_threads h
    /\ serial_listening h' = serial_listening h.
Proof.
  induction l as [| p l IH]; intros h t.
  - exists h, t. split; [reflexivity |].
    split; [exists []; now rewrite app_nil_r |].
    split; [| auto]. intros name. split; [auto |].
    intros [H | (p & [] & _)]. exact H.
  - cbn [for_each]. unfold ESP32SerialHandler.connect at 1.
    destruct (openable p && writable (line p)) eqn:Hp.
    + set (h1 := set_serial_connections
                   (dict_set (device p) (line p) (serial_connections h)) h).
      rewrite (bind_Ret _ _ (h, t) tt
                 (h1, SerialWrite (device p) OS.NL :: t)) by reflexivity.
      destruct (IH h1 (SerialWrite (device p) OS.NL :: t))
        as (h' & t' & E & (extra & Hpre) & Hin & Ha & Hth & Hli).
      destruct (dict_set_keys (device p) (line p) (serial_connections h))
        as (extra1 & Hpre1 & Hin1).
      exists h', t'. split; [exact E |].
      split.
      { exists (extra1 ++ extra)%list. rewrite Hpre. unfold connected_ports.
        subst h1. cbn [serial_connections set_serial_connections].
        rewrite Hpre1. now rewrite app_assoc. }
      split; [| auto].
      intros name. rewrite Hin. unfold connected_ports at 1. subst h1.
      cbn [serial_connections set_serial_connections]. rewrite Hin1.
      unfold connected_ports. split.
      * intros [[-> | H] | (q & Hq & Hd & Hok)]; [right | left | right].
        -- exists p. cbn. auto.
        -- exact H.
        -- exists q. cbn. auto.
      * intros [H | (q & [<- | Hq] & Hd & Hok)]; [left; right; exact H | |].
        -- left; left. now symmetry.
        -- right. exists q. auto.
    + rewrite (bind_Ret _ _ (h, t) tt (h, t)) by reflexivity.
      destruct (IH h t) as (h' & t' & E & Hpre & Hin & Hrest).
      exists h', t'. split; [exact E |]. split; [exact Hpre |].
      split; [| exact Hrest].
      intros name. rewrite Hin. split.
      * intros [H | (q & Hq & Hd & Hok)]; [left; exact H |].
        right. exists q. cbn. auto.
      * intros [H | (q & [<- | Hq] & Hd & Hok)]; [left; exact H | |].
        -- congruence.
        -- right. exists q. auto.
Qed.

Lemma auto_connect_run (host : list PortInfo)
  (h : ESP32SerialHandler) (t : list event) :
  exists h' t',
    ESP32SerialHandler.auto_connect host (h, t) = Ret tt (h', t')
    /\ (exists extra, connected_ports h' = (connected_ports h ++ extra)%list)
    /\ (forall name,
          In name (connected_ports h')
          <-> In name (connected_ports h)
              \/ exists p, In p host /\ device p = name
                           /\ connectable p = true)
    /\ serial_available h' = serial_available h
    /\ serial_threads h' = serial_threads h
    /\ serial_listening h' = serial_listening h.
Proof.
  unfold ESP32SerialHandler.auto_connect.
  rewrite (bind_Ret _ _ (h, t) tt (h, Discover :: t)) by reflexivity.
  destruct (connect_all (List.filter ESP32SerialHandler.is_esp32 host)
              h (Discover :: t))
    as (h' & t' & E & Hpre & Hin & Hrest).
  exists h', t'. split; [exact E |]. split; [exact Hpre |].
  split; [| exact Hrest].
  intros name. rewrite Hin. unfold connectable.
  split; (intros [H | (p & Hp & Hd & Hok)]; [left; exact H | right; exists p]).
  - apply filter_In in Hp as [Hp Hm]. rewrite Hm. auto.
  - apply andb_prop in Hok as [Hok Hw]. apply andb_prop in Hok as [Hm Ho].
    rewrite filter_In, Ho, Hw. auto.
Qed.

(** X2. Discovery only ever adds connections. After [auto_connect] the
    ports that were connected still are, in the same order, ahead of any new
    one; a port is connected afterwards exactly if it was before or the
    machine has a port of that name that matches an ESP32 indicator, can be
    opened and takes the wake-up newline; and the handler is otherwise as it
    was. *)
Theorem auto_connect_adds_matching_ports (host : list PortInfo)
  (h : ESP32SerialHandler) (t : list event) :
  exists h' t',
    ESP32SerialHandler.auto_connect host (h, t) = Ret tt (h', t')
    /\ (exists extra, connected_ports h' = (connected_ports h ++ extra)%list)
    /\ (forall name,
          In name (connected_ports h')
          <-> In name (connected_ports h)
              \/ exists p, In p host /\ device p = name
                           /\ connectable p = true)
    /\ serial_available h' = serial_available h
    /\ serial_threads h' = serial_threads h
    /\ serial_listening h' = serial_listening h.
Proof. apply auto_connect_run. Qed.

(** ** Reader threads *)

Lemma on_handler_update (f : ESP32SerialHandler -> ESP32SerialHandler)
  (w : World) (h : ESP32SerialHandler) :
  esp32_serial_handler w = Some h ->
  on_handler (ESP32SerialHandler.update f) w
  = Ret tt (set_link (f h) (trace w) w).
Proof. intros Hh. apply (on_handler_Ret _ w h); [exact Hh | reflexivity]. Qed.

Lemma bind_assoc {S A B C} (m : M S A) (k1 : A -> M S B) (k2 : B -> M S C)
  (s : S) :
  bind (bind m k1) k2 s = bind m (fun a => bind (k1 a) k2) s.
Proof. unfold bind. destruct (m s); reflexivity. Qed.

(** the loop of [start_serial_listening] over a list of connections *)
Lemma listen_all (l : list (string * Serial)) :
  forall (w : World) (h : ESP32SerialHandler),
    esp32_serial_handler w = Some h ->
    exists h' w',
      for_each l
        (fun '(port_name, _) =>
           on_handler
             (ESP32SerialHandler.update
                (fun h => set_serial_listening
                            (<[port_name := true]> (serial_listening h)) h)) ;;
           tid <- OS.spawn (SerialListener port_name) ;;
           on_handler
             (ESP32SerialHandler.update
                (fun h => set_serial_threads
                            (<[port_name := tid]> (serial_threads h)) h))) w
      = Ret tt w'
      /\ esp32_serial_handler w' = Some h'
      /\ serial_connections h' = serial_connections h
      /\ serial_available h' = serial_available h
      /\ threads w' = (threads w ++ map (fun c => SerialListener (fst c)) l)%list
      /\ (forall port, In port (map fst l) ->
                       serial_listening h' !! port = Some true)
      /\ (forall port, ~ In port (map fst l) ->
                       serial_listening h' !! port = serial_listening h !! port)
      /\ trace w' = trace w
      /\ same_but_link (set_threads (threads w') w) w'.
Proof.
  induction l as [| [port ser] l IH]; intros w h Hh.
  - exists h, w. cbn [for_each map]. rewrite app_nil_r.
    split; [reflexivity |]. split; [exact Hh |].
    repeat split; try solve [intros port []]; auto.
  - cbn [for_each].
    rewrite bind_assoc.
    rewrite (bind_Ret _ _ w tt _ (on_handler_update _ w h Hh)).
    set (h1 := set_serial_listening (<[port := true]> (serial_listening h)) h).
    set (w1 := set_link h1 (trace w) w).
    rewrite bind_assoc.
    rewrite (bind_Ret _ _ w1 (length (threads w1))
               (set_threads (threads w1 ++ [SerialListener port]) w1))
      by reflexivity.
    set (w2 := set_threads (threads w1 ++ [SerialListener port]) w1).
    rewrite (bind_Ret _ _ w2 tt _ (on_handler_update _ w2 h1 eq_refl)).
    set (h2 := set_serial_threads
                 (<[port := length (threads w1)]> (serial_threads h1)) h1).
    set (w3 := set_link h2 (trace w2) w2).
    destruct (IH w3 h2 eq_refl)
      as (h' & w' & E & Hh' & Hc & Ha & Hth & Hon & Hoff & Htr & Hs).
    exists h', w'. split; [exact E |]. split; [exact Hh' |].
    split; [rewrite Hc; reflexivity |].
    split; [rewrite Ha; reflexivity |].
    split.
    { rewrite Hth. subst w3 w2 w1. fields. cbn [map fst].
      now rewrite <- app_assoc. }
    split.
    { intros p Hp. cbn [map fst] in Hp. destruct Hp as [<- | Hp].
      - destruct (in_dec String.string_dec port (map fst l)) as [Hi | Hn].
        + apply Hon, Hi.
        + rewrite (Hoff _ Hn). subst h2 h1. fields. apply lookup_insert_eq.
      - apply Hon, Hp. }
    split.
    { intros p Hp. cbn [map fst] in Hp.
      rewrite Hoff by (intros Hi; apply Hp; right; exact Hi).
      subst h2 h1. fields. apply lookup_insert_ne.
      intros ->. apply Hp. left. reflexivity. }
    split; [rewrite Htr; reflexivity |].
    unfold same_but_link in *. subst w3 w2 w1. fields in Hs. fields.
    exact Hs.
Qed.

Lemma start_serial_listening_run (w : World) (h : ESP32SerialHandler) :
  esp32_serial_handler w = Some h ->
  exists h' w',
    Controller.start_serial_listening w
    = Ret (0 <? length (serial_connections h))%nat w'
    /\ esp32_serial_handler w' = Some h'
    /\ serial_connections h' = serial_connections h
    /\ threads w'
       = (threads w ++ map SerialListener (connected_ports h))%list
    /\ (forall port, In port (connected_ports h) ->
                     serial_listening h' !! port = Some true)
    /\ (forall port, ~ In port (connected_ports h) ->
                     serial_listening h' !! port = serial_listening h !! port)
    /\ trace w' = trace w
    /\ files w' = files w /\ csi_collector w' = csi_collector w
    /\ video_recorder w' = video_recorder w /\ handles w' = handles w.
Proof.
  intros Hh. unfold Controller.start_serial_listening.
  rewrite (bind_Ret _ _ w h (set_link h (trace w) w))
    by (apply (on_handler_Ret _ w h); [exact Hh | reflexivity]).
  rewrite (set_link_same w h Hh).
  destruct (listen_all (serial_connections h) w h Hh)
    as (h' & w' & E & Hh' & Hc & _ & Hth & Hon & Hoff & Htr & Hs).
  exists h', w'. rewrite (bind_Ret _ _ _ _ _ E).
  split; [reflexivity |]. split; [exact Hh' |]. split; [exact Hc |].
  split; [rewrite Hth; unfold connected_ports; now rewrite map_map |].
  split; [exact Hon |]. split; [exact Hoff |]. split; [exact Htr |].
  destruct Hs as (_ & Hcc & Hv & Hf & _ & Hhd & _).
  fields in Hcc. fields in Hv. fields in Hf. fields in Hhd. auto.
Qed.

(** X3. [start_serial_listening] starts one reader thread for every
    connection, in connection order, and sets the listening flag of each
    connected port (the flags of other ports stay); it answers [True]
    exactly when there is a connection. The connections, the event trace
    and everything outside the handler and the thread list are as before. *)
Theorem start_serial_listening_one_thread_per_port
  (w : World) (h : ESP32SerialHandler) :
  esp32_serial_handler w = Some h ->
  exists h' w',
    Controller.start_serial_listening w
    = Ret (0 <? length (serial_connections h))%nat w'
    /\ esp32_serial_handler w' = Some h'
    /\ serial_connections h' = serial_connections h
    /\ threads w'
       = (threads w ++ map SerialListener (connected_ports h))%list
    /\ (forall port, In port (connected_ports h) ->
                     serial_listening h' !! port = Some true)
    /\ (forall port, ~ In port (connected_ports h) ->
                     serial_listening h' !! port = serial_listening h !! port)
    /\ trace w' = trace w
    /\ files w' = files w /\ csi_collector w' = csi_collector w
    /\ video_recorder w' = video_recorder w /\ handles w' = handles w.
Proof. apply start_serial_listening_run. Qed.

Lemma start_serial_listening_one_thread_per_port_witness :
  exists h' w',
    Controller.start_serial_listening w_idle = Ret true w'
    /\ esp32_serial_handler w' = Some h'
    /\ threads w' = [SerialListener "/dev/ttyUSB0"]
    /\ serial_listening h' !! "/dev/ttyUSB0" = Some true.
Proof.
  destruct (start_serial_listening_one_thread_per_port
              w_idle (fst (new_handler true [esp])) eq_refl)
    as (h' & w' & E & Hh & _ & Hth & Hon & _).
  exists h', w'. split; [exact E |]. split; [exact Hh |].
  split; [exact Hth |]. apply Hon. left. reflexivity.
Defined.

(** ** The collector, outside sessions and inside *)

(** what [add_data] can do to the files: nothing, or one row more in one
    file *)
Lemma add_data_files (csi_data : string) (w : World) :
  files (state_of (CSICollector.add_data csi_data w)) = files w
  \/ exists path r,
      files (state_of (CSICollector.add_data csi_data w))
      = appended path r (files w).
Proof.
  unfold CSICollector.add_data. run.
  destruct (active (csi_collector w)); [| left; reflexivity].
  destruct (csv_writer (csi_collector w)) as [writer |]; [| left; reflexivity].
  destruct (Py.startswith csi_data marker); [| left; reflexivity].
  rewrite track_rssi_run.
  unfold OS.writerow, OS.flush, CSICollector.update. run. fields.
  destruct (handles w !! writer) as [[path | url | path] |];
    try (left; reflexivity).
  right. exists path, (packet_row (clock w) csi_data).
  destruct (csv_handle (csi_collector w)) as [h |]; [| reflexivity].
  fields. destruct (handles w !! h) as [[p | u | p] |]; try reflexivity.
  fields.
  destruct ((packet_count (csi_collector w) + 1) mod 50 =? 0)%nat;
    [destruct (start_time (csi_collector w)) |]; reflexivity.
Qed.

(** X4. [add_data] only ever appends. Whatever the line and whatever state
    the collector is in, and whether the call is accepted, rejected or fails
    inside, the rows that a file held before the call are still there
    afterwards, in order, followed by at most one new row. *)
Theorem add_data_only_appends (csi_data : string) (w : World)
  (path : string) (rows : list row) :
  files w !! path = Some rows ->
  exists new,
    files (state_of (CSICollector.add_data csi_data w)) !! path
    = Some (rows ++ new)%list
    /\ length new <= 1.
Proof.
  intros Hrows.
  destruct (add_data_files csi_data w) as [-> | (p & r & ->)].
  - exists []. rewrite app_nil_r. split; [exact Hrows | cbn; lia].
  - unfold appended. destruct (decide (p = path)) as [-> | Hne].
    + exists [r]. rewrite lookup_insert_eq, Hrows. split; [reflexivity | cbn; lia].
    + exists []. rewrite lookup_insert_ne, app_nil_r by exact Hne.
      split; [exact Hrows | cbn; lia].
Qed.

Lemma add_data_only_appends_witness :
  exists new,
    files (state_of (CSICollector.add_data full_line w_session))
      !! csv_name "5" = Some ([headers] ++ new)%list
    /\ length new <= 1.
Proof.
  apply (add_data_only_appends full_line w_session (csv_name "5") [headers]).
  vm_compute. reflexivity.
Defined.

(** X5. Outside a session nothing is collected: while the collector is
    inactive, or has no writer, [add_data] returns [False] for every line,
    well-formed or not, and changes nothing. *)
Theorem add_data_rejected_when_inactive (csi_data : string) (w : World) :
  active (csi_collector w) = false \/ csv_writer (csi_collector w) = None ->
  CSICollector.add_data csi_data w = Ret false w.
Proof.
  intros Hoff. apply add_data_turned_away.
  destruct Hoff as [H | H]; [left | right; left]; exact H.
Qed.

Lemma add_data_rejected_when_inactive_witness :
  CSICollector.add_data full_line w_idle = Ret false w_idle.
Proof.
  apply (add_data_rejected_when_inactive full_line w_idle).
  left. reflexivity.
Defined.

(** X6. The live signal strength follows the packets: when the
    signal-strength column of an accepted line reads as a number, that
    number is the latest signal strength after the call. *)
Theorem add_data_tracks_rssi
  (w : World) (h : nat) (path csi_data rssi_field : string)
  (v : Py.pyfloat) :
  collecting w h path = true ->
  Py.startswith csi_data marker = true ->
  Py.split "," (Py.slice_from 9 csi_data) !! 2%nat = Some rssi_field ->
  Py.float rssi_field = Some v ->
  exists w',
    CSICollector.add_data csi_data w = Ret true w'
    /\ latest_rssi (csi_collector w') = Some v.
Proof.
  intros Hc Hm Hfield Hv.
  exists (accepted_world path csi_data w).
  split; [exact (add_data_accepted w h path csi_data Hc Hm) |].
  unfold accepted_world, packet_row, rssi_after. fields.
  change ((isoformat (clock w) :: Py.split "," (Py.slice_from 9 csi_data))
            !! 3%nat)
    with (Py.split "," (Py.slice_from 9 csi_data) !! 2%nat).
  rewrite Hfield, Hv.
  destruct (String.eqb rssi_field "") eqn:He; [| reflexivity].
  apply String.eqb_eq in He. subst rssi_field. discriminate Hv.
Qed.

Lemma add_data_tracks_rssi_witness :
  exists w',
    CSICollector.add_data full_line w_session = Ret true w'
    /\ latest_rssi (csi_collector w') = Some (Py.Finite (-74 # 1)).
Proof.
  apply (add_data_tracks_rssi w_session 0 (csv_name "5") full_line "-74");
    vm_compute; reflexivity.
Defined.

(** ** Stopping the collector *)

Lemma send_stop_listen_run (w : World) :
  exists w',
    send_stop_listen w = Ret tt w'
    /\ same_but_link w w'
    /\ discoveries (trace w') = discoveries (trace w).
Proof.
  unfold send_stop_listen.
  rewrite (bind_Ret _ _ w (esp32_serial_handler w) w) by reflexivity.
  destruct (esp32_serial_handler w) as [h |] eqn:Hh.
  - rewrite (bind_Ret _ _ w (connected h) (set_link h (trace w) w))
      by (apply (on_handler_Ret _ w h); [exact Hh | apply is_connected_run]).
    rewrite (set_link_same w h Hh).
    destruct (connected h).
    + destruct (try_send_run "stop_listen" w h Hh)
        as (h' & w' & E & _ & Hs & D).
      exists w'. auto.
    + exists w. split; [reflexivity |].
      split; [apply same_but_link_refl | reflexivity].
  - exists w. split; [reflexivity |].
    split; [apply same_but_link_refl | reflexivity].
Qed.

(** The chart is asked for without anything changing. *)
Lemma generate_chart_run (w : World) :
  exists cf,
    try_except CSICollector.generate_chart_automatically (fun _ => ret None) w
    = Ret cf w.
Proof.
  unfold CSICollector.generate_chart_automatically, OS.exists_. run.
  destruct (csv_file (csi_collector w)) as [path |]; [| eauto].
  destruct (negb (String.eqb path "") && _); eauto.
Qed.

(** What [stop] does to an active collector. *)
Lemma stop_active_run (w : World) :
  active (csi_collector w) = true ->
  exists r w',
    CSICollector.stop w = Ret (Some r) w'
    /\ res_packets r = packet_count (csi_collector w)
    /\ res_csv_file r = csv_file (csi_collector w)
    /\ res_duration r
       = elapsed_since (time_time (clock w)) (start_time (csi_collector w))
    /\ collection_active w' = false
    /\ csi_collector w' = stopped (csi_collector w)
    /\ files w' = files w
    /\ handles w'
       = match csv_handle (csi_collector w) with
         | Some h => delete h (handles w)
         | None => handles w
         end
    /\ video_recorder w' = video_recorder w
    /\ threads w' = threads w
    /\ discoveries (trace w') = discoveries (trace w).
Proof.
  intros Hon.
  set (c := csi_collector w).
  set (wa := set_collection_active false
               (set_csi_collector (set_active false c) w)).
  destruct (send_stop_listen_run wa) as (w1 & E & Hs & D).
  destruct Hs as (Hca & Hcc & Hv & Hf & Hu & Hh & Hn & Hp & Hcam & Hcl & Hch & Hth).
  assert (Hrun :
    CSICollector.stop w
    = bind send_stop_listen
        (fun _ =>
           match csv_handle c with
           | Some h =>
               OS.close h ;;
               CSICollector.update (set_csv_handle None) ;;
               CSICollector.update (set_csv_writer None)
           | None => ret tt
           end ;;
           now <- OS.time ;;
           let elapsed := elapsed_since now (start_time c) in
           present <- match csv_file c with
                      | Some path =>
                          if String.eqb path "" then ret false
                          else OS.exists_ path
                      | None => ret false
                      end ;;
           chart_file <- (if present && (0 <? packet_count c)%nat
                          then try_except
                                 CSICollector.generate_chart_automatically
                                 (fun _ => ret None)
                          else ret None) ;;
           ret (Some {| res_packets := packet_count c;
                        res_duration := elapsed;
                        res_csv_file := csv_file c;
                        res_chart_file := chart_file |})) wa).
  { unfold CSICollector.stop, send_stop_listen.
    rewrite (bind_Ret _ _ w c w) by reflexivity.
    subst c. rewrite Hon. reflexivity. }
  rewrite Hrun, (bind_Ret _ _ _ _ _ E). clear Hrun.
  set (w2 := match csv_handle c with
             | Some h =>
                 set_csi_collector
                   (set_csv_writer None
                      (set_csv_handle None (csi_collector w1)))
                   (set_handles (delete h (handles w1)) (next_handle w1) w1)
             | None => w1
             end).
  rewrite (bind_Ret _ _ w1 tt w2) by (subst w2; destruct (csv_handle c); reflexivity).
  rewrite (bind_Ret _ _ w2 (time_time (clock w2)) w2) by reflexivity.
  cbv zeta.
  assert (Hpresent : exists b,
             match csv_file c with
             | Some path =>
                 if String.eqb path "" then ret false else OS.exists_ path
             | None => ret false
             end w2 = Ret b w2).
  { destruct (csv_file c) as [path |]; [destruct (String.eqb path "") |];
      eexists; reflexivity. }
  destruct Hpresent as (present & Hpresent).
  rewrite (bind_Ret _ _ _ _ _ Hpresent).
  destruct (generate_chart_run w2) as (cf0 & Hchart).
  assert (Hc : exists cf,
             (if present && (0 <? packet_count c)%nat
              then try_except CSICollector.generate_chart_automatically
                     (fun _ => ret None)
              else ret None) w2 = Ret cf w2).
  { destruct (present && (0 <? packet_count c)%nat);
      eexists; [exact Hchart | reflexivity]. }
  destruct Hc as (cf & Hc). rewrite (bind_Ret _ _ _ _ _ Hc).
  eexists; eexists; split; [reflexivity |].
  cbn [res_packets res_csv_file res_duration].
  assert (Hcl2 : clock w2 = clock w)
    by (subst w2; destruct (csv_handle c); fields; rewrite Hcl; reflexivity).
  rewrite Hcl2. unfold stopped. fold c.
  subst w2. destruct (csv_handle c); fields;
    rewrite ?Hca, ?Hcc, ?Hv, ?Hf, ?Hh, ?Hth, ?D; subst wa; fields;
    repeat split.
Qed.

(** X7. [stop] ends a session cleanly. On a collecting collector it returns
    the summary of the session (its packet count, its file, the time since
    its start), clears both active flags, drops the writer and closes the
    file handle; the rows of the session file, the packet count and the
    latest signal strength stay as they were, and no discovery is run. From
    then on [add_data] rejects every line. *)
Theorem stop_ends_session (w : World) (h : nat) (path : string) :
  collecting w h path = true ->
  exists r w',
    CSICollector.stop w = Ret (Some r) w'
    /\ res_packets r = packet_count (csi_collector w)
    /\ res_csv_file r = csv_file (csi_collector w)
    /\ res_duration r
       = elapsed_since (time_time (clock w)) (start_time (csi_collector w))
    /\ collection_active w' = false
    /\ active (csi_collector w') = false
    /\ csv_writer (csi_collector w') = None
    /\ csv_handle (csi_collector w') = None
    /\ handles w' !! h = None
    /\ files w' !! path = files w !! path
    /\ packet_count (csi_collector w') = packet_count (csi_collector w)
    /\ latest_rssi (csi_collector w') = latest_rssi (csi_collector w)
    /\ discoveries (trace w') = discoveries (trace w)
    /\ (forall csi_data, CSICollector.add_data csi_data w' = Ret false w').
Proof.
  intros Hc.
  destruct (collecting_spec w h path Hc) as (Ha & Hw & Hh & Hres & t0 & Ht).
  destruct (stop_active_run w Ha)
    as (r & w' & E & Hp & Hf & Hd & Hca & Hcc & Hfiles & Hhd & _ & _ & D).
  exists r, w'. unfold stopped in Hcc. rewrite Hh in Hcc, Hhd.
  rewrite Hcc, Hhd, Hfiles. fields.
  repeat (split; [first [assumption | reflexivity | apply lookup_delete_eq] |]).
  intros csi_data. apply add_data_turned_away. left. rewrite Hcc. reflexivity.
Qed.

Lemma stop_ends_session_witness :
  exists r w',
    CSICollector.stop w_session = Ret (Some r) w'
    /\ res_packets r = 0
    /\ res_csv_file r = Some (csv_name "5")
    /\ collection_active w' = false
    /\ CSICollector.add_data full_line w' = Ret false w'.
Proof.
  destruct (stop_ends_session w_session 0 (csv_name "5"))
    as (r & w' & E & Hp & Hf & _ & Hca & _ & _ & _ & _ & _ & _ & _ & _ & Hadd);
    [vm_compute; reflexivity |].
  exists r, w'. split; [exact E |]. split; [exact Hp |].
  split; [exact Hf |]. split; [exact Hca | apply Hadd].
Defined.

(** ** Starting over *)

(** the handle table after [start] has opened its file *)
Lemma start_handles (csv : string) (d : option Z) (w : World) :
  csv ∉ unwritable w ->
  handles (state_of (CSICollector.start csv d w))
  = handles_after_start (next_handle w) csv
      (csv_handle (csi_collector w)) (csv_writer (csi_collector w))
      (handles w).
Proof.
  intros Hfree.
  destruct (start_prelude csv d w)
    as (w1 & -> & Hca & Hcc & Hf & Hu & Hh & Hn & D).
  destruct (start_tail_run csv d w1) as (w0 & -> & _ & Hh0 & _);
    [now rewrite Hu |].
  cbn [state_of]. rewrite Hh0, Hn, Hh, Hcc. reflexivity.
Qed.

Lemma can_write_free (w : World) (path : string) :
  can_write w path = true -> path ∉ unwritable w.
Proof.
  unfold can_write. intros H. apply negb_true_iff in H.
  exact (bool_decide_eq_false_1 _ H).
Qed.

(** X8. [start] does not look at what went before, but replacing the
    writer lets go of the old file. [start] sets the packet count back to 0
    and keeps the latest signal strength of the previous session. When the
    collector was still collecting, the file of that session is closed as
    soon as its writer has been replaced by the new one (CPython closes a
    file object when its last reference goes): its handle is gone from the
    handle table. No file but the new one has changed, and the collector
    writes to the new one through a new handle. *)
Theorem start_keeps_rssi_and_closes_old_file
  (w : World) (h : nat) (path csv : string) (d : option Z) :
  collecting w h path = true ->
  h < next_handle w ->
  can_write w csv = true ->
  exists w0,
    CSICollector.start csv d w = Ret true w0
    /\ packet_count (csi_collector w0) = 0
    /\ latest_rssi (csi_collector w0) = latest_rssi (csi_collector w)
    /\ collecting w0 (next_handle w) csv = true
    /\ handles w0 !! h = None
    /\ files w0 = <[csv := [headers]]> (files w).
Proof.
  intros Hc Hlt Hfree. apply can_write_free in Hfree.
  destruct (collecting_spec w h path Hc) as (_ & Hw & Hhd & Hres & _).
  pose proof (start_handles csv d w Hfree) as Hh.
  destruct (start_opens csv d w Hfree)
    as (w0 & E & Hc0 & Hz & Hr & Hf & _).
  rewrite E in Hh. cbn [state_of] in Hh.
  exists w0. split; [exact E |]. split; [exact Hz |]. split; [exact Hr |].
  split; [exact Hc0 |]. split; [| exact Hf].
  rewrite Hh, Hw, Hhd.
  unfold handles_after_start, CSICollector.finalized.
  rewrite (bool_decide_eq_true_2 (Some h = Some h)) by reflexivity.
  rewrite (bool_decide_eq_false_2 (Some (next_handle w) = Some h))
    by (intros [= Heq]; lia).
  cbn [orb]. rewrite lookup_insert_ne, Hres by lia.
  apply lookup_delete_eq.
Qed.

Lemma start_keeps_rssi_and_closes_old_file_witness :
  exists w0,
    CSICollector.start (csv_name "7") None
      (accepted_world (csv_name "5") full_line w_session) = Ret true w0
    /\ packet_count (csi_collector w0) = 0
    /\ latest_rssi (csi_collector w0) = Some (Py.Finite (-74 # 1))
    /\ handles w0 !! 0 = None
    /\ files w0 !! csv_name "5"
       = Some [headers; packet_row noon full_line].
Proof.
  destruct (start_keeps_rssi_and_closes_old_file
              (accepted_world (csv_name "5") full_line w_session)
              0 (csv_name "5") (csv_name "7") None)
    as (w0 & E & Hz & Hr & _ & Hh & Hf).
  - vm_compute. reflexivity.
  - vm_compute. lia.
  - reflexivity.
  - exists w0. split; [exact E |]. split; [exact Hz |].
    split; [rewrite Hr; vm_compute; reflexivity |].
    split; [exact Hh |]. rewrite Hf. vm_compute. reflexivity.
Defined.

(** ** The video recorder *)

Lemma can_record_spec (w : World) :
  can_record w = true ->
  video_available (video_recorder w) = true
  /\ recording (video_recorder w) = false
  /\ bool_decide (VIDEO_DIR ∈ unwritable w) = false
  /\ bool_decide (IMAGE_DIR ∈ unwritable w) = false.
Proof.
  unfold can_record, can_write. intros H.
  repeat (apply andb_prop in H; destruct H as [H ?]).
  repeat match goal with
         | E : negb _ = true |- _ => apply negb_true_iff in E
         end.
  auto.
Qed.

(** X9. A camera that delivers no frame fails the start of a recording
    cleanly: [start_recording] returns [False], the recorder is still not
    recording, and the capture it opened is released again, so that the
    handle table is the one of before. (The recorder keeps pointing at the
    released capture.) *)
Theorem start_recording_without_frame (w : World) (distance : string) :
  can_record w = true ->
  camera w = None ->
  handles w !! next_handle w = None ->
  exists w',
    VideoRecorder.start_recording distance w = Ret false w'
    /\ recording (video_recorder w') = false
    /\ handles w' = handles w
    /\ cap (video_recorder w') = Some (next_handle w)
    /\ threads w' = threads w
    /\ files w' = files w.
Proof.
  intros Hready Hcam Hfresh.
  destruct (can_record_spec w Hready) as (Hav & Hrec & Hv & Hi).
  unfold VideoRecorder.start_recording, VideoRecorder.update, OS.makedirs,
    OS.alloc, OS.release.
  run. rewrite Hav, Hrec. cbn [negb]. rewrite Hv, Hi. fields.
  rewrite Hcam. fields.
  eexists. split; [reflexivity |]. fields. rewrite Hrec.
  repeat split. rewrite delete_insert_eq. now apply delete_id.
Qed.

Lemma start_recording_without_frame_witness :
  exists w',
    VideoRecorder.start_recording "5"
      (boot true true [esp] None noon ∅) = Ret false w'
    /\ recording (video_recorder w') = false
    /\ handles w' = handles (boot true true [esp] None noon ∅).
Proof.
  destruct (start_recording_without_frame
              (boot true true [esp] None noon ∅) "5")
    as (w' & E & Hrec & Hh & _); [reflexivity ..|].
  exists w'. auto.
Defined.

(** What [stop_recording] does to a recorder that is recording. *)
Lemma stop_recording_run (w : World) :
  recording (video_recorder w) = true ->
  exists w',
    VideoRecorder.stop_recording w
    = Ret (Some {| video_path := output_path (video_recorder w);
                   video_frames := frame_count (video_recorder w);
                   video_duration :=
                     elapsed_since (time_time (clock w))
                       (video_start_time (video_recorder w));
                   image_dir := IMAGE_DIR |}) w'
    /\ recording (video_recorder w') = false
    /\ cap (video_recorder w') = None
    /\ out (video_recorder w') = None
    /\ handles w'
       = match out (video_recorder w) with
         | Some o => delete o
         | None => fun hs => hs
         end (match cap (video_recorder w) with
              | Some c => delete c (handles w)
              | None => handles w
              end)
    /\ files w' = files w
    /\ csi_collector w' = csi_collector w
    /\ collection_active w' = collection_active w
    /\ esp32_serial_handler w' = esp32_serial_handler w
    /\ threads w' = threads w
    /\ trace w' = trace w.
Proof.
  intros Hrec.
  unfold VideoRecorder.stop_recording, VideoRecorder.update, OS.release,
    OS.time.
  run. rewrite Hrec. cbn [negb].
  destruct (cap (video_recorder w)) as [c |] eqn:Hc,
           (out (video_recorder w)) as [o |] eqn:Ho;
    fields; (eexists; split; [reflexivity |]); fields;
    rewrite ?Hc, ?Ho; repeat split.
Qed.

(** X10. A recording that starts can be stopped, and nothing is left open.
    With a camera that delivers frames, [start_recording] returns [True]
    with the recorder recording from frame 0 into the file named after the
    distance and the clock, one capture thread started; [stop_recording]
    then returns that file with the frames counted so far, the recorder no
    longer records, and the handle table is the one of before the start. *)
Theorem recording_round_trip (w : World) (distance : string)
  (height width : nat) :
  can_record w = true ->
  camera w = Some (height, width) ->
  handles w !! next_handle w = None ->
  handles w !! S (next_handle w) = None ->
  exists w1,
    VideoRecorder.start_recording distance w = Ret true w1
    /\ recording (video_recorder w1) = true
    /\ frame_count (video_recorder w1) = 0
    /\ output_path (video_recorder w1) = Some (video_name distance (clock w))
    /\ threads w1 = (threads w ++ [RecordVideo])%list
    /\ exists r w2,
        VideoRecorder.stop_recording w1 = Ret (Some r) w2
        /\ video_path r = Some (video_name distance (clock w))
        /\ video_frames r = 0
        /\ recording (video_recorder w2) = false
        /\ handles w2 = handles w.
Proof.
  intros Hready Hcam Hf1 Hf2.
  destruct (can_record_spec w Hready) as (Hav & Hrec & Hv & Hi).
  unfold VideoRecorder.start_recording, VideoRecorder.update, OS.makedirs,
    OS.alloc, OS.spawn, OS.time.
  run. rewrite Hav, Hrec. cbn [negb]. rewrite Hv, Hi. fields.
  rewrite Hcam. fields.
  eexists. split; [reflexivity |]. fields.
  repeat (split; [reflexivity |]).
  match goal with
  | |- context [VideoRecorder.stop_recording ?w1] =>
      destruct (stop_recording_run w1 eq_refl)
        as (w2 & E & Hoff & _ & _ & Hh & _)
  end.
  fields in E. fields in Hh.
  eexists; exists w2. split; [exact E |].
  cbn [video_path video_frames]. split; [reflexivity |].
  split; [reflexivity |]. split; [exact Hoff |].
  rewrite Hh.
  rewrite (delete_insert_ne _ (next_handle w) (S (next_handle w))) by lia.
  rewrite !delete_insert_eq, (delete_id _ _ Hf1).
  now apply delete_id.
Qed.

Lemma recording_round_trip_witness :
  exists w1 r w2,
    VideoRecorder.start_recording "5" w_idle = Ret true w1
    /\ VideoRecorder.stop_recording w1 = Ret (Some r) w2
    /\ video_path r = Some "data/video/video_5m_20231114_120000.mp4"
    /\ handles w2 = handles w_idle.
Proof.
  destruct (recording_round_trip w_idle "5" 480 640)
    as (w1 & E1 & _ & _ & _ & _ & r & w2 & E2 & Hp & _ & _ & Hh);
    [reflexivity ..|].
  exists w1, r, w2. auto.
Defined.

(** ** The camera endpoints *)

(** X11. The camera endpoints leave the CSI side alone: whatever body they
    are sent and whatever they answer, [start_camera_only] and
    [stop_camera_only] change neither the global session flag, nor the
    collector, nor the rows of any CSV file, nor the serial handler, nor the
    trace of what was written to the radios. (What they do create, the
    video file, the images and the data directories, is outside [files],
    which holds the CSV files.) *)
Theorem camera_endpoints_leave_csi_alone
  (CV2_AVAILABLE : bool) (body : request_body) (w : World) :
  let untouched (w' : World) :=
    collection_active w' = collection_active w
    /\ csi_collector w' = csi_collector w
    /\ files w' = files w
    /\ esp32_serial_handler w' = esp32_serial_handler w
    /\ trace w' = trace w in
  untouched (state_of (start_camera_only CV2_AVAILABLE body w))
  /\ untouched (state_of (stop_camera_only w)).
Proof.
  assert (Hstart : forall B (f : World -> B),
             (forall v w, f (set_video_recorder v w) = f w) ->
             (forall hs n w, f (set_handles hs n w) = f w) ->
             (forall ts w, f (set_threads ts w) = f w) ->
             keeps f (start_camera_only CV2_AVAILABLE body)).
  { intros B f Hr Hh Ht. unfold start_camera_only.
    apply keeps_try_except; [| intros; apply keeps_ret].
    apply keeps_bind; [| intros distance].
    { destruct body as [d | type_name [|] | message];
        first [apply keeps_ret | apply keeps_raise]. }
    destruct (negb CV2_AVAILABLE); [apply keeps_ret |].
    apply keeps_bind; [apply keeps_gets | intros recorder].
    destruct (recording recorder); [apply keeps_ret |].
    apply keeps_bind; [apply keeps_start_recording; assumption | intros ok].
    destruct ok; [| apply keeps_ret].
    apply keeps_bind; [apply keeps_gets | intros; apply keeps_ret]. }
  assert (Hstop : forall B (f : World -> B),
             (forall v w, f (set_video_recorder v w) = f w) ->
             (forall hs n w, f (set_handles hs n w) = f w) ->
             keeps f stop_camera_only).
  { intros B f Hr Hh. unfold stop_camera_only.
    apply keeps_try_except; [| intros; apply keeps_ret].
    apply keeps_bind; [apply keeps_gets | intros recorder].
    destruct (negb (recording recorder)); [apply keeps_ret |].
    apply keeps_bind; [apply keeps_stop_recording; assumption | intros r].
    destruct r; apply keeps_ret. }
  cbv zeta. split.
  - repeat split; apply Hstart; reflexivity.
  - repeat split; apply Hstop; reflexivity.
Qed.

(** ** Reconnecting *)

(** X12. A reconnect during a session connects radios, and that is all.
    With a handler in place, [esp32_reconnect] runs discovery exactly once
    and answers with the ports connected afterwards: those connected before,
    in their order, then the new ones. It starts no reader thread and sets
    no listening flag, so a radio connected this way is not read from, and
    it leaves the session flag, the collector and the files as they were.
    Without serial support it answers with status 400 and changes
    nothing. *)
Theorem reconnect_only_connects (w : World) (h : ESP32SerialHandler) :
  esp32_serial_handler w = Some h ->
  (exists h' w',
      esp32_reconnect true w
      = Ret (Reconnected (connected_ports h') (connected h')) w'
      /\ esp32_serial_handler w' = Some h'
      /\ (exists new, connected_ports h' = (connected_ports h ++ new)%list)
      /\ discoveries (trace w') = S (discoveries (trace w))
      /\ serial_listening h' = serial_listening h
      /\ serial_threads h' = serial_threads h
      /\ threads w' = threads w
      /\ collection_active w' = collection_active w
      /\ csi_collector w' = csi_collector w
      /\ files w' = files w)
  /\ esp32_reconnect false w
     = Ret (ReconnectError 400 "Serial library not available") w.
Proof.
  intros Hh. split; [| reflexivity].
  destruct (auto_connect_run (ports w) h (trace w))
    as (h' & t' & E & Hpre & _ & _ & Hth & Hli).
  destruct (auto_connect_discovers (ports w) h (trace w))
    as (h2 & t2 & E2 & D).
  assert (h2 = h' /\ t2 = t') as [-> ->] by (split; congruence).
  set (w1 := set_link h' t' w).
  assert (Hrun : esp32_reconnect true w
                 = Ret (Reconnected (connected_ports h') (connected h')) w1).
  { unfold esp32_reconnect, try_except. cbn [negb].
    rewrite (bind_Ret _ _ w (esp32_serial_handler w) w) by reflexivity.
    rewrite Hh.
    rewrite (bind_Ret _ _ w (ports w) w) by reflexivity.
    rewrite (bind_Ret _ _ w tt w1)
      by (apply (on_handler_Ret _ w h); assumption).
    rewrite (bind_Ret _ _ w1 (connected_ports h') w1)
      by (rewrite <- (set_link_same w1 h' eq_refl) at 2;
          apply (on_handler_Ret _ w1 h'); reflexivity).
    rewrite (bind_Ret _ _ w1 (connected h') w1)
      by (rewrite <- (set_link_same w1 h' eq_refl) at 2;
          apply (on_handler_Ret _ w1 h');
          [reflexivity | apply is_connected_run]).
    reflexivity. }
  exists h', w1. split; [exact Hrun |]. subst w1. fields.
  repeat split; auto.
Qed.

Lemma reconnect_only_connects_witness :
  exists h' w',
    esp32_reconnect true w_plugged_late
    = Ret (Reconnected (connected_ports h') (connected h')) w'
    /\ discoveries (trace w') = S (discoveries (trace w_plugged_late))
    /\ threads w' = threads w_plugged_late.
Proof.
  destruct (proj1 (reconnect_only_connects w_plugged_late
                     (fst (new_handler true [])) eq_refl))
    as (h' & w' & E & _ & _ & D & _ & _ & Ht & _).
  exists h', w'. auto.
Defined.

(** ** What the status endpoints report *)

(** Feeding lines to a collecting collector changes the packet count, the
    latest signal strength, the session file and the clock, and nothing
    else. *)
Lemma feed_run (inputs : list (Clock * string)) :
  forall (w : World) (h : nat) (path : string),
    collecting w h path = true ->
    exists answers w',
      feed inputs w = Ret answers w'
      /\ packet_count (csi_collector w')
         = packet_count (csi_collector w) + accepted answers
      /\ collecting w' h path = true
      /\ collection_active w' = collection_active w
      /\ active (csi_collector w') = active (csi_collector w)
      /\ csv_file (csi_collector w') = csv_file (csi_collector w)
      /\ start_time (csi_collector w') = start_time (csi_collector w)
      /\ video_recorder w' = video_recorder w
      /\ esp32_serial_handler w' = esp32_serial_handler w
      /\ handles w' = handles w
      /\ threads w' = threads w
      /\ trace w' = trace w.
Proof.
  induction inputs as [| [now line] rest IH]; intros w h path Hc.
  - exists [], w. cbn. unfold accepted. cbn.
    repeat split; [lia | exact Hc].
  - cbn [feed].
    rewrite (bind_Ret _ _ w tt (set_clock now w)) by reflexivity.
    destruct (Py.startswith line marker) eqn:Hm.
    + rewrite (bind_Ret _ _ _ _ _
                 (add_data_accepted (set_clock now w) h path line Hc Hm)).
      destruct (IH (accepted_world path line (set_clock now w)) h path Hc)
        as (answers & w' & Hrun & Hcount & Hc' & Hrest).
      exists (true :: answers), w'.
      rewrite (bind_Ret _ _ _ _ _ Hrun).
      split; [reflexivity |].
      split; [rewrite Hcount; unfold accepted_world, accepted; fields; cbn; lia |].
      split; [exact Hc' |]. exact Hrest.
    + rewrite (bind_Ret _ _ _ _ _
                 (add_data_turned_away (set_clock now w) line
                    (or_intror (or_intror Hm)))).
      destruct (IH (set_clock now w) h path Hc)
        as (answers & w' & Hrun & Hcount & Hc' & Hrest).
      exists (false :: answers), w'.
      rewrite (bind_Ret _ _ _ _ _ Hrun).
      split; [reflexivity |].
      split; [rewrite Hcount; reflexivity |].
      split; [exact Hc' |]. exact Hrest.
Qed.

(** X13. During a session the collection status tells the truth about it:
    after any lines have been fed to a collecting collector while the global
    flag is set, [get_collection_status] reports the session as active, with
    the packet count grown by the number of accepted lines, the time since
    the start of the session and the session file; and it changes
    nothing. *)
Theorem status_follows_session
  (w : World) (h : nat) (path : string) (inputs : list (Clock * string)) :
  collection_active w = true ->
  collecting w h path = true ->
  exists answers w',
    feed inputs w = Ret answers w'
    /\ get_collection_status w'
       = Ret {| status_active := true;
                status_packet_count :=
                  packet_count (csi_collector w) + accepted answers;
                status_elapsed_time :=
                  elapsed_since (time_time (clock w'))
                    (start_time (csi_collector w));
                status_csv_file := csv_file (csi_collector w) |} w'.
Proof.
  intros Hbusy Hc.
  destruct (feed_run inputs w h path Hc)
    as (answers & w' & E & Hcount & _ & Hca & Hact & Hfile & Hst & _).
  destruct (collecting_spec w h path Hc) as (Ha & _).
  exists answers, w'. split; [exact E |].
  unfold get_collection_status, OS.time. run.
  rewrite Hca, Hbusy, Hact, Ha, Hcount, Hfile, Hst. reflexivity.
Qed.

Lemma status_follows_session_witness :
  exists w',
    feed [(noon, full_line); (later, "noise"); (later, garbled_line)] w_session
    = Ret [true; false; true] w'
    /\ get_collection_status w'
       = Ret {| status_active := true; status_packet_count := 2;
                status_elapsed_time := 600;
                status_csv_file := Some (csv_name "5") |} w'.
Proof.
  destruct (status_follows_session w_session 0 (csv_name "5")
              [(noon, full_line); (later, "noise"); (later, garbled_line)])
    as (answers & w' & E & Hs); [vm_compute; reflexivity ..|].
  assert (Hw : Ret answers w'
               = feed [(noon, full_line); (later, "noise");
                       (later, garbled_line)] w_session)
    by (symmetry; exact E).
  vm_compute in Hw. injection Hw as -> ->.
  eexists. split; [vm_compute; reflexivity |]. exact Hs.
Defined.

(** ** Sessions as the controller starts them *)

(** [start_recording] answers [True] only when it has set the recorder
    recording. *)
Lemma start_recording_true (distance : string) (w w' : World) :
  VideoRecorder.start_recording distance w = Ret true w' ->
  recording (video_recorder w') = true.
Proof.
  unfold VideoRecorder.start_recording, VideoRecorder.stop_recording,
    VideoRecorder.update, OS.makedirs, OS.alloc, OS.release, OS.spawn, OS.time.
  run.
  destruct (video_available (video_recorder w)); cbn [negb];
    [| discriminate].
  destruct (recording (video_recorder w)) eqn:Hrec; [discriminate |].
  destruct (bool_decide (VIDEO_DIR ∈ unwritable w)).
  { rewrite Hrec. discriminate. }
  destruct (bool_decide (IMAGE_DIR ∈ unwritable w)).
  { rewrite Hrec. discriminate. }
  fields.
  destruct (camera w) as [[height width] |]; fields; [| discriminate].
  intros E. injection E as <-. reflexivity.
Qed.

(** What a "started" answer of [start_collection] says about the world it
    leaves: the request found no session active and went through a
    successful [start] on the file named after the distance, from a world
    with the collector of before; since that [start] only the handler, the
    recorder, the handles, the threads and the trace have changed; the
    answer lists the ports of the handler, of which there is at least one,
    each with its listening flag set; and the recorder is recording exactly
    if the answer says so. *)
Lemma start_collection_started_world (d : option string) (w : World)
  id csvp dist devs vr vf w' :
  Controller.start_collection (JSONObject d) w
  = Ret (Started id csvp dist devs vr vf) w' ->
  collection_active w = false
  /\ csvp = csv_name (default "0" d)
  /\ dist = default "0" d
  /\ exists w1 w2 hd,
      csi_collector w1 = csi_collector w
      /\ files w1 = files w
      /\ CSICollector.start csvp None w1 = Ret true w2
      /\ (forall B (f : World -> B),
             (forall h t w, f (set_link h t w) = f w) ->
             (forall v w, f (set_video_recorder v w) = f w) ->
             (forall hs n w, f (set_handles hs n w) = f w) ->
             (forall ts w, f (set_threads ts w) = f w) ->
             f w' = f w2)
      /\ esp32_serial_handler w' = Some hd
      /\ devs = connected_ports hd
      /\ devs <> []
      /\ (forall port, In port devs -> serial_listening hd !! port = Some true)
      /\ (vr = true -> recording (video_recorder w') = true)
      /\ vf = (if vr then output_path (video_recorder w') else None).
Proof.
  intros H. unfold Controller.start_collection, try_except in H.
  match type of H with
  | match ?body w with _ => _ end = _ =>
      destruct (body w) as [r s | e s] eqn:Hbody
  end.
  2:{ cbv [bind modify ret] in H. discriminate H. }
  injection H as -> ->.
  step Hbody distance w0 E. injection E as <- <-.
  step Hbody busy w0 E. injection E as <- <-.
  destruct (collection_active w) eqn:Hbusy; [discriminate Hbody |].
  step Hbody handler w0 E. injection E as <- <-.
  step Hbody nodev wa Ea.
  assert (Ka : forall B (f : World -> B),
             (forall h t w, f (set_link h t w) = f w) -> f wa = f w).
  { intros B f Hf. refine (keeps_Ret f _ _ _ _ _ Ea).
    destruct (esp32_serial_handler w); [| apply keeps_ret].
    apply keeps_bind; [now apply keeps_on_handler | intros; apply keeps_ret]. }
  destruct nodev; [discriminate Hbody |].
  step Hbody u1 wb Eb.
  assert (Kb : forall B (f : World -> B), f wb = f wa)
    by (intros B f; exact (keeps_Ret f _ _ _ _ (keeps_create_directories f) Eb)).
  step Hbody timestamp w0 E. injection E as <- <-.
  step Hbody success wc Ec.
  destruct (start_inv _ _ _ _ _ Ec) as [-> _]. cbn [negb] in Hbody.
  step Hbody armed wd Ed.
  assert (Kd : forall B (f : World -> B),
             (forall h t w, f (set_link h t w) = f w) -> f wd = f wc)
    by (intros B f Hf; exact (keeps_Ret f _ _ _ _ (keeps_on_handler f Hf _) Ed)).
  step Hbody sent we Ee.
  assert (Ke : forall B (f : World -> B),
             (forall h t w, f (set_link h t w) = f w) -> f we = f wd)
    by (intros B f Hf; exact (keeps_Ret f _ _ _ _ (keeps_on_handler f Hf _) Ee)).
  step Hbody u2 w0 E. injection E as <- <-.
  step Hbody video_started wf Ef.
  assert (Kf : forall B (f : World -> B),
             (forall v w, f (set_video_recorder v w) = f w) ->
             (forall hs n w, f (set_handles hs n w) = f w) ->
             (forall ts w, f (set_threads ts w) = f w) -> f wf = f we).
  { intros B f Hr Hh Ht.
    exact (keeps_Ret f _ _ _ _ (keeps_start_recording f Hr Hh Ht _) Ef). }
  step Hbody listening_started wg Eg.
  assert (Kg : forall B (f : World -> B),
             (forall h t w, f (set_link h t w) = f w) ->
             (forall ts w, f (set_threads ts w) = f w) -> f wg = f wf).
  { intros B f Hl Ht.
    exact (keeps_Ret f _ _ _ _ (keeps_start_serial_listening f Hl Ht) Eg). }
  destruct listening_started; cbn [negb] in Hbody.
  2:{ step Hbody r0 w0 E. step Hbody r1 w1 E1. discriminate Hbody. }
  step Hbody devices wh Eh.
  assert (Kh : forall B (f : World -> B),
             (forall h t w, f (set_link h t w) = f w) -> f wh = f wg)
    by (intros B f Hf; exact (keeps_Ret f _ _ _ _ (keeps_on_handler f Hf _) Eh)).
  step Hbody recorder w0 E. injection E as <- <-.
  injection Hbody as <- <- <- <- <- <- <-.
  (* the handler when the reader threads were started *)
  destruct (esp32_serial_handler wf) as [hf |] eqn:Hhf.
  2:{ unfold Controller.start_serial_listening, on_handler in Eg.
      unfold bind in Eg. rewrite Hhf in Eg. discriminate Eg. }
  destruct (start_serial_listening_run wf hf Hhf)
    as (hg & wg' & Eg' & Hhg & Hcg & _ & Hon & _).
  rewrite Eg in Eg'. injection Eg' as Hlen <-.
  assert (Eh' : on_handler ESP32SerialHandler.get_connected_devices wg
                = Ret (connected_ports hg) (set_link hg (trace wg) wg))
    by (apply (on_handler_Ret _ wg hg); [exact Hhg | reflexivity]).
  rewrite Eh in Eh'. injection Eh' as -> ->.
  split; [reflexivity |]. split; [reflexivity |]. split; [reflexivity |].
  exists wb, wc, hg.
  split; [rewrite (Kb _ csi_collector), (Ka _ csi_collector); reflexivity |].
  split; [rewrite (Kb _ files), (Ka _ files); reflexivity |].
  split; [exact Ec |].
  split.
  { intros B f Hl Hr Hh Ht.
    rewrite Hl, (Kg _ f Hl Ht), (Kf _ f Hr Hh Ht), (Ke _ f Hl), (Kd _ f Hl).
    reflexivity. }
  split; [reflexivity |].
  split; [reflexivity |].
  split.
  { unfold connected_ports. rewrite Hcg. intros Hnil.
    apply (f_equal (@length string)) in Hnil. rewrite length_map in Hnil.
    cbn in Hnil. rewrite Hnil in Hlen. discriminate Hlen. }
  split.
  { intros port Hp. apply Hon. unfold connected_ports in *.
    rewrite <- Hcg. exact Hp. }
  split; [| reflexivity].
  intros ->. fields.
  rewrite (Kg _ video_recorder) by reflexivity.
  exact (start_recording_true _ _ _ Ef).
Qed.

(** the collector that [start] leaves behind *)
Lemma start_collector (csv : string) (d : option Z) (w : World) :
  csv ∉ unwritable w ->
  csi_collector (state_of (CSICollector.start csv d w))
  = set_csv_writer (Some (next_handle w))
      (set_csv_handle (Some (next_handle w))
         (set_start_time (Some (time_time (clock w)))
            (set_packet_count 0
               (set_active true
                  (set_csv_file (Some csv) (csi_collector w)))))).
Proof.
  intros Hfree.
  destruct (start_prelude csv d w)
    as (w1 & -> & Hca & Hcc & Hf & Hu & Hh & Hn & D).
  destruct (start_tail_run csv d w1) as (w0 & -> & Hc0 & _);
    [now rewrite Hu |].
  cbn [state_of]. rewrite Hc0, Hcc, Hn. reflexivity.
Qed.

(** X14. The status right after a start. When a start request has been
    answered with "started", [get_status] reports the session as active
    with a packet count of 0, the session file and the radios of the answer
    as connected - and, as the current signal strength, the last one of
    whatever session came before, since [start] does not clear it. The call
    changes nothing. *)
Theorem status_after_start (d : option string) (w : World)
  id csvp dist devs vr vf w' :
  Controller.start_collection (JSONObject d) w
  = Ret (Started id csvp dist devs vr vf) w' ->
  exists st,
    get_status w' = Ret st w'
    /\ sys_collection_active st = true
    /\ sys_packet_count st = 0
    /\ sys_current_rssi st = latest_rssi (csi_collector w)
    /\ sys_csv_file st = Some (csv_name (default "0" d))
    /\ sys_esp32_devices st = devs
    /\ sys_esp32_connected st = true.
Proof.
  intros H.
  destruct (start_collection_started_world _ _ _ _ _ _ _ _ _ H)
    as (_ & -> & _ & w1 & w2 & hd & Hc1 & _ & E & K & Hhd & -> & Hne & _).
  destruct (start_inv _ _ _ _ _ E) as [_ Hfree].
  pose proof (start_collector _ None w1 Hfree) as Hcol.
  destruct (start_opens _ None w1 Hfree) as (w2' & E' & _ & _ & _ & _ & Hca & _).
  assert (w2' = w2) by congruence. subst w2'.
  rewrite E in Hcol. cbn [state_of] in Hcol.
  assert (Hcw : csi_collector w' = csi_collector w2)
    by (apply (K _ csi_collector); reflexivity).
  assert (Hbw : collection_active w' = true)
    by (rewrite (K _ collection_active) by reflexivity; exact Hca).
  unfold get_status.
  rewrite (bind_Ret _ _ w' (esp32_serial_handler w') w') by reflexivity.
  rewrite Hhd.
  rewrite (bind_Ret _ _ w' (connected_ports hd) w')
    by (rewrite <- (set_link_same w' hd Hhd) at 2;
        apply (on_handler_Ret _ w' hd); [exact Hhd | reflexivity]).
  unfold OS.time. run. rewrite Hbw, Hcw, Hcol, Hc1. fields. cbn [andb].
  eexists. split; [reflexivity |].
  cbn [sys_collection_active sys_packet_count sys_current_rssi sys_csv_file
       sys_esp32_devices sys_esp32_connected].
  repeat split.
  destruct (connected_ports hd); [contradiction | reflexivity].
Qed.

Lemma status_after_start_witness :
  exists st w',
    get_status w' = Ret st w'
    /\ sys_packet_count st = 0
    /\ sys_esp32_devices st = ["/dev/ttyUSB0"]
    /\ sys_current_rssi st = Some (Py.Finite (-74 # 1))
    /\ latest_rssi (csi_collector w_after_session)
       = Some (Py.Finite (-74 # 1)).
Proof.
  destruct (status_after_start (Some "5") w_after_session
              "20231114_121000" (csv_name "5") "5"
              ["/dev/ttyUSB0"] true
              (Some "data/video/video_5m_20231114_121000.mp4")
              (state_of (Controller.start_collection (JSONObject (Some "5"))
                           w_after_session)))
    as (st & E & _ & Hp & Hr & _ & Hd & _); [vm_compute; reflexivity |].
  exists st, (state_of (Controller.start_collection (JSONObject (Some "5"))
                          w_after_session)).
  split; [exact E |]. split; [exact Hp |]. split; [exact Hd |].
  split; [rewrite Hr |]; vm_compute; reflexivity.
Defined.

(** ** Stopping a session *)

(** A call on the link that leaves the handler as it is keeps the global
    handler. *)
Lemma keeps_handler_on_handler {A} (m : M Link A) :
  (forall h t, fst (state_of (m (h, t))) = h) ->
  keeps esp32_serial_handler (on_handler m).
Proof.
  intros Hm w. unfold on_handler.
  destruct (esp32_serial_handler w) as [h |] eqn:Hh; [| exact Hh].
  specialize (Hm h (trace w)).
  destruct (m (h, trace w)) as [a [h' t'] | e [h' t']];
    cbn [state_of fst] in *; subst h'; reflexivity.
Qed.

Lemma keeps_handler_stop : keeps esp32_serial_handler CSICollector.stop.
Proof.
  unfold CSICollector.stop, CSICollector.update, CSICollector.try_send,
    OS.close, OS.release, OS.time, OS.exists_,
    CSICollector.generate_chart_automatically.
  apply keeps_bind; [apply keeps_gets | intros self].
  destruct (active self); [| apply keeps_ret].
  apply keeps_bind; [now apply keeps_modify | intros _].
  apply keeps_bind; [now apply keeps_modify | intros _].
  apply keeps_bind; [apply keeps_gets | intros handler].
  apply keeps_bind.
  { destruct handler; [| apply keeps_ret].
    apply keeps_bind; [now apply keeps_handler_on_handler | intros c].
    destruct c; [| apply keeps_ret].
    apply keeps_try_except; [| intros; apply keeps_ret].
    apply keeps_bind; [| intros; apply keeps_ret].
    apply keeps_handler_on_handler. intros h t.
    now rewrite send_command_run. }
  intros _. apply keeps_bind.
  { destruct (csv_handle self); [| apply keeps_ret].
    repeat (apply keeps_bind; [now apply keeps_modify | intros _]).
    now apply keeps_modify. }
  intros _. apply keeps_bind; [apply keeps_gets | intros now].
  cbv zeta. apply keeps_bind.
  { destruct (csv_file self) as [path |]; [| apply keeps_ret].
    destruct (String.eqb path ""); [apply keeps_ret | apply keeps_gets]. }
  intros present. apply keeps_bind; [| intros; apply keeps_ret].
  destruct (present && (0 <? packet_count self)%nat); [| apply keeps_ret].
  apply keeps_try_except; [| intros; apply keeps_ret].
  apply keeps_bind; [apply keeps_gets | intros c].
  destruct (csv_file c) as [path |]; [| apply keeps_ret].
  apply keeps_bind; [apply keeps_gets | intros p].
  destruct (negb (String.eqb path "") && p); [apply keeps_gets | apply keeps_ret].
Qed.

(** What [stop_collection] does to a running session. *)
Lemma stop_collection_run (w : World) :
  collection_active w = true ->
  active (csi_collector w) = true ->
  exists r v w',
    Controller.stop_collection w = Ret (Stopped r v) w'
    /\ res_packets r = packet_count (csi_collector w)
    /\ res_csv_file r = csv_file (csi_collector w)
    /\ collection_active w' = false
    /\ csi_collector w' = stopped (csi_collector w)
    /\ recording (video_recorder w') = false
    /\ files w' = files w
    /\ (recording (video_recorder w) = true ->
        exists vres, v = Some vres
                     /\ video_path vres = output_path (video_recorder w)
                     /\ video_frames vres = frame_count (video_recorder w))
    /\ esp32_serial_handler w'
       = (fun h => set_serial_listening
                     ((fun _ => false) <$> serial_listening h) h)
           <$> esp32_serial_handler w.
Proof.
  intros Hbusy Hact.
  set (quiet_handler := fun h => set_serial_listening
                                   ((fun _ => false) <$> serial_listening h) h).
  set (wa := match esp32_serial_handler w with
             | Some h => set_link (quiet_handler h) (trace w) w
             | None => w
             end).
  assert (Ea : match esp32_serial_handler w with
               | Some _ => on_handler ESP32SerialHandler.stop_listening
               | None => ret tt
               end w = Ret tt wa).
  { subst wa. destruct (esp32_serial_handler w) as [h |] eqn:Hh;
      [| reflexivity].
    apply (on_handler_Ret _ w h); [exact Hh | reflexivity]. }
  assert (Hwa : collection_active wa = collection_active w
                /\ csi_collector wa = csi_collector w
                /\ video_recorder wa = video_recorder w
                /\ files wa = files w
                /\ esp32_serial_handler wa
                   = quiet_handler <$> esp32_serial_handler w).
  { subst wa. destruct (esp32_serial_handler w) eqn:Hh; fields;
      rewrite ?Hh; repeat split. }
  destruct Hwa as (Ha1 & Ha2 & Ha3 & Ha4 & Ha5).
  assert (Hact' : active (csi_collector wa) = true) by now rewrite Ha2.
  destruct (stop_active_run wa Hact')
    as (r & wb & Eb & Hp & Hf & _ & Hca & Hcc & Hfiles & _ & Hv & _ & _).
  pose proof (keeps_Ret esp32_serial_handler _ _ _ _ keeps_handler_stop Eb)
    as Hhb.
  destruct (stop_recording_returns wb) as (v & wc & Ec & Hoff).
  assert (Kc : forall B (f : World -> B),
             (forall v w, f (set_video_recorder v w) = f w) ->
             (forall hs n w, f (set_handles hs n w) = f w) -> f wc = f wb).
  { intros B f Hr Hh.
    exact (keeps_Ret f _ _ _ _ (keeps_stop_recording f Hr Hh) Ec). }
  exists r, v, wc. split.
  { unfold Controller.stop_collection, try_except.
    rewrite (bind_Ret _ _ w true w) by (unfold gets; now rewrite Hbusy).
    cbn [negb].
    rewrite (bind_Ret _ _ w (esp32_serial_handler w) w) by reflexivity.
    rewrite (bind_Ret _ _ _ _ _ Ea), (bind_Ret _ _ _ _ _ Eb),
      (bind_Ret _ _ _ _ _ Ec).
    reflexivity. }
  split; [now rewrite Hp, Ha2 |]. split; [now rewrite Hf, Ha2 |].
  split; [rewrite (Kc _ collection_active) by reflexivity; exact Hca |].
  split; [rewrite (Kc _ csi_collector) by reflexivity; now rewrite Hcc, Ha2 |].
  split; [exact Hoff |].
  split; [rewrite (Kc _ files) by reflexivity; now rewrite Hfiles |].
  split.
  { intros Hrec. rewrite <- Ha3, <- Hv in Hrec.
    destruct (stop_recording_run wb Hrec) as (wc' & Ec' & _).
    rewrite Ec in Ec'. injection Ec' as -> _.
    eexists. split; [reflexivity |].
    cbn [video_path video_frames]. now rewrite Hv, Ha3. }
  rewrite (Kc _ esp32_serial_handler) by reflexivity.
  now rewrite Hhb.
Qed.

(** The rows that a feed adds to the session file: one for every accepted
    line, behind those that were there. *)
Lemma feed_rows (inputs : list (Clock * string)) :
  forall (w : World) (h : nat) (path : string) (rows : list row),
    collecting w h path = true ->
    files w !! path = Some rows ->
    exists answers w',
      feed inputs w = Ret answers w'
      /\ exists new,
          files w' !! path = Some (rows ++ new)%list
          /\ length new = accepted answers.
Proof.
  induction inputs as [| [now line] rest IH]; intros w h path rows Hc Hrows.
  - exists [], w. split; [reflexivity |]. exists [].
    rewrite app_nil_r. split; [exact Hrows | reflexivity].
  - cbn [feed].
    rewrite (bind_Ret _ _ w tt (set_clock now w)) by reflexivity.
    destruct (Py.startswith line marker) eqn:Hm.
    + rewrite (bind_Ret _ _ _ _ _
                 (add_data_accepted (set_clock now w) h path line Hc Hm)).
      destruct (IH (accepted_world path line (set_clock now w)) h path
                  (rows ++ [packet_row now line])%list Hc)
        as (answers & w' & Hrun & new & Hnew & Hlen).
      { unfold accepted_world, appended. fields.
        rewrite lookup_insert_eq, Hrows. reflexivity. }
      exists (true :: answers), w'.
      rewrite (bind_Ret _ _ _ _ _ Hrun). split; [reflexivity |].
      exists (packet_row now line :: new).
      split; [rewrite Hnew, <- app_assoc; reflexivity |].
      cbn [length]. rewrite Hlen. reflexivity.
    + rewrite (bind_Ret _ _ _ _ _
                 (add_data_turned_away (set_clock now w) line
                    (or_intror (or_intror Hm)))).
      destruct (IH (set_clock now w) h path rows Hc Hrows)
        as (answers & w' & Hrun & new & Hnew & Hlen).
      exists (false :: answers), w'.
      rewrite (bind_Ret _ _ _ _ _ Hrun). split; [reflexivity |].
      exists new. split; [exact Hnew | exact Hlen].
Qed.

(** X15. A whole session. After a start request has been answered with
    "started" and any lines have been fed to the collector, a stop request
    is answered with the summary of the session: as many packets as lines
    were accepted, the session file, and the video result when the video was
    recording. Afterwards no session is active, the collector is inactive,
    nothing is being recorded, no port has its listening flag set, and the
    session file holds the header followed by the rows of the accepted
    lines, as it did before the stop. *)
Theorem session_round_trip (d : option string) (w : World)
  id csvp dist devs vr vf w' (inputs : list (Clock * string)) :
  Controller.start_collection (JSONObject d) w
  = Ret (Started id csvp dist devs vr vf) w' ->
  exists answers w1 r v w2 hd,
    feed inputs w' = Ret answers w1
    /\ Controller.stop_collection w1 = Ret (Stopped r v) w2
    /\ res_packets r = accepted answers
    /\ res_csv_file r = Some (csv_name (default "0" d))
    /\ (vr = true -> exists vres, v = Some vres /\ video_path vres = vf)
    /\ collection_active w2 = false
    /\ active (csi_collector w2) = false
    /\ recording (video_recorder w2) = false
    /\ esp32_serial_handler w2 = Some hd
    /\ (forall port, serial_listening hd !! port <> Some true)
    /\ files w2 = files w1
    /\ exists rows,
        files w2 !! csv_name (default "0" d) = Some (headers :: rows)
        /\ length rows = accepted answers.
Proof.
  intros H.
  destruct (start_collection_started_world _ _ _ _ _ _ _ _ _ H)
    as (_ & -> & _ & wa & wb & hd0 & _ & _ & E & K & Hhd & _ & _ & _
        & Hrec & Hvf).
  destruct (start_inv _ _ _ _ _ E) as [_ Hfree].
  destruct (start_opens _ None wa Hfree)
    as (wb' & E' & Hcol & Hzero & _ & Hfiles & Hca & _).
  assert (wb' = wb) by congruence. subst wb'.
  pose proof (start_collector _ None wa Hfree) as Hcc.
  rewrite E in Hcc. cbn [state_of] in Hcc.
  destruct (started_session_collecting _ _ _ _ _ _ _ _ _ H)
    as (h & Hc & Hz).
  assert (Hbusy : collection_active w' = true)
    by (rewrite (K _ collection_active) by reflexivity; exact Hca).
  assert (Hfile : files w' !! csv_name (default "0" d) = Some [headers])
    by (rewrite (K _ files), Hfiles by reflexivity; apply lookup_insert_eq).
  assert (Hname : csv_file (csi_collector w')
                  = Some (csv_name (default "0" d)))
    by (rewrite (K _ csi_collector), Hcc by reflexivity; reflexivity).
  destruct (feed_run inputs w' h _ Hc)
    as (answers & w1 & Ef & Hcount & Hc1 & Hb1 & Ha1 & Hn1 & _ & Hv1 & Hh1 & _).
  destruct (feed_rows inputs w' h _ [headers] Hc Hfile)
    as (answers' & w1' & Ef' & new & Hrows & Hlen).
  rewrite Ef in Ef'. injection Ef' as <- <-.
  destruct (collecting_spec _ _ _ Hc1) as (Hact1 & _).
  destruct (stop_collection_run w1) as
    (r & v & w2 & Es & Hp & Hf & Hca2 & Hcc2 & Hoff & Hfiles2 & Hvid & Hh2);
    [now rewrite Hb1 | exact Hact1 |].
  exists answers, w1, r, v, w2,
    (set_serial_listening ((fun _ => false) <$> serial_listening hd0) hd0).
  split; [exact Ef |]. split; [exact Es |].
  split; [rewrite Hp, Hcount, Hz; reflexivity |].
  split; [rewrite Hf, Hn1; exact Hname |].
  split.
  { intros ->. destruct Hvid as (vres & -> & Hpath & _);
      [rewrite Hv1; now apply Hrec |].
    exists vres. split; [reflexivity |]. now rewrite Hpath, Hv1, Hvf. }
  split; [exact Hca2 |].
  split; [rewrite Hcc2; unfold stopped;
          destruct (csv_handle (csi_collector w1)); reflexivity |].
  split; [exact Hoff |].
  split; [rewrite Hh2, Hh1, Hhd; reflexivity |].
  split.
  { intros port. fields. rewrite lookup_fmap.
    destruct (serial_listening hd0 !! port); discriminate. }
  split; [exact Hfiles2 |].
  exists new. rewrite Hfiles2. split; [exact Hrows | exact Hlen].
Qed.

Lemma session_round_trip_witness :
  exists w1 r v w2,
    feed [(noon, full_line); (later, "noise")] w_session = Ret [true; false] w1
    /\ Controller.stop_collection w1 = Ret (Stopped r v) w2
    /\ res_packets r = 1
    /\ collection_active w2 = false
    /\ exists rows,
        files w2 !! csv_name "5" = Some (headers :: rows) /\ length rows = 1.
Proof.
  destruct (session_round_trip (Some "5") w_idle
              "20231114_120000" (csv_name "5") "5"
              ["/dev/ttyUSB0"] true
              (Some "data/video/video_5m_20231114_120000.mp4")
              w_session [(noon, full_line); (later, "noise")])
    as (answers & w1 & r & v & w2 & hd & Ef & Es & Hp & _ & _ & Hca & _ & _
        & _ & _ & _ & rows & Hrows & Hlen);
    [vm_compute; reflexivity |].
  assert (Hw : Ret answers w1
               = feed [(noon, full_line); (later, "noise")] w_session)
    by (symmetry; exact Ef).
  vm_compute in Hw. injection Hw as -> ->.
  eexists; exists r, v, w2. split; [vm_compute; reflexivity |].
  split; [exact Es |]. split; [exact Hp |]. split; [exact Hca |].
  exists rows. split; [exact Hrows | exact Hlen].
Defined.

(** ** The acknowledgement loop *)

Lemma find_port_In (port : string) (conns : list (string * Serial)) k ser :
  List.find (fun '(k, _) => String.eqb k port) conns = Some (k, ser) ->
  In (k, ser) conns /\ k = port.
Proof.
  intros H. apply find_some in H as [Hin Hk].
  split; [exact Hin |]. now apply String.eqb_eq.
Qed.

Lemma in_waiting_silent (port : string) (h : ESP32SerialHandler)
  (t : list event) :
  silent h = true ->
  ESP32SerialHandler.in_waiting port (h, t) = Ret false (h, t).
Proof.
  intros Hs. unfold ESP32SerialHandler.in_waiting.
  rewrite (bind_Ret _ _ (h, t) h (h, t)) by reflexivity.
  destruct (List.find _ (serial_connections h)) as [[k ser] |] eqn:Hf;
    [| reflexivity].
  apply find_port_In in Hf as [Hin _].
  unfold silent in Hs. rewrite forallb_forall in Hs.
  specialize (Hs _ Hin). cbn in Hs.
  apply andb_prop in Hs as [-> Hlen]. apply Nat.eqb_eq in Hlen.
  rewrite Hlen. reflexivity.
Qed.

Lemma any_in_waiting_silent (names : list string) (h : ESP32SerialHandler)
  (t : list event) :
  silent h = true ->
  Controller.any_in_waiting names (h, t) = Ret false (h, t).
Proof.
  intros Hs. induction names as [| port names IH]; [reflexivity |].
  cbn [Controller.any_in_waiting].
  rewrite (bind_Ret _ _ _ _ _ (in_waiting_silent port h t Hs)).
  exact IH.
Qed.

Lemma check_loop_silent (n : nat) (h : ESP32SerialHandler) (t : list event) :
  silent h = true ->
  Controller.check_loop n (h, t) = Ret false (h, t).
Proof.
  intros Hs. induction n as [| n IH]; [reflexivity |].
  cbn [Controller.check_loop].
  rewrite (bind_Ret _ _ (h, t) (map fst (serial_connections h)) (h, t))
    by reflexivity.
  rewrite (bind_Ret _ _ _ _ _ (any_in_waiting_silent _ h t Hs)).
  rewrite (bind_Ret _ _ (h, t) false (h, t)) by reflexivity.
  rewrite (bind_Ret _ _ (h, t) tt (h, t)) by reflexivity.
  exact IH.
Qed.

Lemma attempt_loop_silent (n : nat) (h : ESP32SerialHandler) :
  silent h = true ->
  forall t : list event,
    Controller.attempt_loop n (h, t)
    = Ret false
        (h, if serial_available h
            then (rounds n "6" (serial_connections h) ++ t)%list
            else t).
Proof.
  intros Hs. induction n as [| n IH]; intros t.
  - cbn [Controller.attempt_loop rounds app]. unfold ret.
    destruct (serial_available h); reflexivity.
  - cbn [Controller.attempt_loop rounds].
    rewrite (bind_Ret _ _ _ _ _ (send_command_run "6" h t)).
    set (t1 := if serial_available h
               then (command_writes "6" (serial_connections h) ++ t)%list
               else t).
    assert (E : (if serial_available h
                     && existsb (fun '(_, ser) => writable ser)
                          (serial_connections h)
                 then OS.sleep ;; Controller.check_loop 10
                 else ret false) (h, t1) = Ret false (h, t1)).
    { destruct (_ && _); [| reflexivity].
      rewrite (bind_Ret _ _ (h, t1) tt (h, t1)) by reflexivity.
      apply check_loop_silent, Hs. }
    rewrite (bind_Ret _ _ _ _ _ E).
    rewrite (bind_Ret _ _ (h, t1) tt (h, t1)) by reflexivity.
    rewrite IH. subst t1.
    destruct (serial_available h); [| reflexivity].
    now rewrite <- app_assoc.
Qed.

(** X16. Radios that do not answer. When every line can be read and none
    has anything waiting, the acknowledgement loop gives up: it answers
    [False] after having written the mode command ["6"] and a newline, in
    every one of its [n] rounds, to each line that takes writes, and it
    leaves the handler as it was. [start_collection] runs it with three
    rounds and goes on whatever the answer. *)
Theorem attempt_loop_unanswered (n : nat) (h : ESP32SerialHandler)
  (t : list event) :
  silent h = true ->
  Controller.attempt_loop n (h, t)
  = Ret false
      (h, if serial_available h
          then (rounds n "6" (serial_connections h) ++ t)%list
          else t).
Proof. intros Hs. apply attempt_loop_silent, Hs. Qed.

Lemma attempt_loop_unanswered_witness :
  silent h_silent = true
  /\ Controller.attempt_loop 3 (h_silent, [])
     = Ret false
         (h_silent,
          [SerialWrite "/dev/ttyUSB0" ("6" +:+ OS.NL);
           SerialWrite "/dev/ttyUSB0" ("6" +:+ OS.NL);
           SerialWrite "/dev/ttyUSB0" ("6" +:+ OS.NL)]).
Proof.
  split; [reflexivity |].
  rewrite (attempt_loop_unanswered 3 h_silent []); reflexivity.
Defined.

(** ** Lines that can be read *)

(** [h'] has the ports of [h], each with the same answers to writes and
    reads; only what is waiting on the lines may differ. *)
Lemma readable_lines_flags (h h' : ESP32SerialHandler) :
  line_flags h' = line_flags h -> readable_lines h' = readable_lines h.
Proof.
  unfold line_flags, readable_lines.
  generalize (serial_connections h) (serial_connections h').
  intros l l'. revert l.
  induction l' as [| [k' s'] l' IH]; intros [| [k s] l] H;
    try discriminate H; [reflexivity |].
  cbn [map] in H. injection H as _ _ Hr Hl.
  cbn [forallb]. now rewrite Hr, (IH _ Hl).
Qed.

Lemma connected_ports_flags (h h' : ESP32SerialHandler) :
  line_flags h' = line_flags h -> connected_ports h' = connected_ports h.
Proof.
  unfold line_flags, connected_ports.
  generalize (serial_connections h) (serial_connections h').
  intros l l'. revert l.
  induction l' as [| [k' s'] l' IH]; intros [| [k s] l] H;
    try discriminate H; [reflexivity |].
  cbn [map] in H. injection H as Hk _ _ Hl.
  cbn [map fst]. now rewrite Hk, (IH _ Hl).
Qed.

Lemma dict_set_flags (port : string) (ser ser' : Serial)
  (conns : list (string * Serial)) k :
  List.find (fun '(k, _) => String.eqb k port) conns = Some (k, ser) ->
  writable ser' = writable ser ->
  readable ser' = readable ser ->
  map (fun '(port_name, s) => (port_name, writable s, readable s))
    (dict_set port ser' conns)
  = map (fun '(port_name, s) => (port_name, writable s, readable s)) conns.
Proof.
  intros Hf Hw Hr. induction conns as [| [k0 s0] conns IH];
    [discriminate Hf |].
  cbn [List.find] in Hf. cbn [dict_set].
  destruct (String.eqb k0 port) eqn:Hk.
  - injection Hf as -> ->. apply String.eqb_eq in Hk as ->.
    cbn [map]. now rewrite Hw, Hr.
  - cbn [map]. now rewrite (IH Hf).
Qed.

Lemma in_waiting_readable (port : string) (h : ESP32SerialHandler)
  (t : list event) :
  readable_lines h = true ->
  exists b, ESP32SerialHandler.in_waiting port (h, t) = Ret b (h, t).
Proof.
  intros Hs. unfold ESP32SerialHandler.in_waiting.
  rewrite (bind_Ret _ _ (h, t) h (h, t)) by reflexivity.
  destruct (List.find _ (serial_connections h)) as [[k ser] |] eqn:Hf;
    [| now exists false].
  apply find_port_In in Hf as [Hin _].
  unfold readable_lines in Hs. rewrite forallb_forall in Hs.
  specialize (Hs _ Hin). cbn in Hs. rewrite Hs. now eexists.
Qed.

Lemma readline_run (port : string) (h : ESP32SerialHandler)
  (t : list event) :
  exists l h',
    ESP32SerialHandler.readline port (h, t) = Ret l (h', t)
    /\ serial_available h' = serial_available h
    /\ line_flags h' = line_flags h.
Proof.
  unfold ESP32SerialHandler.readline.
  rewrite (bind_Ret _ _ (h, t) h (h, t)) by reflexivity.
  destruct (List.find _ (serial_connections h)) as [[k ser] |] eqn:Hf;
    [| now exists "", h].
  destruct (inbox ser) as [| l rest]; [now exists "", h |].
  eexists l, _. split; [reflexivity |]. split; [reflexivity |].
  unfold line_flags. fields. now apply (dict_set_flags port ser _ _ k).
Qed.

Lemma read_responses_run (names : list string) :
  forall (h : ESP32SerialHandler) (t : list event),
    readable_lines h = true ->
    exists b h',
      Controller.read_responses names (h, t) = Ret b (h', t)
      /\ serial_available h' = serial_available h
      /\ line_flags h' = line_flags h.
Proof.
  induction names as [| port names IH]; intros h t Hs.
  - now exists false, h.
  - cbn [Controller.read_responses].
    destruct (in_waiting_readable port h t Hs) as (b & E).
    rewrite (bind_Ret _ _ _ _ _ E). destruct b; [| now apply IH].
    destruct (readline_run port h t) as (l & h1 & E1 & Ha & Hl).
    rewrite (bind_Ret _ _ _ _ _ E1).
    destruct (Py.contains _ l); [now exists true, h1 |].
    destruct (IH h1 t) as (b & h' & E' & Ha' & Hl').
    { now rewrite (readable_lines_flags _ _ Hl). }
    exists b, h'. split; [exact E' |]. split; congruence.
Qed.

Lemma any_in_waiting_run (names : list string) (h : ESP32SerialHandler)
  (t : list event) :
  readable_lines h = true ->
  exists b, Controller.any_in_waiting names (h, t) = Ret b (h, t).
Proof.
  intros Hs. induction names as [| port names IH]; [now exists false |].
  cbn [Controller.any_in_waiting].
  destruct (in_waiting_readable port h t Hs) as (b & E).
  rewrite (bind_Ret _ _ _ _ _ E). destruct b; [now exists true | exact IH].
Qed.

Lemma check_loop_run (n : nat) :
  forall (h : ESP32SerialHandler) (t : list event),
    readable_lines h = true ->
    exists b h',
      Controller.check_loop n (h, t) = Ret b (h', t)
      /\ serial_available h' = serial_available h
      /\ line_flags h' = line_flags h.
Proof.
  induction n as [| n IH]; intros h t Hs; [now exists false, h |].
  cbn [Controller.check_loop].
  rewrite (bind_Ret _ _ (h, t) (map fst (serial_connections h)) (h, t))
    by reflexivity.
  destruct (any_in_waiting_run (map fst (serial_connections h)) h t Hs)
    as (some & E).
  rewrite (bind_Ret _ _ _ _ _ E).
  assert (exists b h1,
             (if some
              then Controller.read_responses (map fst (serial_connections h))
              else ret false) (h, t) = Ret b (h1, t)
             /\ serial_available h1 = serial_available h
             /\ line_flags h1 = line_flags h) as (b & h1 & E1 & Ha & Hl).
  { destruct some; [now apply read_responses_run | now exists false, h]. }
  rewrite (bind_Ret _ _ _ _ _ E1). destruct b; [now exists true, h1 |].
  rewrite (bind_Ret _ _ (h1, t) tt (h1, t)) by reflexivity.
  destruct (IH h1 t) as (b & h' & E' & Ha' & Hl').
  { now rewrite (readable_lines_flags _ _ Hl). }
  exists b, h'. split; [exact E' |]. split; congruence.
Qed.

(** On lines that can be read the acknowledgement loop returns. It may
    take waiting lines off the radios, but the ports stay, and so does what
    each line answers to writes and reads; and it runs no discovery. *)
Lemma attempt_loop_run (n : nat) :
  forall (h : ESP32SerialHandler) (t : list event),
    readable_lines h = true ->
    exists b h' t',
      Controller.attempt_loop n (h, t) = Ret b (h', t')
      /\ serial_available h' = serial_available h
      /\ line_flags h' = line_flags h
      /\ discoveries t' = discoveries t.
Proof.
  induction n as [| n IH]; intros h t Hs; [now exists false, h, t |].
  cbn [Controller.attempt_loop].
  rewrite (bind_Ret _ _ _ _ _ (send_command_run "6" h t)).
  set (t1 := if serial_available h
             then (command_writes "6" (serial_connections h) ++ t)%list
             else t).
  assert (D1 : discoveries t1 = discoveries t).
  { destruct (quiet_send_command "6" h t) as (a & h0 & t0 & E0 & D0).
    rewrite send_command_run in E0. injection E0 as _ _ Ht0.
    subst t1. now rewrite Ht0. }
  assert (exists b h1,
             (if serial_available h
                 && existsb (fun '(_, ser) => writable ser)
                      (serial_connections h)
              then OS.sleep ;; Controller.check_loop 10
              else ret false) (h, t1) = Ret b (h1, t1)
             /\ serial_available h1 = serial_available h
             /\ line_flags h1 = line_flags h) as (b & h1 & E1 & Ha & Hl).
  { destruct (_ && _); [| now exists false, h].
    rewrite (bind_Ret _ _ (h, t1) tt (h, t1)) by reflexivity.
    now apply check_loop_run. }
  rewrite (bind_Ret _ _ _ _ _ E1). destruct b; [now exists true, h1, t1 |].
  rewrite (bind_Ret _ _ (h1, t1) tt (h1, t1)) by reflexivity.
  destruct (IH h1 t1) as (b & h' & t' & E' & Ha' & Hl' & D').
  { now rewrite (readable_lines_flags _ _ Hl). }
  exists b, h', t'. split; [exact E' |]. repeat split; congruence.
Qed.

(** ** When a start request goes through *)

Lemma create_directories_run (w : World) :
  dirs_writable w = true -> create_directories w = Ret tt w.
Proof.
  unfold dirs_writable, can_write. intros H.
  repeat (apply andb_prop in H; destruct H as [H ?]).
  repeat match goal with
         | E : negb _ = true |- _ => apply negb_true_iff in E
         end.
  unfold create_directories, OS.makedirs, bind.
  repeat match goal with
         | E : bool_decide _ = false |- _ => rewrite E; clear E
         end.
  reflexivity.
Qed.

(** With a radio connected, the block of [start] that tells the radios to
    listen writes the command and leaves the handler as it is. *)
Lemma send_start_listen_connected (w : World) (hd : ESP32SerialHandler) :
  esp32_serial_handler w = Some hd ->
  connected hd = true ->
  CSICollector.send_start_listen w
  = Ret tt (set_link hd
              (command_writes "start_listen" (serial_connections hd)
                 ++ trace w)%list w).
Proof.
  intros Hh Hc. unfold CSICollector.send_start_listen.
  rewrite (bind_Ret _ _ w (esp32_serial_handler w) w) by reflexivity.
  rewrite Hh.
  rewrite (bind_Ret _ _ w (connected hd) (set_link hd (trace w) w))
    by (apply (on_handler_Ret _ w hd); [exact Hh | apply is_connected_run]).
  rewrite Hc. unfold CSICollector.try_send, try_except.
  pose proof (on_handler_Ret _ (set_link hd (trace w) w) hd _ _ _ eq_refl
                (send_command_run "start_listen" hd
                   (trace (set_link hd (trace w) w)))) as E.
  rewrite (bind_Ret _ _ _ _ _ E). unfold ret. fields.
  unfold connected in Hc. apply andb_prop in Hc as [-> _].
  destruct w; reflexivity.
Qed.

(** With a radio connected, [start] leaves the handler as it is. *)
Lemma start_connected (csv : string) (w : World) (hd : ESP32SerialHandler) :
  esp32_serial_handler w = Some hd ->
  connected hd = true ->
  csv ∉ unwritable w ->
  exists w0,
    CSICollector.start csv None w = Ret true w0
    /\ esp32_serial_handler w0 = Some hd
    /\ unwritable w0 = unwritable w
    /\ video_recorder w0 = video_recorder w
    /\ camera w0 = camera w
    /\ clock w0 = clock w.
Proof.
  intros Hh Hc Hfree.
  set (c1 := set_start_time (Some (time_time (clock w)))
               (set_packet_count 0
                  (set_active true (set_csv_file (Some csv) (csi_collector w))))).
  set (wa := set_collection_active true (set_csi_collector c1 w)).
  pose proof (send_start_listen_connected wa hd Hh Hc) as E.
  match type of E with _ = Ret tt ?s => set (w1 := s) in E end.
  assert (Hrun : CSICollector.start csv None w = start_tail csv None w1).
  { transitivity
      (bind CSICollector.send_start_listen (fun _ => start_tail csv None) wa);
      [reflexivity |].
    now rewrite (bind_Ret _ _ _ _ _ E). }
  rewrite Hrun.
  unfold start_tail, OS.open_w, OS.alloc, CSICollector.update,
    CSICollector.finalize, OS.writerow, OS.flush.
  run. subst w1 wa. fields.
  rewrite (bool_decide_eq_false_2 _ Hfree). fields.
  rewrite !(finalized_held _ _ _ _ (next_handle w)) by auto.
  rewrite !lookup_insert_eq. fields.
  rewrite !(finalized_held _ _ _ _ (next_handle w)) by auto.
  rewrite !lookup_insert_eq.
  eexists. split; [reflexivity |]. fields. repeat split.
Qed.

(** [start_recording] always returns. *)
Lemma start_recording_returns (distance : string) (w : World) :
  exists b w', VideoRecorder.start_recording distance w = Ret b w'.
Proof.
  unfold VideoRecorder.start_recording.
  rewrite (bind_Ret _ _ w (video_recorder w) w) by reflexivity.
  destruct (negb (video_available (video_recorder w))); [now eexists; eexists |].
  destruct (recording (video_recorder w)); [now eexists; eexists |].
  unfold try_except.
  match goal with
  | |- exists b w', match ?body w with _ => _ end = _ =>
      destruct (body w) as [b w1 | e w1]
  end.
  - now exists b, w1.
  - destruct (stop_recording_returns w1) as (r & w2 & E & _).
    exists false, w2. now rewrite (bind_Ret _ _ _ _ _ E).
Qed.

Lemma start_collection_run (d : option string) (w : World)
  (hd : ESP32SerialHandler) :
  collection_active w = false ->
  esp32_serial_handler w = Some hd ->
  connected hd = true ->
  readable_lines hd = true ->
  dirs_writable w = true ->
  can_write w (csv_name (default "0" d)) = true ->
  exists vr vf w',
    Controller.start_collection (JSONObject d) w
    = Ret (Started (strftime (clock w)) (csv_name (default "0" d))
             (default "0" d) (connected_ports hd) vr vf) w'.
Proof.
  intros Hidle Hh Hc Hr Hdirs Hcsv.
  set (dist := default "0" d) in *.
  set (wa := set_link hd (trace w) w).
  assert (Ea : on_handler ESP32SerialHandler.get_connected_devices w
               = Ret (connected_ports hd) wa)
    by (apply (on_handler_Ret _ w hd); [exact Hh | reflexivity]).
  assert (Hn : (length (connected_ports hd) =? 0)%nat = false).
  { unfold connected in Hc. apply andb_prop in Hc as [_ Hc].
    unfold connected_ports. rewrite length_map.
    apply Nat.ltb_lt in Hc. apply Nat.eqb_neq. lia. }
  pose proof (create_directories_run wa Hdirs) as Eb.
  destruct (start_connected (csv_name dist) wa hd eq_refl Hc
              (can_write_free wa _ Hcsv))
    as (wc & Ec & Hhc & Huc & Hvc & Hcamc & Hclc).
  destruct (attempt_loop_run 3 hd (trace wc) Hr)
    as (armed & h1 & t1 & E1 & Ha1 & Hl1 & _).
  pose proof (on_handler_Ret _ wc hd _ _ _ Hhc E1) as Ed.
  set (wd := set_link h1 t1 wc) in Ed.
  pose proof (on_handler_Ret _ wd h1 _ _ _ eq_refl
                (send_command_run "1" h1 (trace wd))) as Ee.
  match type of Ee with _ = Ret ?b ?s => set (sent := b) in Ee;
                                           set (we := s) in Ee end.
  destruct (start_recording_returns dist we) as (vr & wf & Ef).
  assert (Hhf : esp32_serial_handler wf = Some h1).
  { refine (keeps_Ret esp32_serial_handler _ _ _ _ _ Ef).
    kept esp32_serial_handler @keeps_start_recording. }
  destruct (start_serial_listening_run wf h1 Hhf)
    as (hg & wg & Eg & Hhg & Hcg & _).
  assert (Hlen : (0 <? length (serial_connections h1))%nat = true).
  { pose proof (connected_ports_flags _ _ Hl1) as Hp.
    unfold connected_ports in Hp, Hn.
    apply (f_equal (@length string)) in Hp. rewrite !length_map in Hp.
    rewrite length_map in Hn. apply Nat.eqb_neq in Hn.
    apply Nat.ltb_lt. lia. }
  rewrite Hlen in Eg.
  assert (Eh : on_handler ESP32SerialHandler.get_connected_devices wg
               = Ret (connected_ports hg) (set_link hg (trace wg) wg))
    by (apply (on_handler_Ret _ wg hg); [exact Hhg | reflexivity]).
  assert (Hports : connected_ports hg = connected_ports hd).
  { rewrite <- (connected_ports_flags _ _ Hl1).
    unfold connected_ports. now rewrite Hcg. }
  exists vr. eexists. eexists.
  unfold Controller.start_collection, try_except.
  rewrite (bind_Ret _ _ w dist w) by reflexivity.
  rewrite (bind_Ret _ _ w false w) by (unfold gets; now rewrite Hidle).
  rewrite (bind_Ret _ _ w (Some hd) w) by (unfold gets; now rewrite Hh).
  rewrite (bind_Ret _ _ w false wa)
    by (rewrite (bind_Ret _ _ _ _ _ Ea); unfold ret; now rewrite Hn).
  rewrite (bind_Ret _ _ _ _ _ Eb).
  rewrite (bind_Ret _ _ wa (strftime (clock w)) wa) by reflexivity.
  rewrite (bind_Ret _ _ _ _ _ Ec). cbn [negb].
  rewrite (bind_Ret _ _ _ _ _ Ed), (bind_Ret _ _ _ _ _ Ee).
  rewrite (bind_Ret _ _ we tt we) by reflexivity.
  rewrite (bind_Ret _ _ _ _ _ Ef), (bind_Ret _ _ _ _ _ Eg). cbn [negb].
  rewrite (bind_Ret _ _ _ _ _ Eh).
  rewrite (bind_Ret _ _ _ (video_recorder (set_link hg (trace wg) wg)) _)
    by reflexivity.
  unfold ret. rewrite Hports. reflexivity.
Qed.

(** X17. A start request with a JSON object as its body goes through on a
    best-effort basis. When no session is active, a radio is connected,
    every line can be read, and the data directories and the session file
    can be written, [start_collection] answers such a request with
    "started" - whether or not a radio acknowledged the mode command, took
    the start command, or the camera could be started. The answer carries
    the clock's timestamp, the file named after the distance and the
    connected ports; afterwards the session is active and its file holds the
    header alone. *)
Theorem start_collection_starts (d : option string) (w : World) :
  collection_active w = false ->
  radio_ready w = true ->
  dirs_writable w = true ->
  can_write w (csv_name (default "0" d)) = true ->
  exists hd vr vf w',
    esp32_serial_handler w = Some hd
    /\ Controller.start_collection (JSONObject d) w
       = Ret (Started (strftime (clock w)) (csv_name (default "0" d))
                (default "0" d) (connected_ports hd) vr vf) w'
    /\ collection_active w' = true
    /\ files w' !! csv_name (default "0" d) = Some [headers].
Proof.
  intros Hidle Hready Hdirs Hcsv. unfold radio_ready in Hready.
  destruct (esp32_serial_handler w) as [hd |] eqn:Hh; [| discriminate].
  apply andb_prop in Hready as [Hc Hr].
  destruct (start_collection_run d w hd Hidle Hh Hc Hr Hdirs Hcsv)
    as (vr & vf & w' & E).
  exists hd, vr, vf, w'. split; [reflexivity |]. split; [exact E |].
  destruct (start_collection_started_world _ _ _ _ _ _ _ _ _ E)
    as (_ & _ & _ & wa & wb & hd0 & _ & _ & Es & K & _).
  destruct (start_inv _ _ _ _ _ Es) as [_ Hfree].
  destruct (start_opens _ None wa Hfree)
    as (wb' & E' & _ & _ & _ & Hfiles & Hca & _).
  assert (wb' = wb) by congruence. subst wb'.
  split; [rewrite (K _ collection_active) by reflexivity; exact Hca |].
  rewrite (K _ files), Hfiles by reflexivity. apply lookup_insert_eq.
Qed.

Lemma start_collection_starts_witness :
  exists vr vf w',
    Controller.start_collection (JSONObject (Some "5")) w_idle
    = Ret (Started "20231114_120000" (csv_name "5") "5" ["/dev/ttyUSB0"]
             vr vf) w'
    /\ files w' !! csv_name "5" = Some [headers].
Proof.
  destruct (start_collection_starts (Some "5") w_idle)
    as (hd & vr & vf & w' & Hh & E & _ & Hf);
    [reflexivity | reflexivity | reflexivity | reflexivity |].
  vm_compute in Hh. injection Hh as <-.
  exists vr, vf, w'. split; [exact E | exact Hf].
Defined.

(** ** The reader threads *)

Lemma find_dict_set (port : string) (v : Serial)
  (conns : list (string * Serial)) k ser :
  List.find (fun '(k, _) => String.eqb k port) conns = Some (k, ser) ->
  List.find (fun '(k, _) => String.eqb k port) (dict_set port v conns)
  = Some (port, v).
Proof.
  intros Hf. induction conns as [| [k0 s0] conns IH]; [discriminate Hf |].
  cbn [List.find] in Hf. cbn [dict_set].
  destruct (String.eqb k0 port) eqn:Hk.
  - cbn [List.find]. now rewrite String.eqb_refl.
  - cbn [List.find]. rewrite Hk. exact (IH Hf).
Qed.

Lemma line_of_find (h : ESP32SerialHandler) (port : string) (ser : Serial) :
  line_of h port = Some ser ->
  exists k,
    List.find (fun '(k, _) => String.eqb k port) (serial_connections h)
    = Some (k, ser).
Proof.
  unfold line_of. destruct (List.find _ _) as [[k s] |]; [| discriminate].
  intros E. injection E as ->. now exists k.
Qed.

(** what [drain] does on a collecting world, by the lines that wait *)
Lemma drain_run (lines : list string) :
  forall (fuel : nat) (port : string) (w : World) (h : nat) (path : string)
         (rows : list row) (hd : ESP32SerialHandler) (ser : Serial),
    collecting w h path = true ->
    files w !! path = Some rows ->
    esp32_serial_handler w = Some hd ->
    line_of hd port = Some ser ->
    readable ser = true ->
    inbox ser = lines ->
    length lines <= fuel ->
    exists w' hd' ser',
      drain fuel port w = Ret true w'
      /\ files w' !! path
         = Some (rows ++ map (packet_row (clock w)) (packets lines))%list
      /\ packet_count (csi_collector w')
         = packet_count (csi_collector w) + length (packets lines)
      /\ collecting w' h path = true
      /\ esp32_serial_handler w' = Some hd'
      /\ line_of hd' port = Some ser'
      /\ inbox ser' = []
      /\ connected_ports hd' = connected_ports hd
      /\ trace w' = trace w.
Proof.
  induction lines as [| l rest IH];
    intros fuel port w h path rows hd ser Hc Hrows Hh Hline Hread Hin Hfuel.
  - exists w, hd, ser.
    destruct (line_of_find _ _ _ Hline) as (k & Hf).
    assert (E : on_handler (ESP32SerialHandler.in_waiting port) w
                = Ret false w).
    { rewrite <- (set_link_same w hd Hh) at 2.
      apply (on_handler_Ret _ w hd); [exact Hh |].
      unfold ESP32SerialHandler.in_waiting.
      rewrite (bind_Ret _ _ _ hd (hd, trace w)) by reflexivity.
      rewrite Hf, Hread, Hin. reflexivity. }
    split.
    { destruct fuel; cbn [drain]; now rewrite (bind_Ret _ _ _ _ _ E). }
    unfold packets. cbn [List.filter map length].
    rewrite app_nil_r, Nat.add_0_r. auto 10.
  - destruct fuel as [| fuel]; [cbn in Hfuel; lia |].
    destruct (line_of_find _ _ _ Hline) as (k & Hf).
    assert (E : on_handler (ESP32SerialHandler.in_waiting port) w
                = Ret true w).
    { rewrite <- (set_link_same w hd Hh) at 2.
      apply (on_handler_Ret _ w hd); [exact Hh |].
      unfold ESP32SerialHandler.in_waiting.
      rewrite (bind_Ret _ _ _ hd (hd, trace w)) by reflexivity.
      rewrite Hf, Hread, Hin. reflexivity. }
    set (ser1 := {| writable := writable ser; readable := readable ser;
                    inbox := rest |}).
    set (hd1 := set_serial_connections
                  (dict_set port ser1 (serial_connections hd)) hd).
    set (w1 := set_link hd1 (trace w) w).
    assert (E1 : on_handler (ESP32SerialHandler.readline port) w
                 = Ret l w1).
    { apply (on_handler_Ret _ w hd); [exact Hh |].
      unfold ESP32SerialHandler.readline.
      rewrite (bind_Ret _ _ _ hd (hd, trace w)) by reflexivity.
      rewrite Hf, Hin. reflexivity. }
    assert (Hline1 : line_of hd1 port = Some ser1).
    { unfold line_of. subst hd1. fields.
      now rewrite (find_dict_set port ser1 _ _ _ Hf). }
    assert (Hports1 : connected_ports hd1 = connected_ports hd).
    { apply connected_ports_flags. unfold line_flags. subst hd1. fields.
      now apply (dict_set_flags port ser _ _ k). }
    cbn [drain].
    rewrite (bind_Ret _ _ _ _ _ E), (bind_Ret _ _ _ _ _ E1).
    rewrite (bind_Ret _ _ _ _ _ (forward_is_add_data l w1)).
    fold drain.
    destruct (Py.startswith l marker) eqn:Hm.
    + rewrite (add_data_accepted w1 h path l Hc Hm). cbn [state_of].
      destruct (IH fuel port (accepted_world path l w1) h path
                  (rows ++ [packet_row (clock w) l])%list hd1 ser1)
        as (w' & hd' & ser' & Ed & Hfiles & Hcount & Hc' & Hh' & Hl' & He'
            & Hp' & Ht');
        [exact Hc | | reflexivity | exact Hline1 | exact Hread | reflexivity
         | cbn in Hfuel; lia |].
      { unfold accepted_world, appended. subst w1. fields.
        rewrite lookup_insert_eq, Hrows. reflexivity. }
      exists w', hd', ser'. split; [exact Ed |].
      unfold packets in *. cbn [List.filter]. rewrite Hm. cbn [map length].
      split; [rewrite Hfiles, <- app_assoc; reflexivity |].
      split; [rewrite Hcount; unfold accepted_world; subst w1; fields; lia |].
      split; [exact Hc' |]. split; [exact Hh' |]. split; [exact Hl' |].
      split; [exact He' |]. split; [congruence | exact Ht'].
    + rewrite (add_data_turned_away w1 l (or_intror (or_intror Hm))).
      cbn [state_of].
      destruct (IH fuel port w1 h path rows hd1 ser1)
        as (w' & hd' & ser' & Ed & Hfiles & Hcount & Hc' & Hh' & Hl' & He'
            & Hp' & Ht');
        [exact Hc | exact Hrows | reflexivity | exact Hline1 | exact Hread
         | reflexivity | cbn in Hfuel; lia |].
      exists w', hd', ser'. split; [exact Ed |].
      unfold packets in *. cbn [List.filter]. rewrite Hm.
      split; [exact Hfiles |]. split; [exact Hcount |].
      split; [exact Hc' |]. split; [exact Hh' |]. split; [exact Hl' |].
      split; [exact He' |]. split; [congruence | exact Ht'].
Qed.

(** X18. What a reader thread does with the lines that wait on its port.
    During a session (the collector collecting into the session file), on a
    line that can be read, the inner loop of the reader comes to its end
    once it has read every waiting line: the lines that begin with the
    marker have become rows of the session file, in the order in which they
    waited and behind the rows that were there, the packet count has grown
    by their number, the other lines are dropped, nothing is left waiting
    on the port, and nothing has been written to any radio. *)
Theorem drain_forwards_packets (fuel : nat) (port : string) (w : World)
  (h : nat) (path : string) (rows : list row) (hd : ESP32SerialHandler)
  (ser : Serial) :
  collecting w h path = true ->
  files w !! path = Some rows ->
  esp32_serial_handler w = Some hd ->
  line_of hd port = Some ser ->
  readable ser = true ->
  length (inbox ser) <= fuel ->
  exists w' hd' ser',
    drain fuel port w = Ret true w'
    /\ files w' !! path
       = Some (rows ++ map (packet_row (clock w)) (packets (inbox ser)))%list
    /\ packet_count (csi_collector w')
       = packet_count (csi_collector w) + length (packets (inbox ser))
    /\ collecting w' h path = true
    /\ esp32_serial_handler w' = Some hd'
    /\ line_of hd' port = Some ser'
    /\ inbox ser' = []
    /\ connected_ports hd' = connected_ports hd
    /\ trace w' = trace w.
Proof.
  intros Hc Hrows Hh Hline Hread Hfuel.
  now apply (drain_run (inbox ser) fuel port w h path rows hd ser).
Qed.
Lemma drain_forwards_packets_witness :
  exists w',
    drain 3 "/dev/ttyUSB0" w_waiting = Ret true w'
    /\ files w' !! csv_name "5"
       = Some [headers; packet_row noon full_line;
               packet_row noon garbled_line]
    /\ packet_count (csi_collector w') = 2.
Proof.
  edestruct (drain_forwards_packets 3 "/dev/ttyUSB0" w_waiting 0
               (csv_name "5") [headers])
    as (w' & hd' & ser' & E & Hf & Hn & _);
    [reflexivity | reflexivity | reflexivity | reflexivity | reflexivity
     | simpl; lia |].
  exists w'. split; [exact E |]. split; [exact Hf | exact Hn].
Defined.

(** ** Stopping twice *)

(** X19. A second stop request is refused. After [stop_collection] has
    stopped a running session, the next [stop_collection] answers 400, "No
    active collection", and changes nothing. *)
Theorem second_stop_is_refused (w : World) :
  collection_active w = true ->
  active (csi_collector w) = true ->
  exists r v w',
    Controller.stop_collection w = Ret (Stopped r v) w'
    /\ Controller.stop_collection w'
       = Ret (Error 400 "No active collection") w'.
Proof.
  intros Hbusy Hact.
  destruct (stop_collection_run w Hbusy Hact)
    as (r & v & w' & E & _ & _ & Hoff & _).
  exists r, v, w'. split; [exact E |].
  unfold Controller.stop_collection, try_except.
  rewrite (bind_Ret _ _ w' false w') by (unfold gets; now rewrite Hoff).
  reflexivity.
Qed.

Lemma second_stop_is_refused_witness :
  exists r v w',
    Controller.stop_collection w_session = Ret (Stopped r v) w'
    /\ Controller.stop_collection w'
       = Ret (Error 400 "No active collection") w'.
Proof.
  apply (second_stop_is_refused w_session); reflexivity.
Defined.

(** ** Reading a session file back *)

Lemma rssi_after_of_row (r : row) (old : option Py.pyfloat) :
  rssi_after r old
  = match rssi_of_row r with Some v => Some v | None => old end.
Proof.
  unfold rssi_after, rssi_of_row.
  destruct (4 <=? length r)%nat eqn:Hlen.
  - destruct (r !! 3%nat) as [f |]; [| reflexivity].
    destruct (String.eqb f "") eqn:Hf; [| reflexivity].
    apply String.eqb_eq in Hf as ->. reflexivity.
  - apply Nat.leb_gt in Hlen.
    rewrite (proj2 (lookup_ge_None r 3)) by lia. reflexivity.
Qed.

(** the latest signal strength after the rows of a session *)
Lemma rssi_after_rows (rows : list row) :
  forall old : option Py.pyfloat,
    fold_left (fun old r => rssi_after r old) rows old
    = match last (omap rssi_of_row rows) with
      | Some v => Some v
      | None => old
      end.
Proof.
  induction rows as [| r rows IH]; intros old; [reflexivity |].
  cbn [fold_left]. rewrite IH, rssi_after_of_row.
  change (omap rssi_of_row (r :: rows))
    with (match rssi_of_row r with
          | Some v => v :: omap rssi_of_row rows
          | None => omap rssi_of_row rows
          end).
  destruct (rssi_of_row r) as [v |]; [| reflexivity].
  rewrite last_cons. destruct (last (omap rssi_of_row rows)); reflexivity.
Qed.

(** the file and the latest signal strength after a feed *)
Lemma feed_rssi (inputs : list (Clock * string)) :
  forall (w : World) (h : nat) (path : string) (rows : list row),
    collecting w h path = true ->
    files w !! path = Some rows ->
    exists answers w',
      feed inputs w = Ret answers w'
      /\ files w' !! path = Some (rows ++ session_rows inputs)%list
      /\ latest_rssi (csi_collector w')
         = fold_left (fun old r => rssi_after r old) (session_rows inputs)
             (latest_rssi (csi_collector w))
      /\ length (session_rows inputs) = accepted answers.
Proof.
  induction inputs as [| [now line] rest IH]; intros w h path rows Hc Hrows.
  - exists [], w. split; [reflexivity |]. unfold session_rows.
    cbn [List.filter map fold_left]. rewrite app_nil_r. auto.
  - cbn [feed].
    rewrite (bind_Ret _ _ w tt (set_clock now w)) by reflexivity.
    unfold session_rows. cbn [List.filter].
    destruct (Py.startswith line marker) eqn:Hm.
    + rewrite (bind_Ret _ _ _ _ _
                 (add_data_accepted (set_clock now w) h path line Hc Hm)).
      destruct (IH (accepted_world path line (set_clock now w)) h path
                  (rows ++ [packet_row now line])%list Hc)
        as (answers & w' & Hrun & Hfiles & Hrssi & Hlen).
      { unfold accepted_world, appended. fields.
        rewrite lookup_insert_eq, Hrows. reflexivity. }
      exists (true :: answers), w'.
      rewrite (bind_Ret _ _ _ _ _ Hrun). split; [reflexivity |].
      cbn [map fold_left length].
      split; [rewrite Hfiles, <- app_assoc; reflexivity |].
      split; [exact Hrssi |].
      unfold session_rows in Hlen. rewrite Hlen. reflexivity.
    + rewrite (bind_Ret _ _ _ _ _
                 (add_data_turned_away (set_clock now w) line
                    (or_intror (or_intror Hm)))).
      destruct (IH (set_clock now w) h path rows Hc Hrows)
        as (answers & w' & Hrun & Hfiles & Hrssi & Hlen).
      exists (false :: answers), w'.
      rewrite (bind_Ret _ _ _ _ _ Hrun). split; [reflexivity |].
      split; [exact Hfiles |]. split; [exact Hrssi | exact Hlen].
Qed.

Lemma mapM_option_cons {A B} (f : A -> option B) (x : A) (l : list A) :
  mapM f (x :: l)
  = match f x with
    | Some y => match mapM f l with Some k => Some (y :: k) | None => None end
    | None => None
    end.
Proof. cbn. destruct (f x); reflexivity. Qed.

(** the rows of a session that read back as written, read back as written
    behind the header *)
Lemma read_rows_session (rows : list row) :
  forallb reads_back rows = true ->
  read_rows (headers :: rows) = Some (headers :: rows).
Proof.
  intros Hplain. unfold read_rows.
  assert (Hrows : mapM (mapM read_field) rows = Some rows).
  { induction rows as [| r rows IH]; [reflexivity |].
    cbn [forallb] in Hplain. apply andb_prop in Hplain as [Hr Hrest].
    apply bool_decide_eq_true_1 in Hr.
    now rewrite mapM_option_cons, Hr, (IH Hrest). }
  rewrite mapM_option_cons, Hrows.
  replace (mapM read_field headers) with (Some headers)
    by (vm_compute; reflexivity).
  reflexivity.
Qed.

(** X20. The overview reads a session file the way the collector tracked
    it. Take a session whose file holds the header alone, as [start] leaves
    it, and feed it any lines whose rows read back as they are written (no
    field holds a carriage return or more than 131072 characters). Then
    [load_csi_data_for_overview] on the session file changes nothing and
    gives the signal strengths of the accepted lines whose fourth column
    reads as a number, in order - or [None] when there is none. The last of
    them is the collector's latest signal strength; when there is none, the
    collector still has the value it had before the feed. *)
Theorem overview_agrees_with_collector
  (w : World) (h : nat) (path : string) (inputs : list (Clock * string)) :
  collecting w h path = true ->
  files w !! path = Some [headers] ->
  forallb reads_back (session_rows inputs) = true ->
  exists answers w' overview,
    feed inputs w = Ret answers w'
    /\ load_csi_data_for_overview path w' = Ret overview w'
    /\ overview
       = match omap rssi_of_row (session_rows inputs) with
         | [] => None
         | values => Some values
         end
    /\ latest_rssi (csi_collector w')
       = match overview with
         | Some values => last values
         | None => latest_rssi (csi_collector w)
         end.
Proof.
  intros Hc Hfile Hplain.
  destruct (feed_rssi inputs w h path [headers] Hc Hfile)
    as (answers & w' & E & Hfiles & Hrssi & _).
  exists answers, w'. eexists. split; [exact E |].
  split; [| split; [reflexivity |]].
  { unfold load_csi_data_for_overview, try_except.
    rewrite (bind_Ret _ _ w' (files w') w') by reflexivity.
    rewrite Hfiles. cbn [app]. rewrite (read_rows_session _ Hplain).
    cbv zeta. unfold ret.
    destruct (omap rssi_of_row (session_rows inputs)); reflexivity. }
  rewrite Hrssi, rssi_after_rows.
  destruct (omap rssi_of_row (session_rows inputs)) as [| v vs];
    [reflexivity |].
  destruct (last (v :: vs)) eqn:Hl; [reflexivity |].
  apply last_None in Hl. discriminate Hl.
Qed.

Lemma overview_agrees_with_collector_witness :
  exists w',
    feed [(noon, full_line); (later, garbled_line); (later, "noise")]
      w_session
    = Ret [true; true; false] w'
    /\ load_csi_data_for_overview (csv_name "5") w'
       = Ret (Some [Py.Finite (-74)]) w'
    /\ latest_rssi (csi_collector w') = Some (Py.Finite (-74)).
Proof.
  destruct (overview_agrees_with_collector w_session 0 (csv_name "5")
              [(noon, full_line); (later, garbled_line); (later, "noise")])
    as (answers & w' & overview & E & Eo & Ho & Hr);
    [reflexivity | reflexivity | vm_compute; reflexivity |].
  assert (Hw : Ret answers w'
               = feed [(noon, full_line); (later, garbled_line);
                       (later, "noise")] w_session)
    by (symmetry; exact E).
  vm_compute in Ho. subst overview.
  vm_compute in Hw. injection Hw as -> ->.
  eexists. split; [vm_compute; reflexivity |].
  split; [exact Eo | exact Hr].
Defined.

(** ** Scanning for radios *)

(** X21. The scan and the discovery agree on what a radio is. With serial
    support, [scan_esp32] changes nothing and lists, in the order of the
    machine's ports and with their count, exactly the ports that
    [auto_connect] takes for an ESP32; so every port that a discovery
    connects, on whatever handler, is either one that was connected already
    or one that the scan lists. Without serial support the scan answers
    400. *)
Theorem scan_agrees_with_discovery (w : World) :
  (exists devs,
      scan_esp32 true w = Ret (Scanned devs (length devs)) w
      /\ map scan_port devs
         = map device (List.filter ESP32SerialHandler.is_esp32 (ports w))
      /\ forall (h : ESP32SerialHandler) (t : list event) (name : string),
          In name (connected_ports
                     (fst (state_of
                             (ESP32SerialHandler.auto_connect (ports w)
                                (h, t))))) ->
          In name (connected_ports h) \/ In name (map scan_port devs))
  /\ scan_esp32 false w = Ret (ScanError 400 "Serial not available") w.
Proof.
  split; [| reflexivity].
  eexists. split; [reflexivity |].
  assert (Hmap : forall l : list PortInfo,
             map scan_port
               (map (fun port =>
                       {| scan_port := device port;
                          scan_description := description port;
                          scan_vid_pid := ESP32SerialHandler.vid_pid port |})
                  l)
             = map device l).
  { intros l. rewrite map_map. reflexivity. }
  split.
  - rewrite Hmap. reflexivity.
  - intros h t name Hin. rewrite Hmap.
    destruct (auto_connect_run (ports w) h t)
      as (h' & t' & E & _ & Hiff & _).
    rewrite E in Hin. cbn [state_of fst] in Hin.
    apply Hiff in Hin as [Hold | (p & Hp & Hd & Hok)]; [left; exact Hold |].
    right. rewrite <- Hd. apply in_map, filter_In.
    split; [exact Hp |].
    unfold connectable in Hok. apply andb_prop in Hok as [Hok _].
    apply andb_prop in Hok as [Hm _]. exact Hm.
Qed.
